(** * GoShare: the path-scoped HTTP file gateway

    A shallow embedding of [internal/server] (the file handler, the upload
    handler, the JSON listing API, the auth middleware and the router set up
    by [StartServer]) together with the properties the specification states
    about it.

    Conventions.
    - Go strings are byte strings: [string] of the Standard Library.
    - [int64] values are [Z]; the only arithmetic on them ([formatFileSize])
      stays far below 2^63, which is proved where it matters.
    - The handlers mutate an [http.ResponseWriter] and the file system; both
      live in a [World] that is threaded through a small state monad.
    - Functions of Go's standard library ([path/filepath], [strings],
      [sort], [os], [net/http]) are modelled by their documented behaviour
      on a Unix system; each model says so in its comment. *)

From Stdlib Require Import String Ascii List ZArith Lia Bool Arith.
From Stdlib Require Import Sorted Permutation DecimalString.
Import ListNotations.
Open Scope string_scope.
Open Scope list_scope.

(** ** Strings: the [strings] package *)

Module Strings.

(** [strings.HasPrefix(s, prefix)]. *)
Definition HasPrefix (s prefix : string) : bool := String.prefix prefix s.

(** [s[n:]]. *)
Fixpoint drop (n : nat) (s : string) : string :=
  match n, s with
  | O, _ => s
  | S n', String _ s' => drop n' s'
  | S _, EmptyString => EmptyString
  end.

(** [strings.TrimPrefix(s, prefix)]. *)
Definition TrimPrefix (s prefix : string) : string :=
  if HasPrefix s prefix then drop (String.length prefix) s else s.

(** [strings.Contains(s, substr)]. *)
Definition Contains (s substr : string) : bool :=
  match String.index 0 substr s with
  | Some _ => true
  | None => false
  end.

(** One byte of [strings.ToLower]: 'A'..'Z' go to 'a'..'z'.  Bytes outside
    ASCII are left alone (Go maps non-ASCII runes with [unicode.ToLower];
    the ordering results below do not depend on which map is used). *)
Definition lowerByte (c : ascii) : ascii :=
  let n := N_of_ascii c in
  if ((65 <=? n) && (n <=? 90))%N then ascii_of_N (n + 32) else c.

Fixpoint ToLower (s : string) : string :=
  match s with
  | EmptyString => EmptyString
  | String c s' => String (lowerByte c) (ToLower s')
  end.

(** Go's [a < b] on strings: bytewise lexicographic order. *)
Definition lt (a b : string) : bool := String.ltb a b.

(** [strings.HasSuffix(s, suffix)]. *)
Fixpoint HasSuffix (s suffix : string) : bool :=
  (s =? suffix)
  || match s with
     | EmptyString => false
     | String _ s' => HasSuffix s' suffix
     end.

(** [strings.Cut(s, sep)] for a separator of one byte: what stands before
    the first [sep] and what stands after it, or all of [s] and [None]. *)
Fixpoint Cut (s : string) (sep : ascii) : string * option string :=
  match s with
  | EmptyString => (EmptyString, None)
  | String c s' =>
      if Ascii.eqb c sep then (EmptyString, Some s')
      else (String c (fst (Cut s' sep)), snd (Cut s' sep))
  end.

(** The same at the last [sep] ([strings.LastIndex]). *)
Fixpoint CutLast (s : string) (sep : ascii) : option (string * string) :=
  match s with
  | EmptyString => None
  | String c s' =>
      match CutLast s' sep with
      | Some (before, after) => Some (String c before, after)
      | None => if Ascii.eqb c sep then Some (EmptyString, s') else None
      end
  end.

End Strings.

(** ** Paths: the [path/filepath] package on Unix

    [Clean] follows the four rules of the package documentation: runs of
    separators collapse, [.] elements disappear, an inner [..] removes the
    element before it, and a [..] at the start of a rooted path disappears.
    The model works on the path elements; the library works on the bytes
    with the same outcome. *)

Module Filepath.

Definition Separator : ascii := "/"%char.

(** The elements between separators, empty ones included. *)
Fixpoint elements (s : string) : list string :=
  match s with
  | EmptyString => [EmptyString]
  | String c s' =>
      if Ascii.eqb c Separator then EmptyString :: elements s'
      else match elements s' with
           | [] => [String c EmptyString]
           | e :: es => String c e :: es
           end
  end.

Definition rooted (s : string) : bool :=
  match s with
  | String c _ => Ascii.eqb c Separator
  | EmptyString => false
  end.

(** The element loop of [Clean].  [out] is the output so far, last element
    first.  A [..] backtracks over the last real element; at the start of a
    rooted path it is dropped, otherwise it is kept (and then shields the
    [..] prefix from later backtracking). *)
Fixpoint cleanElems (isRooted : bool) (out : list string) (elems : list string)
  : list string :=
  match elems with
  | [] => rev out
  | e :: rest =>
      if (e =? "") || (e =? ".") then cleanElems isRooted out rest
      else if e =? ".." then
        match out with
        | top :: out' =>
            if top =? ".." then cleanElems isRooted (e :: out) rest
            else cleanElems isRooted out' rest
        | [] =>
            if isRooted then cleanElems isRooted [] rest
            else cleanElems isRooted [e] rest
        end
      else cleanElems isRooted (e :: out) rest
  end.

Definition render (isRooted : bool) (elems : list string) : string :=
  if isRooted then "/" ++ String.concat "/" elems
  else match elems with
       | [] => "."
       | _ => String.concat "/" elems
       end.

(** [filepath.Clean]. *)
Definition Clean (path : string) : string :=
  render (rooted path) (cleanElems (rooted path) [] (elements path)).

(** [filepath.Join]: the elements from the first non-empty one on are
    joined with the separator and cleaned; no non-empty element gives the
    empty string. *)
Fixpoint Join (elem : list string) : string :=
  match elem with
  | [] => ""
  | e :: rest =>
      if e =? "" then Join rest else Clean (String.concat "/" elem)
  end.

(** Index just past the last separator of [s], as a prefix length. *)
Fixpoint lastSep (s : string) : option nat :=
  match s with
  | EmptyString => None
  | String c s' =>
      match lastSep s' with
      | Some i => Some (S i)
      | None => if Ascii.eqb c Separator then Some 0 else None
      end
  end.

(** [filepath.Dir]: everything up to and including the last separator,
    cleaned. *)
Definition Dir (path : string) : string :=
  match lastSep path with
  | Some i => Clean (String.substring 0 (S i) path)
  | None => Clean ""
  end.

(** [filepath.Ext]: the suffix of the last element starting at its last
    dot, or the empty string. *)
Fixpoint Ext (path : string) : string :=
  match path with
  | EmptyString => ""
  | String c s' =>
      match Ext s' with
      | EmptyString =>
          if Ascii.eqb c "."%char
          then (if Strings.Contains s' "/" then "" else path)
          else ""
      | e => e
      end
  end.

Fixpoint stripCommon (base targ : list string) : list string * list string :=
  match base, targ with
  | b :: base', t :: targ' =>
      if b =? t then stripCommon base' targ' else (base, targ)
  | _, _ => (base, targ)
  end.

Definition cleanedElems (path : string) : list string :=
  cleanElems (rooted path) [] (elements path).

(** [filepath.Rel]: [None] is the error result.  Both paths are cleaned;
    the common leading elements are skipped; every base element left costs
    one [..]; what is left of the target follows.  The server only calls it
    with rooted paths, where no [..] element survives cleaning. *)
Definition Rel (basepath targpath : string) : option string :=
  if Clean targpath =? Clean basepath then Some "."
  else if negb (Bool.eqb (rooted (Clean basepath)) (rooted (Clean targpath)))
  then None
  else
    match stripCommon (cleanedElems basepath) (cleanedElems targpath) with
    | (".." :: _, _) => None
    | (baseLeft, targLeft) =>
        Some (String.concat "/" (map (fun _ => "..") baseLeft ++ targLeft))
    end.

End Filepath.

Import Strings Filepath.


(** ** The file system: package [os]

    A tree of regular files and directories.  Every node carries its
    modification time and whether the server process may access it (read,
    write and search alike); a directory also carries the size [Stat]
    reports for it.  Directory entries are kept in the order [os.ReadDir]
    returns them, by name.  There are no symbolic links, and the working
    directory of the process is the root. *)

Unset Elimination Schemes.
Inductive Node : Type :=
| File (content : string) (modTime : Z) (access : bool)
| Dir (entries : list (string * Node)) (size : Z) (modTime : Z) (access : bool).
Set Elimination Schemes.

(** What [os.FileInfo] offers. *)
Record OsFileInfo : Type := mkInfo {
  Name : string;
  Size : Z;
  ModTime : Z;
  IsDir : bool
}.

Module Os.

Definition info (name : string) (n : Node) : OsFileInfo :=
  match n with
  | File content mt _ => mkInfo name (Z.of_nat (String.length content)) mt false
  | Dir _ sz mt _ => mkInfo name sz mt true
  end.

Fixpoint findEntry (name : string) (es : list (string * Node)) : option Node :=
  match es with
  | [] => None
  | (n, c) :: rest => if n =? name then Some c else findEntry name rest
  end.

(** Replaces the entry called [name], or inserts it at its place in name
    order. *)
Fixpoint putEntry (name : string) (c : Node) (es : list (string * Node))
  : list (string * Node) :=
  match es with
  | [] => [(name, c)]
  | (n, c') :: rest =>
      if n =? name then (name, c) :: rest
      else if Strings.lt name n then (name, c) :: es
      else (n, c') :: putEntry name c rest
  end.

Fixpoint delEntry (name : string) (es : list (string * Node))
  : list (string * Node) :=
  match es with
  | [] => []
  | (n, c) :: rest =>
      if n =? name then delEntry name rest else (n, c) :: delEntry name rest
  end.

(** The names a path walks through from the root. *)
Definition pathElems (path : string) : list string :=
  cleanElems true [] (elements path).

(** The last element of a path, as [FileInfo.Name] reports it. *)
Definition baseName (path : string) : string :=
  match rev (pathElems path) with
  | [] => "/"
  | e :: _ => e
  end.

Inductive Error : Type :=
| ErrNotExist      (* ENOENT: [os.IsNotExist] holds *)
| ErrOther.        (* EACCES, ENOTDIR, EISDIR, ... *)

Fixpoint lookup (n : Node) (elems : list string) : Error + Node :=
  match elems with
  | [] => inr n
  | e :: rest =>
      match n with
      | File _ _ _ => inl ErrOther
      | Dir es _ _ a =>
          if a then
            match findEntry e es with
            | Some c => lookup c rest
            | None => inl ErrNotExist
            end
          else inl ErrOther
      end
  end.

(** Rewrites the place called by the last element of [elems] in its
    directory: [f] sees what is there ([None] when the name is free) and
    answers with the new content of that place ([Some None] leaves it
    empty), or with an error.  The directories on the way must exist and
    be accessible. *)
Fixpoint alter (f : option Node -> option (option Node))
         (elems : list string) (n : Node) : option Node :=
  match elems, n with
  | e :: rest, Dir es sz mt true =>
      match rest with
      | [] =>
          match f (findEntry e es) with
          | Some (Some c') => Some (Dir (putEntry e c' es) sz mt true)
          | Some None => Some (Dir (delEntry e es) sz mt true)
          | None => None
          end
      | _ =>
          match findEntry e es with
          | Some c =>
              match alter f rest c with
              | Some c' => Some (Dir (putEntry e c' es) sz mt true)
              | None => None
              end
          | None => None
          end
      end
  | _, _ => None
  end.

(** [os.MkdirAll] below an existing node: missing directories are made on
    the way down; a regular file or an inaccessible directory on the way
    is an error. *)
Fixpoint mkdirAll (now : Z) (elems : list string) (n : Node) : option Node :=
  match n with
  | File _ _ _ => None
  | Dir es sz mt a =>
      match elems with
      | [] => Some n
      | e :: rest =>
          if a then
            let child := match findEntry e es with
                         | Some c => c
                         | None => Dir [] 4096 now true
                         end in
            match mkdirAll now rest child with
            | Some c' => Some (Dir (putEntry e c' es) sz mt a)
            | None => None
            end
          else None
      end
  end.

(** [os.Create]: a new empty file, or an existing accessible file
    truncated; a directory at that name is an error. *)
Definition create (now : Z) (elems : list string) (n : Node) : option Node :=
  alter (fun old =>
           match old with
           | None => Some (Some (File "" now true))
           | Some (File _ _ true) => Some (Some (File "" now true))
           | Some _ => None
           end) elems n.

(** The bytes that went through the handle [os.Create] returned. *)
Definition write (now : Z) (data : string) (elems : list string) (n : Node)
  : option Node :=
  alter (fun old =>
           match old with
           | Some (File _ _ a) => Some (Some (File data now a))
           | _ => None
           end) elems n.

(** [os.Remove] of a regular file or an empty directory. *)
Definition remove (elems : list string) (n : Node) : option Node :=
  alter (fun old =>
           match old with
           | Some (File _ _ _) => Some None
           | Some (Dir [] _ _ _) => Some None
           | _ => None
           end) elems n.

End Os.

(** ** Requests and responses: package [net/http] *)

Definition dq : string := String "034"%char EmptyString.
Definition newline : string := String "010"%char EmptyString.

Record URL : Type := mkURL {
  Path : string;                        (* r.URL.Path *)
  Query : list (string * string)        (* r.URL.Query(), in order *)
}.

(** One part of a multipart form that carries a file.  [Filename] is the
    name as [mime/multipart] reports it.  [OpenErr] says that
    [FileHeader.Open] fails; [CopyErrAt = Some k] says that copying the
    part fails after [k] bytes, so that [io.Copy] has written those when it
    reports the error. *)
Record FileHeader : Type := mkFileHeader {
  Filename : string;
  Content : string;
  OpenErr : bool;
  CopyErrAt : option nat
}.

Record Request : Type := mkRequest {
  Method : string;
  Url : URL;
  Cookies : list (string * string);          (* name, value *)
  BasicAuth : option (string * string);      (* r.BasicAuth(): user, password *)
  PostForm : list (string * string);         (* the fields of the body *)
  MultipartFile : option (list (string * FileHeader))
    (* r.MultipartForm.File as (field, part) pairs; None: the body does not
       parse as a multipart form *)
}.

Fixpoint assoc (key : string) (kvs : list (string * string)) : option string :=
  match kvs with
  | [] => None
  | (k, v) :: rest => if k =? key then Some v else assoc key rest
  end.

(** [r.Cookie(name)]: the first cookie of that name. *)
Definition Cookie_of (r : Request) (name : string) : option string :=
  assoc name (Cookies r).

(** [r.FormValue(key)]: the first value, body fields before query
    parameters (the order of a url-encoded form; the properties of uploads
    are stated on the value the field has); empty when there is none. *)
Definition FormValue (r : Request) (key : string) : string :=
  match assoc key (PostForm r ++ Query (Url r)) with
  | Some v => v
  | None => ""
  end.

(** [r.URL.Query().Get(key)]. *)
Definition QueryGet (r : Request) (key : string) : string :=
  match assoc key (Query (Url r)) with
  | Some v => v
  | None => ""
  end.

(** [http.Cookie], with the fields the server sets. *)
Record Cookie : Type := mkCookie {
  CookieName : string;
  CookieValue : string;
  CookiePath : string;
  HttpOnly : bool;
  MaxAge : Z
}.

(** [FileInfo]: one row of the HTML listing. *)
Record FileInfo : Type := mkFileInfo {
  fName : string;
  fPath : string;
  fSize : Z;
  fModTime : Z;
  fIsDir : bool;
  fIcon : string;
  fSizeStr : string
}.

(** [APIFileItem]: one row of the JSON listing. *)
Record APIFileItem : Type := mkAPIFileItem {
  aName : string;
  aPath : string;
  aSize : Z;
  aIsDir : bool;
  aModTime : Z;
  aDownloadCount : Z
}.

Record APIPageData : Type := mkAPIPageData {
  aTitle : string;
  aCurrentPath : string;
  aParentPath : string;
  aFiles : list APIFileItem;
  aHasParent : bool;
  aServerURL : string
}.

(** [PageData].  [QRCodeData] holds the text whose QR code the page embeds
    (the PNG encoder is a library of its own). *)
Record PageData : Type := mkPageData {
  Title : string;
  CurrentPath : string;
  ParentPath : string;
  Files : list FileInfo;
  HasParent : bool;
  ServerURL : string;
  QRCodeData : string;
  HasAuth : bool
}.

(** One entry of a zip archive: [zip.Writer.Create(name)] and the bytes
    copied into it. *)
Record ZipEntry : Type := mkZipEntry {
  zipName : string;
  zipData : string
}.

(** What a handler writes to the body.  Pages and encoded values are kept
    as the value that is rendered. *)
Inductive Chunk : Type :=
| Bytes (s : string)                              (* w.Write, fmt.Fprintln *)
| LoginPage (redirect : URL) (errorMsg : string)  (* loginHTML *)
| ListingPage (data : PageData)                   (* fh.template.Execute *)
| ListingJSON (data : APIPageData)                (* json Encode *)
| ServedContent (name : string) (modTime : Z) (content : string)
                                                  (* http.ServeContent *)
| ZipArchive (entries : list ZipEntry)            (* zip.Writer on w *)
| Frontend (file : string)                        (* the React bundle *)
| RedirectNote (url : string) (code : Z).         (* the link http.Redirect
                                                     writes for a GET *)

(** The response as the handler leaves it. *)
Record Response : Type := mkResponse {
  Header : list (string * string);
  SetCookie : list Cookie;
  Status : option Z;
  Body : list Chunk
}.

(** The calls into package [os], with the path each was given. *)
Inductive FsOp : Type :=
| OpStat (path : string)
| OpReadDir (path : string)
| OpOpen (path : string)
| OpMkdirAll (path : string)
| OpCreate (path : string)
| OpWrite (path : string)
| OpRemove (path : string).

Record World : Type := mkWorld {
  resp : Response;
  fs : Node;
  now : Z;
  ops : list FsOp       (* oldest first *)
}.

Definition emptyResponse : Response := mkResponse [] [] None [].

(** The world a request meets: nothing written, no call made. *)
Definition freshWorld (root : Node) (clock : Z) : World :=
  mkWorld emptyResponse root clock [].

(** *** The handler monad *)

Definition M (A : Type) : Type := World -> A * World.

Definition ret {A : Type} (a : A) : M A := fun w => (a, w).

Definition bind {A B : Type} (m : M A) (k : A -> M B) : M B :=
  fun w => k (fst (m w)) (snd (m w)).

Notation "x <- m ;; k" := (bind m (fun x => k))
  (at level 61, m at next level, right associativity).
Notation "m ;; k" := (bind m (fun _ => k))
  (at level 61, right associativity).

Definition Handler : Type := Request -> M unit.

Definition modifyResp (f : Response -> Response) : M unit :=
  fun w => (tt, mkWorld (f (resp w)) (fs w) (now w) (ops w)).

Definition logOp (o : FsOp) : M unit :=
  fun w => (tt, mkWorld (resp w) (fs w) (now w) (ops w ++ [o])).

Fixpoint setKey (k v : string) (h : list (string * string))
  : list (string * string) :=
  match h with
  | [] => [(k, v)]
  | (k', v') :: rest =>
      if k' =? k then (k, v) :: rest else (k', v') :: setKey k v rest
  end.

(** [w.Header().Set(k, v)]. *)
Definition Header_Set (k v : string) : M unit :=
  modifyResp (fun r => mkResponse (setKey k v (Header r)) (SetCookie r)
                                  (Status r) (Body r)).

(** [w.WriteHeader(code)]; only the first call counts. *)
Definition WriteHeader (code : Z) : M unit :=
  modifyResp (fun r => mkResponse (Header r) (SetCookie r)
                                  (match Status r with
                                   | Some c => Some c
                                   | None => Some code
                                   end) (Body r)).

(** [w.Write]: an implicit 200 when no status was written. *)
Definition Write (c : Chunk) : M unit :=
  modifyResp (fun r => mkResponse (Header r) (SetCookie r)
                                  (match Status r with
                                   | Some c => Some c
                                   | None => Some 200%Z
                                   end) (Body r ++ [c])).

(** [http.SetCookie]. *)
Definition http_SetCookie (c : Cookie) : M unit :=
  modifyResp (fun r => mkResponse (Header r) (SetCookie r ++ [c])
                                  (Status r) (Body r)).

(** [http.Error]. *)
Definition http_Error (msg : string) (code : Z) : M unit :=
  Header_Set "Content-Type" "text/plain; charset=utf-8" ;;
  Header_Set "X-Content-Type-Options" "nosniff" ;;
  WriteHeader code ;;
  Write (Bytes (msg ++ newline)).

(** [http.NotFound]. *)
Definition http_NotFound : M unit := http_Error "404 page not found" 404.

(** *** [http.Redirect]

    The library parses the target with [url.Parse]; a target that parses
    and names neither a scheme nor a host is made absolute against the
    path of the request and cleaned with [path.Clean] in front of its
    query.  Bytes outside ASCII are percent-escaped in the header. *)

Module NetUrl.

Definition between (lo hi : N) (c : ascii) : bool :=
  ((lo <=? N_of_ascii c) && (N_of_ascii c <=? hi))%N.

Definition isLetter (c : ascii) : bool := between 97 122 c || between 65 90 c.
Definition isDigit (c : ascii) : bool := between 48 57 c.
Definition ishex (c : ascii) : bool :=
  isDigit c || between 97 102 c || between 65 70 c.

Definition oneOfBytes (c : ascii) (set : string) : bool :=
  existsb (Ascii.eqb c) (list_ascii_of_string set).

(** [stringContainsCTLByte]: a byte below the space, or 0x7f. *)
Definition stringContainsCTLByte (s : string) : bool :=
  existsb (fun c => (N_of_ascii c <? 32)%N || (N_of_ascii c =? 127)%N)
          (list_ascii_of_string s).

(** [getScheme].  [scheme] holds the bytes read so far; [None] is the
    error "missing protocol scheme". *)
Fixpoint getSchemeFrom (rawURL scheme s : string) : option (string * string) :=
  match s with
  | EmptyString => Some ("", rawURL)
  | String c s' =>
      if isLetter c then getSchemeFrom rawURL (scheme ++ String c "")%string s'
      else if isDigit c || oneOfBytes c "+-." then
        if scheme =? "" then Some ("", rawURL)
        else getSchemeFrom rawURL (scheme ++ String c "")%string s'
      else if Ascii.eqb c ":" then
        if scheme =? "" then None else Some (scheme, s')
      else Some ("", rawURL)
  end.

Definition getScheme (rawURL : string) : option (string * string) :=
  getSchemeFrom rawURL "" rawURL.

(** Whether [unescape] accepts [s] as a path, a fragment or user
    information: every [%] is followed by two hex digits. *)
Fixpoint validEscapes (s : string) : bool :=
  match s with
  | EmptyString => true
  | String c s' =>
      if Ascii.eqb c "%" then
        match s' with
        | String a (String b s'') => ishex a && ishex b && validEscapes s''
        | _ => false
        end
      else validEscapes s'
  end.

(** [validUserinfo]. *)
Definition validUserinfo (s : string) : bool :=
  forallb (fun c => isLetter c || isDigit c || oneOfBytes c "-._:~!$&'()*+,;=%@")
          (list_ascii_of_string s).

(** Whether [parseAuthority] succeeds with an empty host.  (A host part
    that is not empty fails to parse or gives a host that is not empty.) *)
Definition emptyHost (authority : string) : bool :=
  match CutLast authority "@" with
  | None => authority =? ""
  | Some (userinfo, host) =>
      (host =? "") && validUserinfo userinfo
      && match Cut userinfo ":" with
         | (username, Some password) =>
             validEscapes username && validEscapes password
         | (_, None) => validEscapes userinfo
         end
  end.

(** Whether [url.Parse(rawURL)] succeeds with [Scheme == ""] and
    [Host == ""]: the fragment is cut off and must unescape; what is left
    has no control byte; it is ["*"], or it has no scheme, no colon in a
    first segment that does not start with a slash, an authority (after
    [//], but not [///]) without host, and a path that unescapes. *)
Definition hostless (rawURL : string) : bool :=
  let u := fst (Cut rawURL "#") in
  let fragOK := match snd (Cut rawURL "#") with
                | Some frag => validEscapes frag
                | None => true
                end in
  if stringContainsCTLByte u then false
  else if u =? "*" then fragOK
  else
    match getScheme u with
    | None => false
    | Some (scheme, rest) =>
        if negb (scheme =? "") then false
        else
          let rest := fst (Cut rest "?") in
          if negb (HasPrefix rest "/") && Contains (fst (Cut rest "/")) ":"
          then false
          else if HasPrefix rest "//" && negb (HasPrefix rest "///") then
            let authority := fst (Cut (drop 2 rest) "/") in
            let path := match snd (Cut (drop 2 rest) "/") with
                        | Some p => String "/" p
                        | None => EmptyString
                        end in
            emptyHost authority && validEscapes path && fragOK
          else validEscapes rest && fragOK
    end.

Definition hexDigit (n : N) : ascii :=
  match String.get (N.to_nat n) "0123456789abcdef" with
  | Some c => c
  | None => "0"%char
  end.

(** [hexEscapeNonASCII]. *)
Fixpoint hexEscapeNonASCII (s : string) : string :=
  match s with
  | EmptyString => EmptyString
  | String c s' =>
      let n := N_of_ascii c in
      if (128 <=? n)%N
      then String "%" (String (hexDigit (n / 16)) (String (hexDigit (n mod 16))
                                                        (hexEscapeNonASCII s')))
      else String c (hexEscapeNonASCII s')
  end.

End NetUrl.

(** The directory part of [path.Split]: up to and including the last
    slash. *)
Definition splitDir (path : string) : string :=
  match Filepath.lastSep path with
  | Some i => String.substring 0 (S i) path
  | None => ""
  end.

(** The target as [http.Redirect] rewrites it before it is sent.
    ([path.Clean] is [filepath.Clean] on Unix.) *)
Definition redirectURL (r : Request) (url : string) : string :=
  if NetUrl.hostless url then
    let oldpath := if Path (Url r) =? "" then "/" else Path (Url r) in
    let url := if (url =? "") || negb (HasPrefix url "/")
               then (splitDir oldpath ++ url)%string else url in
    let path := fst (Cut url "?") in
    let query := match snd (Cut url "?") with
                 | Some q => String "?" q
                 | None => EmptyString
                 end in
    let cleaned := Clean path in
    ((if HasSuffix path "/" && negb (HasSuffix cleaned "/")
      then cleaned ++ "/" else cleaned) ++ query)%string
  else url.

(** Whether the header map has the key. *)
Definition Header_Has (k : string) : M bool :=
  fun w => (match assoc k (Header (resp w)) with
            | Some _ => true
            | None => false
            end, w).

(** [http.Redirect].  A GET or HEAD request whose answer has no content
    type yet gets one, and a GET the short note with the link. *)
Definition http_Redirect (r : Request) (url : string) (code : Z) : M unit :=
  let url := redirectURL r url in
  hadCT <- Header_Has "Content-Type" ;;
  Header_Set "Location" (NetUrl.hexEscapeNonASCII url) ;;
  (if negb hadCT && ((Method r =? "GET") || (Method r =? "HEAD"))
   then Header_Set "Content-Type" "text/html; charset=utf-8"
   else ret tt) ;;
  WriteHeader code ;;
  (if negb hadCT && (Method r =? "GET")
   then Write (RedirectNote url code)
   else ret tt).

(** *** Calls into [os] *)

Definition os_Stat (path : string) : M (Os.Error + OsFileInfo) :=
  logOp (OpStat path) ;;
  fun w =>
    (match Os.lookup (fs w) (Os.pathElems path) with
     | inl e => inl e
     | inr n => inr (Os.info (Os.baseName path) n)
     end, w).

(** [os.ReadDir]: the entries by name, each with what [entry.Info()]
    gives. *)
Definition os_ReadDir (path : string) : M (option (list OsFileInfo)) :=
  logOp (OpReadDir path) ;;
  fun w =>
    (match Os.lookup (fs w) (Os.pathElems path) with
     | inr (Dir es _ _ true) => Some (map (fun e => Os.info (fst e) (snd e)) es)
     | _ => None
     end, w).

(** [os.Open] of a regular file, and all of its bytes. *)
Definition os_Open (path : string) : M (option string) :=
  logOp (OpOpen path) ;;
  fun w =>
    (match Os.lookup (fs w) (Os.pathElems path) with
     | inr (File content _ true) => Some content
     | _ => None
     end, w).

Definition setFs (n : Node) (w : World) : World :=
  mkWorld (resp w) n (now w) (ops w).

Definition os_MkdirAll (path : string) : M bool :=
  logOp (OpMkdirAll path) ;;
  fun w =>
    match Os.mkdirAll (now w) (Os.pathElems path) (fs w) with
    | Some n => (true, setFs n w)
    | None => (false, w)
    end.

Definition os_Create (path : string) : M bool :=
  logOp (OpCreate path) ;;
  fun w =>
    match Os.create (now w) (Os.pathElems path) (fs w) with
    | Some n => (true, setFs n w)
    | None => (false, w)
    end.

Definition os_Remove (path : string) : M unit :=
  logOp (OpRemove path) ;;
  fun w =>
    match Os.remove (Os.pathElems path) (fs w) with
    | Some n => (tt, setFs n w)
    | None => (tt, w)
    end.

(** [io.Copy(destFile, file)]: the bytes of the part go to the file at
    [destPath]; [false] when reading the part fails on the way, with the
    bytes read so far already written. *)
Definition io_Copy (destPath : string) (fh : FileHeader) : M bool :=
  logOp (OpWrite destPath) ;;
  fun w =>
    let data := match CopyErrAt fh with
                | Some k => String.substring 0 k (Content fh)
                | None => Content fh
                end in
    let w' := match Os.write (now w) data (Os.pathElems destPath) (fs w) with
              | Some n => setFs n w
              | None => w
              end in
    (match CopyErrAt fh with Some _ => false | None => true end, w').

(** ** Formatting: package [fmt] *)

(** [%d]. *)
Definition formatInt (n : Z) : string := NilZero.string_of_int (Z.to_int n).

(** The integer nearest to [num / den], ties to the even one ([den > 0]). *)
Definition roundHalfEven (num den : Z) : Z :=
  let q := (num / den)%Z in
  let r := (num mod den)%Z in
  if (2 * r <? den)%Z then q
  else if (den <? 2 * r)%Z then (q + 1)%Z
  else if Z.even q then q else (q + 1)%Z.

(** [float64(n)] for [0 <= n], as the exact value of the result: the
    nearest number with a 53-bit significand, ties to even. *)
Definition float64OfInt (n : Z) : Z :=
  let bits := (Z.log2 n + 1)%Z in
  if (bits <=? 53)%Z then n
  else let ulp := (2 ^ (bits - 53))%Z in (roundHalfEven n ulp * ulp)%Z.

(** The number of tenths [%.1f] prints for [float64(size) / float64(div)]
    when [div] is a power of two (the quotient of the two floats is then
    exact, and the decimal conversion rounds it to nearest, ties to even). *)
Definition tenths (size div : Z) : Z :=
  roundHalfEven (10 * float64OfInt size) div.

(** [%.1f] of that quotient. *)
Definition formatFloat1 (size div : Z) : string :=
  formatInt (tenths size div / 10) ++ "." ++ formatInt (tenths size div mod 10).

(** ** Listings *)

(** The loop of [formatFileSize]:
    [for n := size / unit; n >= unit; n /= unit { div *= unit; exp++ }].
    [fuel] bounds the number of rounds; [formatFileSize] passes more than
    the loop can use. *)
Fixpoint sizeLoop (fuel : nat) (n div : Z) (exp : nat) : Z * nat :=
  match fuel with
  | O => (div, exp)
  | S fuel' =>
      if (n >=? 1024)%Z
      then sizeLoop fuel' (Z.quot n 1024) (div * 1024)%Z (S exp)
      else (div, exp)
  end.

(** ["KMGTPE"[exp]].  The index is in range for every [int64] size (see
    [sizeLoop_exp_bound]); Go would panic otherwise. *)
Definition unitLetter (exp : nat) : string :=
  match String.get exp "KMGTPE" with
  | Some c => String c EmptyString
  | None => ""
  end.

(** [formatFileSize]. *)
Definition formatFileSize (size : Z) (isDir : bool) : string :=
  if isDir then "-"
  else if (size <? 1024)%Z then formatInt size ++ " B"
  else
    let '(div, exp) :=
      sizeLoop (S (Z.to_nat (Z.log2 size))) (Z.quot size 1024) 1024%Z 0 in
    formatFloat1 size div ++ " " ++ unitLetter exp ++ "B".

Definition oneOf (s : string) (l : list string) : bool :=
  existsb (String.eqb s) l.

(** [getFileIcon]. *)
Definition getFileIcon (filename : string) (isDir : bool) : string :=
  if isDir then "fas fa-folder text-blue-500"
  else
    let ext := ToLower (Ext filename) in
    if oneOf ext [".txt"; ".md"; ".readme"] then "fas fa-file-alt text-gray-600"
    else if oneOf ext [".pdf"] then "fas fa-file-pdf text-red-600"
    else if oneOf ext [".doc"; ".docx"] then "fas fa-file-word text-blue-600"
    else if oneOf ext [".xls"; ".xlsx"] then "fas fa-file-excel text-green-600"
    else if oneOf ext [".ppt"; ".pptx"] then "fas fa-file-powerpoint text-orange-600"
    else if oneOf ext [".zip"; ".rar"; ".7z"; ".tar"; ".gz"]
    then "fas fa-file-archive text-purple-600"
    else if oneOf ext [".jpg"; ".jpeg"; ".png"; ".gif"; ".bmp"; ".svg"; ".webp"]
    then "fas fa-file-image text-pink-600"
    else if oneOf ext [".mp3"; ".wav"; ".flac"; ".aac"; ".ogg"]
    then "fas fa-file-audio text-green-600"
    else if oneOf ext [".mp4"; ".avi"; ".mkv"; ".mov"; ".wmv"; ".flv"]
    then "fas fa-file-video text-red-600"
    else if oneOf ext [".html"; ".htm"; ".css"; ".js"; ".json"; ".xml"]
    then "fas fa-file-code text-blue-600"
    else if oneOf ext [".go"; ".py"; ".java"; ".cpp"; ".c"; ".h"; ".php"; ".rb"; ".rs"]
    then "fas fa-file-code text-green-600"
    else "fas fa-file text-gray-600".

(** [getContentType]. *)
Definition getContentType (filename : string) : string :=
  let ext := ToLower (Ext filename) in
  if oneOf ext [".html"; ".htm"] then "text/html"
  else if ext =? ".css" then "text/css"
  else if ext =? ".js" then "application/javascript"
  else if ext =? ".json" then "application/json"
  else if ext =? ".pdf" then "application/pdf"
  else if ext =? ".txt" then "text/plain"
  else if oneOf ext [".jpg"; ".jpeg"] then "image/jpeg"
  else if ext =? ".png" then "image/png"
  else if ext =? ".gif" then "image/gif"
  else if ext =? ".svg" then "image/svg+xml"
  else if ext =? ".mp3" then "audio/mpeg"
  else if ext =? ".mp4" then "video/mp4"
  else if ext =? ".zip" then "application/zip"
  else "application/octet-stream".

(** *** [sort.Slice]

    The library sorts a slice of fewer than twelve elements by insertion
    and a longer one by pattern-defeating quicksort; either way the result
    is a permutation of the input in which no element is [less] than one
    before it, provided [less] is a strict weak order.  The model is the
    insertion sort: each element moves left while it is [less] than its left
    neighbour.  The properties proved of listings use only
    [sortSlice_perm] and [sortSlice_sorted]. *)

Section SortSlice.
Variable A : Type.
Variable less : A -> A -> bool.

(** [sorted] is the prefix already in order, last element first. *)
Fixpoint sink (x : A) (sorted : list A) : list A :=
  match sorted with
  | [] => [x]
  | y :: rest => if less x y then y :: sink x rest else x :: sorted
  end.

Definition sortSlice (data : list A) : list A :=
  rev (fold_left (fun sorted x => sink x sorted) data []).
End SortSlice.

Arguments sink {A} less x sorted.
Arguments sortSlice {A} less data.

(** The [less] of [serveDirectory]. *)
Definition lessFileInfo (a b : FileInfo) : bool :=
  if negb (Bool.eqb (fIsDir a) (fIsDir b)) then fIsDir a
  else Strings.lt (ToLower (fName a)) (ToLower (fName b)).

(** The [less] of [handleAPIFiles]. *)
Definition lessAPIFileItem (a b : APIFileItem) : bool :=
  if negb (Bool.eqb (aIsDir a) (aIsDir b)) then aIsDir a
  else Strings.lt (aName a) (aName b).

(** ** The file handler *)

Record FileHandler : Type := mkFileHandler {
  rootDir : string;
  serverURL : string;
  password : string
}.

Definition authTrueBody : string :=
  "{" ++ dq ++ "authenticated" ++ dq ++ ": true}".
Definition authFalseBody : string :=
  "{" ++ dq ++ "authenticated" ++ dq ++ ": false}".

(** [serveFile]. *)
Definition serveFile (fh : FileHandler) (r : Request) (fsPath : string)
           (stat : OsFileInfo) : M unit :=
  (if QueryGet r "download" =? "1"
   then Header_Set "Content-Disposition"
          ("attachment; filename=" ++ dq ++ Name stat ++ dq)
   else ret tt) ;;
  Header_Set "Content-Type" (getContentType fsPath) ;;
  file <- os_Open fsPath ;;
  match file with
  | None => http_Error "Could not open file" 500
  | Some content => Write (ServedContent (Name stat) (ModTime stat) content)
  end.

(** The row [serveDirectory] builds for one entry. *)
Definition toFileInfo (urlPath : string) (info : OsFileInfo) : FileInfo :=
  mkFileInfo (Name info)
             (Join [urlPath; Name info])
             (Size info)
             (ModTime info)
             (IsDir info)
             (getFileIcon (Name info) (IsDir info))
             (formatFileSize (Size info) (IsDir info)).

(** [serveDirectory].  [entry.Info()] fails only for an entry that vanished
    since [os.ReadDir]; nothing runs in between here, so every entry has
    its row. *)
Definition serveDirectory (fh : FileHandler) (r : Request)
           (fsPath urlPath : string) : M unit :=
  entries <- os_ReadDir fsPath ;;
  match entries with
  | None => http_Error "Could not read directory" 500
  | Some entries =>
      let files := sortSlice lessFileInfo (map (toFileInfo urlPath) entries) in
      let hasParent := negb (urlPath =? "/") && negb (urlPath =? "") in
      let parentPath :=
        if hasParent
        then (if Filepath.Dir urlPath =? "." then "/" else Filepath.Dir urlPath)
        else "" in
      let data := mkPageData "GoShare - File Browser" urlPath parentPath files
                             hasParent (serverURL fh) (serverURL fh) false in
      Header_Set "Content-Type" "text/html; charset=utf-8" ;;
      Write (ListingPage data)
  end.

(** *** The archive walk

    [filepath.Walk] visits the root and then, below every directory, the
    entries in name order, each under the path [Join(path, name)]; the first
    error the callback returns ends the walk.  A directory that cannot be
    read reaches the callback with that error.  [zw] is the list of entries
    the zip writer has been given, newest first; the result says whether the
    walk ended in an error. *)

(** The callback of [serveDirectoryAsZip] for a regular file. *)
Definition zipFile (fsPath path : string) (content : string) (access : bool)
           (zw : list ZipEntry * list FsOp)
  : list ZipEntry * list FsOp * bool :=
  match Rel fsPath path with
  | None => (zw, true)
  | Some relPath =>
      if access
      then (mkZipEntry relPath content :: fst zw, snd zw ++ [OpOpen path], false)
      else (mkZipEntry relPath "" :: fst zw, snd zw ++ [OpOpen path], true)
  end.

(** The callback for a directory that was read. *)
Definition zipDir (fsPath path : string) (zw : list ZipEntry * list FsOp)
  : list ZipEntry * list FsOp * bool :=
  if path =? fsPath then (zw, false)
  else match Rel fsPath path with
       | None => (zw, true)
       | Some relPath => (mkZipEntry (relPath ++ "/") "" :: fst zw, snd zw, false)
       end.

(** The loop of [walk] over the names of a directory: each entry is
    looked up under [Join(path, name)] and walked by [visit]; the first
    error ends the loop. *)
Fixpoint walkEntries
         (visit : string -> Node -> list ZipEntry * list FsOp
                  -> list ZipEntry * list FsOp * bool)
         (path : string) (es : list (string * Node))
         (zw : list ZipEntry * list FsOp)
  : list ZipEntry * list FsOp * bool :=
  match es with
  | [] => (zw, false)
  | (name, child) :: rest =>
      let filename := Join [path; name] in
      let '(zw', err) :=
        visit filename child (fst zw, snd zw ++ [OpStat filename]) in
      if (err : bool) then (zw', true) else walkEntries visit path rest zw'
  end.

Fixpoint walk (fsPath path : string) (n : Node)
         (zw : list ZipEntry * list FsOp) {struct n}
  : list ZipEntry * list FsOp * bool :=
  match n with
  | File content _ access => zipFile fsPath path content access zw
  | Dir entries _ _ access =>
      let zw := (fst zw, snd zw ++ [OpReadDir path]) in
      if negb access then (zw, true)
      else
        let '(zw1, err) := zipDir fsPath path zw in
        if (err : bool) then (zw1, true)
        else walkEntries (walk fsPath) path entries zw1
  end.

(** [serveDirectoryAsZip].  An error of the walk is only logged: what was
    written stays in the response. *)
Definition serveDirectoryAsZip (fh : FileHandler) (r : Request)
           (fsPath dirName : string) : M unit :=
  Header_Set "Content-Type" "application/zip" ;;
  Header_Set "Content-Disposition"
    ("attachment; filename=" ++ dq ++ (dirName ++ ".zip") ++ dq) ;;
  logOp (OpStat fsPath) ;;
  fun w =>
    match Os.lookup (fs w) (Os.pathElems fsPath) with
    | inr n =>
        let '(entries, calls, _) := walk fsPath fsPath n ([], []) in
        Write (ZipArchive (rev entries))
              (mkWorld (resp w) (fs w) (now w) (ops w ++ calls))
    | inl _ => Write (ZipArchive []) w
    end.

(** *** Upload *)

(** The loop of [handleUpload] over [r.MultipartForm.File["files"]]. *)
Fixpoint uploadLoop (fsDir : string) (files : list FileHeader)
         (uploadedCount : Z) : M Z :=
  match files with
  | [] => ret uploadedCount
  | fileHeader :: rest =>
      if OpenErr fileHeader then uploadLoop fsDir rest uploadedCount
      else
        let destPath := Join [fsDir; Filename fileHeader] in
        created <- os_Create destPath ;;
        if negb created then uploadLoop fsDir rest uploadedCount
        else
          copied <- io_Copy destPath fileHeader ;;
          if negb copied
          then os_Remove destPath ;; uploadLoop fsDir rest uploadedCount
          else uploadLoop fsDir rest (uploadedCount + 1)%Z
  end.

Definition filesOf (field : string) (parts : list (string * FileHeader))
  : list FileHeader :=
  map snd (filter (fun p => fst p =? field) parts).

(** The redirect target of [handleUpload]. *)
Definition uploadRedirect (cleanDir : string) (uploadedCount : Z) : string :=
  if (uploadedCount >? 0)%Z then
    if Contains cleanDir "?"
    then cleanDir ++ "&uploaded=" ++ formatInt uploadedCount
    else cleanDir ++ "?uploaded=" ++ formatInt uploadedCount
  else cleanDir.

(** [handleUpload]. *)
Definition handleUpload (fh : FileHandler) (r : Request) : M unit :=
  match MultipartFile r with
  | None => http_Error "Unable to parse form" 400
  | Some parts =>
      let targetDir :=
        if FormValue r "directory" =? "" then "/" else FormValue r "directory" in
      let cleanDir :=
        if Clean targetDir =? "." then "/" else Clean targetDir in
      let fsDir := Join [rootDir fh; TrimPrefix cleanDir "/"] in
      if negb (HasPrefix fsDir (rootDir fh))
      then http_Error "Access denied" 403
      else
        made <- os_MkdirAll fsDir ;;
        if negb made
        then http_Error "Unable to create directory" 500
        else
          uploadedCount <- uploadLoop fsDir (filesOf "files" parts) 0 ;;
          http_Redirect r (uploadRedirect cleanDir uploadedCount) 303
  end.

(** *** The JSON listing *)

(** The row [handleAPIFiles] builds for one entry. *)
Definition toAPIFileItem (cleanPath : string) (info : OsFileInfo) : APIFileItem :=
  let filePath := Join [cleanPath; Name info] in
  mkAPIFileItem (Name info)
                (if HasPrefix filePath "/" then filePath else "/" ++ filePath)
                (Size info)
                (IsDir info)
                (ModTime info)
                0.

(** [handleAPIFiles]. *)
Definition handleAPIFiles (fh : FileHandler) (r : Request) : M unit :=
  let requestPath := if QueryGet r "path" =? "" then "/" else QueryGet r "path" in
  let cleanPath := if Clean requestPath =? "." then "/" else Clean requestPath in
  let fsPath := Join [rootDir fh; TrimPrefix cleanPath "/"] in
  if negb (HasPrefix fsPath (rootDir fh))
  then http_Error "Access denied" 403
  else
    stat <- os_Stat fsPath ;;
    match stat with
    | inl Os.ErrNotExist => http_NotFound
    | inl Os.ErrOther => http_Error "Internal server error" 500
    | inr stat =>
        if negb (IsDir stat)
        then http_Error "Path is not a directory" 400
        else
          entries <- os_ReadDir fsPath ;;
          match entries with
          | None => http_Error "Cannot read directory" 500
          | Some entries =>
              let visible :=
                filter (fun info => negb (HasPrefix (Name info) ".")) entries in
              let files :=
                sortSlice lessAPIFileItem (map (toAPIFileItem cleanPath) visible) in
              let hasParent := negb (cleanPath =? "/") in
              let parentPath :=
                if hasParent
                then (if Filepath.Dir cleanPath =? "." then "/"
                      else Filepath.Dir cleanPath)
                else "/" in
              Write (ListingJSON
                       (mkAPIPageData "GoShare - File Browser" cleanPath
                                      parentPath files hasParent (serverURL fh)))
          end
    end.

(** [handleAPI].  The encoder writes the map as one line. *)
Definition handleAPI (fh : FileHandler) (r : Request) : M unit :=
  Header_Set "Content-Type" "application/json" ;;
  let path := TrimPrefix (Path (Url r)) "/api" in
  if (path =? "/files") || HasPrefix path "/files/" then handleAPIFiles fh r
  else if path =? "/auth/check" then
    WriteHeader 200 ;;
    Write (Bytes ("{" ++ dq ++ "authenticated" ++ dq ++ ":true}" ++ newline))
  else http_NotFound.

(** *** Dispatch *)

(** The credentials test shared by the status probe and the middleware: a
    session cookie with the fixed value, or Basic-Auth with the password. *)
Definition hasSession (r : Request) : bool :=
  match Cookie_of r "auth_session" with
  | Some v => v =? "authenticated"
  | None => false
  end.

Definition basicAuthMatches (r : Request) (pass : string) : bool :=
  match BasicAuth r with
  | Some (_, p) => p =? pass
  | None => false
  end.

(** [FileHandler.ServeHTTP]. *)
Definition ServeHTTP (fh : FileHandler) : Handler := fun r =>
  Header_Set "Access-Control-Allow-Origin" "*" ;;
  Header_Set "Access-Control-Allow-Methods" "GET, POST, OPTIONS" ;;
  Header_Set "Access-Control-Allow-Headers" "Content-Type, Authorization" ;;
  Header_Set "Access-Control-Allow-Credentials" "true" ;;
  if Method r =? "OPTIONS" then WriteHeader 200
  else if Path (Url r) =? "/api/auth/check" then
    Header_Set "Content-Type" "application/json" ;;
    let isAuthenticated :=
      if password fh =? "" then true
      else if hasSession r then true
      else basicAuthMatches r (password fh) in
    WriteHeader 200 ;;
    (if isAuthenticated then Write (Bytes authTrueBody)
     else Write (Bytes authFalseBody))
  else if HasPrefix (Path (Url r)) "/api/" then handleAPI fh r
  else if (Method r =? "POST") && (Path (Url r) =? "/upload")
  then handleUpload fh r
  else
    let requestPath :=
      if (Path (Url r) =? "") || (Path (Url r) =? "/") then "/"
      else Path (Url r) in
    let cleanPath := if Clean requestPath =? "." then "/" else Clean requestPath in
    let fsPath := Join [rootDir fh; TrimPrefix cleanPath "/"] in
    if negb (HasPrefix fsPath (rootDir fh))
    then http_Error "Access denied" 403
    else
      stat <- os_Stat fsPath ;;
      match stat with
      | inl Os.ErrNotExist => http_NotFound
      | inl Os.ErrOther => http_Error "Internal server error" 500
      | inr stat =>
          if IsDir stat && (QueryGet r "download" =? "zip")
          then serveDirectoryAsZip fh r fsPath (Name stat)
          else if negb (IsDir stat) then serveFile fh r fsPath stat
          else serveDirectory fh r fsPath cleanPath
      end.

(** ** The auth gate *)

(** [showLoginForm]: the page carries [r.URL.String()] in its hidden
    [redirect] field, and the error message when there is one. *)
Definition showLoginForm (r : Request) (errorMsg : string) : M unit :=
  Header_Set "Content-Type" "text/html; charset=utf-8" ;;
  WriteHeader 401 ;;
  Write (LoginPage (Url r) errorMsg).

Definition sessionCookie : Cookie :=
  mkCookie "auth_session" "authenticated" "/" true 86400.

(** [applyAuthMiddleware]. *)
Definition applyAuthMiddleware (h : Handler) (password : string) : Handler :=
  if password =? "" then h
  else fun r =>
    if (Method r =? "POST") && (Path (Url r) =? "/login") then
      let submittedPassword := FormValue r "password" in
      if submittedPassword =? password then
        http_SetCookie sessionCookie ;;
        let redirectTo :=
          if FormValue r "redirect" =? "" then "/" else FormValue r "redirect" in
        http_Redirect r redirectTo 303
      else showLoginForm r "Invalid password. Please try again."
    else if hasSession r then h r
    else if basicAuthMatches r password then h r
    else showLoginForm r "".

(** ** The router of [StartServer]

    [hasFrontend] is the outcome of the one [os.Stat] of
    [<dir>/frontend/build] at start-up.  ([http.ServeMux] redirects a path
    that is not in canonical form before any of this runs.) *)
Definition route (fh : FileHandler) (hasFrontend : bool) : Handler :=
  if hasFrontend then
    fun r =>
      let frontendPath := Join [rootDir fh; "frontend"; "build"] in
      if HasPrefix (Path (Url r)) "/api/" then ServeHTTP fh r
      else if Path (Url r) =? "/login"
      then applyAuthMiddleware (ServeHTTP fh) (password fh) r
      else if Path (Url r) =? "/upload"
      then applyAuthMiddleware (ServeHTTP fh) (password fh) r
      else if HasPrefix (Path (Url r)) "/files/"
      then applyAuthMiddleware (ServeHTTP fh) (password fh) r
      else
        stat <- os_Stat (Join [frontendPath; Path (Url r)]) ;;
        match stat with
        | inl Os.ErrNotExist =>
            if negb (Path (Url r) =? "/")
            then Write (Frontend (Join [frontendPath; "index.html"]))
            else Write (Frontend (Join [frontendPath; Path (Url r)]))
        | _ => Write (Frontend (Join [frontendPath; Path (Url r)]))
        end
  else applyAuthMiddleware (ServeHTTP fh) (password fh).

(** [StartServer]: the handler that ends up listening, for the file system
    found at start-up; [ip] is the answer of [getLocalIP]. *)
Definition StartServer (dir : string) (port : Z) (password : string)
           (ip : string) (root : Node) : Handler :=
  let absDir := if rooted dir then Clean dir else Join ["/"; dir] in
  let handler := mkFileHandler absDir ("http://" ++ ip ++ ":" ++ formatInt port)
                               password in
  let frontendPath := Join [absDir; "frontend"; "build"] in
  route handler
        (match Os.lookup root (Os.pathElems frontendPath) with
         | inr _ => true
         | inl _ => false
         end).

(** The response and the trace of a handler on a fresh world. *)
Definition serve (h : Handler) (r : Request) (root : Node) (clock : Z) : World :=
  snd (h r (freshWorld root clock)).

(** ** Vocabulary of the statements *)

(** The request is the submission of the login form. *)
Definition isLoginPost (r : Request) : bool :=
  (Method r =? "POST") && (Path (Url r) =? "/login").

(** [path] names [root] or something below it. *)
Definition inside (root path : string) : bool :=
  (path =? root) || HasPrefix path (if root =? "/" then "/" else root ++ "/").

(** A request without credentials, form or files. *)
Definition plainRequest (method path : string) (query : list (string * string))
  : Request :=
  mkRequest method (mkURL path query) [] None [] None.

(** A shared directory [/share] holding a dotfile, two files whose names
    differ in case and an empty folder, next to a directory [/share-evil]
    whose name starts with the same bytes. *)
Definition sampleRoot : Node :=
  Dir [("share",
        Dir [(".profile", File "export A=1" 10 true);
             ("B.txt", File "bb" 20 true);
             ("a.txt", File "hello" 30 true);
             ("sub", Dir [] 4096 40 true)] 4096 50 true);
       ("share-evil",
        Dir [("secret.txt", File "s3cret" 60 true)] 4096 70 true)]
      4096 80 true.

Definition sampleHandler (password : string) : FileHandler :=
  mkFileHandler "/share" "http://192.168.1.5:8080" password.

(** The path lines every handler starts with, for the JSON listing: the
    cleaned query value and the file-system path it is joined to. *)
Definition apiCleanPath (r : Request) : string :=
  let requestPath := if QueryGet r "path" =? "" then "/" else QueryGet r "path" in
  if Clean requestPath =? "." then "/" else Clean requestPath.

Definition apiFsPath (fh : FileHandler) (r : Request) : string :=
  Join [rootDir fh; TrimPrefix (apiCleanPath r) "/"].

(** The same lines of [ServeHTTP], on the URL path. *)
Definition browseCleanPath (r : Request) : string :=
  let requestPath :=
    if (Path (Url r) =? "") || (Path (Url r) =? "/") then "/" else Path (Url r) in
  if Clean requestPath =? "." then "/" else Clean requestPath.

Definition browseFsPath (fh : FileHandler) (r : Request) : string :=
  Join [rootDir fh; TrimPrefix (browseCleanPath r) "/"].

(** An element may precede another in a slice sorted by [less]: the later
    one is not [less] than it. *)
Definition inOrder {A : Type} (less : A -> A -> bool) (a b : A) : Prop :=
  less b a = false.

(** The same lines of [handleUpload], on the [directory] field. *)
Definition uploadCleanDir (r : Request) : string :=
  let targetDir :=
    if FormValue r "directory" =? "" then "/" else FormValue r "directory" in
  if Clean targetDir =? "." then "/" else Clean targetDir.

Definition uploadFsDir (fh : FileHandler) (r : Request) : string :=
  Join [rootDir fh; TrimPrefix (uploadCleanDir r) "/"].

(** What happens to one part of an upload. *)
Inductive Outcome : Type :=
| Saved
| OpenFailed
| CreateFailed
| CopyFailed.

(** The outcome of a part in a given world, step by step as the loop body
    tries them: open the part, create the destination, copy. *)
Definition outcome (fsDir : string) (f : FileHeader) (w : World) : Outcome :=
  if OpenErr f then OpenFailed
  else match Os.create (now w) (Os.pathElems (Join [fsDir; Filename f])) (fs w) with
       | None => CreateFailed
       | Some _ => match CopyErrAt f with
                   | Some _ => CopyFailed
                   | None => Saved
                   end
       end.

(** The world after the loop body ran on one part. *)
Definition afterOne (fsDir : string) (f : FileHeader) (w : World) : World :=
  snd (uploadLoop fsDir [f] 0 w).

(** The outcomes of the parts of a request, in order, each in the world
    its predecessors left. *)
Fixpoint outcomes (fsDir : string) (files : list FileHeader) (w : World)
  : list Outcome :=
  match files with
  | [] => []
  | f :: rest => outcome fsDir f w :: outcomes fsDir rest (afterOne fsDir f w)
  end.

Definition isSaved (o : Outcome) : bool :=
  match o with Saved => true | _ => false end.

Definition savedCount (os : list Outcome) : Z :=
  Z.of_nat (length (filter isSaved os)).

(** What is at a place, as [alter] shows it to its argument. *)
Definition at_place (n : Node) (elems : list string) : option Node :=
  match Os.lookup n elems with
  | inr c => Some c
  | inl _ => None
  end.

Definition placed (r : option Node) : Os.Error + Node :=
  match r with
  | Some c => inr c
  | None => inl Os.ErrNotExist
  end.


(** A multipart upload into the root of the share with four parts: the
    second fails while it is copied (after two bytes), the third cannot be
    opened. *)
Definition sampleUpload : Request :=
  mkRequest "POST" (mkURL "/upload" []) [] None [("directory", "/")]
            (Some [("files", mkFileHeader "one.txt" "first" false None);
                   ("files", mkFileHeader "two.txt" "second" false (Some 2%nat));
                   ("files", mkFileHeader "three.txt" "third" true None);
                   ("files", mkFileHeader "four.txt" "fourth" false None)]).

(** *** File names and rooted paths *)

Fixpoint noSep (s : string) : bool :=
  match s with
  | EmptyString => true
  | String c s' => negb (Ascii.eqb c Separator) && noSep s'
  end.

(** A name a directory entry can have: not empty, not [.] or [..], without
    separator. *)
Definition validName (s : string) : bool :=
  negb (s =? "") && negb (s =? ".") && negb (s =? "..") && noSep s.

(** The rooted clean path with the given elements: ["/a/b"] for
    [["a"; "b"]], ["/"] for none. *)
Definition rootedPath (elems : list string) : string := render true elems.

(** Every byte of [s] passes [p]. *)
Fixpoint allBytes (p : ascii -> bool) (s : string) : bool :=
  match s with
  | EmptyString => true
  | String c s' => p c && allBytes p s'
  end.

(** A printing ASCII byte, the space included. *)
Definition printable (c : ascii) : bool :=
  ((32 <=? N_of_ascii c) && (N_of_ascii c <? 127))%N.

(** A printing ASCII byte with no meaning of its own in a URL reference:
    not [%], [?] or [#]. *)
Definition plainByte (c : ascii) : bool :=
  printable c && negb (Ascii.eqb c "%") && negb (Ascii.eqb c "?")
  && negb (Ascii.eqb c "#").

(** An entry name of such bytes. *)
Definition plainName (s : string) : bool := validName s && allBytes plainByte s.

(** Nothing, or a query: [?] and printing ASCII bytes without [#]. *)
Definition plainQuery (q : string) : bool :=
  match q with
  | EmptyString => true
  | String c q' =>
      Ascii.eqb c "?"
      && allBytes (fun b => printable b && negb (Ascii.eqb b "#")) q'
  end.

(** Every node of the tree is accessible and every entry has a valid
    name. *)
Fixpoint readable (n : Node) : bool :=
  match n with
  | File _ _ a => a
  | Dir es _ _ a =>
      a && forallb (fun e => validName (fst e) && readable (snd e)) es
  end.

(** The archive the specification describes for the tree below a
    directory: a file becomes one entry under the names that lead to it
    from the walked root, joined by the separator, with its bytes; a
    subdirectory becomes one entry under its joined names followed by the
    separator, without bytes, and then come the entries of what it
    holds. *)
Fixpoint archiveAt (rel : list string) (n : Node) : list ZipEntry :=
  match n with
  | File content _ _ => [mkZipEntry (String.concat "/" rel) content]
  | Dir es _ _ _ =>
      mkZipEntry (String.concat "/" rel ++ "/") ""
      :: flat_map (fun e => archiveAt (rel ++ [fst e]) (snd e)) es
  end.

Definition archiveOf (n : Node) : list ZipEntry :=
  match n with
  | File _ _ _ => []
  | Dir es _ _ _ => flat_map (fun e => archiveAt [fst e] (snd e)) es
  end.

(** The regular files and the directories strictly below a node. *)
Fixpoint countFiles (n : Node) : nat :=
  match n with
  | File _ _ _ => 1
  | Dir es _ _ _ => list_sum (map (fun e => countFiles (snd e)) es)
  end.

Fixpoint countDirs (n : Node) : nat :=
  match n with
  | File _ _ _ => 0
  | Dir es _ _ _ =>
      list_sum (map (fun e => match snd e with
                              | File _ _ _ => 0
                              | Dir _ _ _ _ => 1 + countDirs (snd e)
                              end) es)
  end.

(** An archive entry for a directory: the name ends in the separator. *)
Fixpoint endsInSep (s : string) : bool :=
  match s with
  | EmptyString => false
  | String c EmptyString => Ascii.eqb c Separator
  | String _ s' => endsInSep s'
  end.

(** The walk below the walked root [rootedPath base] does what the
    specification says at a node: reached through the names [rel], it ends
    without error, and the zip writer received the entries of
    [archiveAt rel], after what it had. *)
Definition walked (base : list string) (n : Node) : Prop :=
  forall (rel : list string) (zw : list ZipEntry * list FsOp),
    Forall (fun e => validName e = true) rel -> rel <> [] ->
    readable n = true ->
    exists calls,
      walk (rootedPath base) (rootedPath (base ++ rel)) n zw
      = ((rev (archiveAt rel n) ++ fst zw, snd zw ++ calls)%list, false).


Definition isDirEntry (e : ZipEntry) : bool := endsInSep (zipName e).

(** A directory [/data] with one file of five bytes and one empty
    folder. *)
Definition smallRoot : Node :=
  Dir [("data", Dir [("a.txt", File "hello" 10 true);
                     ("sub", Dir [] 4096 20 true)] 4096 30 true)]
      4096 40 true.

(** The world after one more call into the file system was recorded. *)
Definition logged (w : World) (o : FsOp) : World :=
  mkWorld (resp w) (fs w) (now w) (ops w ++ [o])%list.

(** Induction over trees: a directory inherits from all of its entries. *)
Section NodeInduction.
Variable P : Node -> Prop.
Hypothesis P_file : forall content mt a, P (File content mt a).
Hypothesis P_dir :
  forall es sz mt a, Forall (fun e => P (snd e)) es -> P (Dir es sz mt a).

Fixpoint Node_induction (n : Node) : P n :=
  match n with
  | File content mt a => P_file content mt a
  | Dir es sz mt a =>
      P_dir es sz mt a
            ((fix entries (es : list (string * Node))
                : Forall (fun e => P (snd e)) es :=
                match es with
                | [] => Forall_nil _
                | (name, c) :: rest =>
                    Forall_cons (name, c) (Node_induction c) (entries rest)
                end) es)
  end.
End NodeInduction.

(** ** Further code: the earlier middleware and the tunnel watcher *)

Module BasicAuthOnly.

(** [applyAuthMiddleware] as the earlier versions of the server have it:
    Basic-Auth only, no login form and no session cookie. *)
Definition applyAuthMiddleware (h : Handler) (password : string) : Handler :=
  if password =? "" then h
  else fun r =>
    match BasicAuth r with
    | Some (_, pass) =>
        if pass =? password then h r
        else
          Header_Set "WWW-Authenticate" ("Basic realm=" ++ dq ++ "go_share_cli" ++ dq) ;;
          http_Error "Unauthorized" 401
    | None =>
        Header_Set "WWW-Authenticate" ("Basic realm=" ++ dq ++ "go_share_cli" ++ dq) ;;
        http_Error "Unauthorized" 401
    end.

End BasicAuthOnly.

(** What one round of [waitForNgrokURL] does with the tunnels ngrok
    reports: the first URL that starts with [https://], else the first one
    that is not empty. *)
Definition pickPublicURL (tunnels : list string) : option string :=
  match find (fun u => HasPrefix u "https://") tunnels with
  | Some u => Some u
  | None => find (fun u => negb (u =? "")) tunnels
  end.

(** [waitForNgrokURL].  [polls] are the answers of ngrok's local API to the
    requests the loop gets to send before its deadline, in order: the
    [public_url] fields of the tunnels, or [None] when the request or the
    decoding of its body failed. *)
Fixpoint waitForNgrokURL (polls : list (option (list string))) : string :=
  match polls with
  | [] => ""
  | Some tunnels :: rest =>
      match pickPublicURL tunnels with
      | Some u => u
      | None => waitForNgrokURL rest
      end
  | None :: rest => waitForNgrokURL rest
  end.

(** *** Vocabulary of the further statements *)

(** A handler step keeps a property of the world. *)
Definition preserves {A : Type} (I : World -> Prop) (m : M A) : Prop :=
  forall w, I w -> I (snd (m w)).

(** The response carries the header [k] with the value [v]. *)
Definition hasHeader (k v : string) (w : World) : Prop :=
  assoc k (Header (resp w)) = Some v.

(** The request is an upload submission. *)
Definition isUploadPost (r : Request) : bool :=
  (Method r =? "POST") && (Path (Url r) =? "/upload").

(** A file extension proper: no dot and no separator inside. *)
Fixpoint plainExt (s : string) : bool :=
  match s with
  | EmptyString => true
  | String c s' =>
      negb (Ascii.eqb c ".") && negb (Ascii.eqb c Separator) && plainExt s'
  end.

(** The request with its credentials taken away. *)
Definition anonymous (r : Request) : Request :=
  mkRequest (Method r) (Url r) [] None (PostForm r) (MultipartFile r).

(** The file handler with another password. *)
Definition withPassword (fh : FileHandler) (pw : string) : FileHandler :=
  mkFileHandler (rootDir fh) (serverURL fh) pw.

(** The file system of the world is [root]. *)
Definition fsIs (root : Node) (w : World) : Prop := fs w = root.

(** The calls into the file system so far start with [l]. *)
Definition opsStart (l : list FsOp) (w : World) : Prop :=
  exists rest, ops w = l ++ rest.

(** Names in strictly increasing byte order. *)
Fixpoint ascending (names : list string) : bool :=
  match names with
  | a :: (b :: _) as rest => Strings.lt a b && ascending rest
  | _ => true
  end.

(** A tree as a file system holds it: in every directory the entries stand
    in name order, no name twice. *)
Fixpoint wellFormed (n : Node) : bool :=
  match n with
  | File _ _ _ => true
  | Dir es _ _ _ =>
      ascending (map fst es) && forallb (fun e => wellFormed (snd e)) es
  end.

(** What [os.Create] accepts at a place: nothing there, or a file that can
    be written. *)
Definition writable (old : option Node) : bool :=
  match old with
  | None => true
  | Some (File _ _ access) => access
  | Some (Dir _ _ _ _) => false
  end.

(** A name of ASCII bytes only, where [strings.ToLower] changes the letters
    [A] to [Z] and nothing else. *)
Definition isASCII (s : string) : bool :=
  allBytes (fun c => (N_of_ascii c <? 128)%N) s.

(** * Properties *)

(** Sample evaluations, taken from the package's documentation of [Clean]
    and [Join]. *)
Example Clean_samples :
  map Clean ["abc//def//ghi"; "/../abc"; "abc/def/../../.."; "abc/./../def";
             "/abc/def/../.."; ""; "../../abc"; "abc/"]
  = ["abc/def/ghi"; "/abc"; ".."; "def"; "/"; "."; "../../abc"; "abc"].
Proof. reflexivity. Qed.

Example Join_samples :
  (Join ["a"; "b"], Join ["a"; ""], Join [""; "b"], Join ["/"; "a"],
   Join ["a/b"; "../../../xyz"], Join [""; ""])
  = ("a/b", "a", "b", "/a", "../xyz", "").
Proof. reflexivity. Qed.

Example Dir_samples :
  map Filepath.Dir ["/a/b"; "/a"; "/"; "a"; ""; "a/b/"; "../share-evil"]
  = ["/a"; "/"; "/"; "."; "."; "a/b"; ".."].
Proof. reflexivity. Qed.

Example Ext_samples :
  map Ext ["a.txt"; "a"; "a.b/c"; "a.b/c.d.e"; ".bashrc"; "x."]
  = [".txt"; ""; ""; ".e"; ".bashrc"; "."].
Proof. reflexivity. Qed.

Example Rel_samples :
  (Rel "/a" "/a/b/c", Rel "/a/b" "/a", Rel "/a/b" "/a/c/d", Rel "/" "/a",
   Rel "/a" "/a", Rel "a" "/b")
  = (Some "b/c", Some "..", Some "../c/d", Some "a", Some ".", None).
Proof. reflexivity. Qed.

Example formatInt_samples :
  map formatInt [0; 7; 1023; -5]%Z = ["0"; "7"; "1023"; "-5"].
Proof. reflexivity. Qed.

Example formatFileSize_samples :
  map (fun n => formatFileSize n false)
      [1536; 1048525; 123456789; 1073741824; 9223372036854775807]%Z
  = ["1.5 KB"; "1024.0 KB"; "117.7 MB"; "1.0 GB"; "8.0 EB"].
Proof. reflexivity. Qed.

(** ** Strings *)

Local Open Scope string_scope.

Lemma eqb_false_of_neq (a b : string) : a <> b -> (a =? b) = false.
Proof. intro H. now apply String.eqb_neq. Qed.

Lemma append_assoc (a b c : string) : (a ++ b) ++ c = a ++ (b ++ c).
Proof. induction a as [|x a IH]; cbn; [reflexivity | now rewrite IH]. Qed.

Lemma prefix_append (a b : string) : String.prefix a (a ++ b) = true.
Proof.
  induction a as [|x a IH]; cbn; [now destruct b|].
  destruct (ascii_dec x x) as [_|H]; [exact IH | now elim H].
Qed.

Lemma append_empty_r (a : string) : a ++ "" = a.
Proof. induction a as [|x a IH]; cbn; [reflexivity | now rewrite IH]. Qed.

(** ** [http.Redirect] *)

(** The answer to a request that is not a GET or HEAD: the rewritten
    target in [Location], the status, nothing else. *)
Lemma http_Redirect_other (r : Request) (url : string) (code : Z) (w : World) :
  (Method r =? "GET") = false -> (Method r =? "HEAD") = false ->
  http_Redirect r url code w
  = (tt, mkWorld (mkResponse
                    (setKey "Location"
                            (NetUrl.hexEscapeNonASCII (redirectURL r url))
                            (Header (resp w)))
                    (SetCookie (resp w))
                    (match Status (resp w) with
                     | Some c => Some c
                     | None => Some code
                     end)
                    (Body (resp w)))
                 (fs w) (now w) (ops w)).
Proof.
  intros Hget Hhead. unfold http_Redirect, bind, Header_Has.
  cbn [fst snd]. rewrite Hget, Hhead.
  now destruct (assoc "Content-Type" (Header (resp w))).
Qed.

Lemma http_Redirect_post (r : Request) (url : string) (code : Z) (w : World) :
  Method r = "POST" ->
  http_Redirect r url code w
  = (tt, mkWorld (mkResponse
                    (setKey "Location"
                            (NetUrl.hexEscapeNonASCII (redirectURL r url))
                            (Header (resp w)))
                    (SetCookie (resp w))
                    (match Status (resp w) with
                     | Some c => Some c
                     | None => Some code
                     end)
                    (Body (resp w)))
                 (fs w) (now w) (ops w)).
Proof. intro Hm. apply http_Redirect_other; now rewrite Hm. Qed.

Lemma isLoginPost_method (r : Request) : isLoginPost r = true -> Method r = "POST".
Proof.
  unfold isLoginPost. intro H. apply andb_prop in H as [H _].
  now apply String.eqb_eq.
Qed.

Lemma isLoginPost_path (r : Request) : isLoginPost r = true -> Path (Url r) = "/login".
Proof.
  unfold isLoginPost. intro H. apply andb_prop in H as [_ H].
  now apply String.eqb_eq.
Qed.

Lemma http_Redirect_fs (r : Request) (target : string) (code : Z) (w : World) :
  fs (snd (http_Redirect r target code w)) = fs w.
Proof.
  unfold http_Redirect, bind, Header_Has. cbn [fst snd].
  destruct (assoc "Content-Type" (Header (resp w)));
    destruct (Method r =? "GET"); destruct (Method r =? "HEAD"); reflexivity.
Qed.

(** *** What stands behind a question mark stays *)

Lemma Cut_tail (sep : ascii) (s b : string) :
  exists p f, Cut (s ++ String sep b) sep = (p, Some (f ++ b)).
Proof.
  induction s as [|c s IH]; cbn [append Cut].
  - rewrite Ascii.eqb_refl. now exists "", "".
  - destruct (Ascii.eqb c sep).
    + exists "", (s ++ String sep ""). f_equal. f_equal.
      rewrite append_assoc. reflexivity.
    + destruct IH as [p [f ->]]. cbn [fst snd]. now exists (String c p), f.
Qed.

Lemma redirectURL_tail (r : Request) (a b : string) :
  exists front, redirectURL r (a ++ String "?" b) = front ++ b.
Proof.
  unfold redirectURL. destruct (NetUrl.hostless (a ++ String "?" b)).
  - set (pre := if (a ++ String "?" b =? "") || negb (HasPrefix (a ++ String "?" b) "/")
                then splitDir (if Path (Url r) =? "" then "/" else Path (Url r))
                else "").
    assert (Hurl : (if (a ++ String "?" b =? "") || negb (HasPrefix (a ++ String "?" b) "/")
                    then splitDir (if Path (Url r) =? "" then "/" else Path (Url r))
                           ++ (a ++ String "?" b)
                    else a ++ String "?" b)
                   = (pre ++ a) ++ String "?" b).
    { subst pre. destruct ((a ++ String "?" b =? "") || _);
        [now rewrite append_assoc | reflexivity]. }
    cbv zeta. rewrite Hurl.
    destruct (Cut_tail "?" (pre ++ a) b) as [p [f ->]]. cbn [fst snd].
    exists ((if HasSuffix p "/" && negb (HasSuffix (Clean p) "/")
             then Clean p ++ "/" else Clean p) ++ String "?" f).
    rewrite append_assoc. reflexivity.
  - exists (a ++ String "?" ""). rewrite append_assoc. reflexivity.
Qed.

Lemma Contains_split (s : string) :
  Contains s "?" = true -> exists a b, s = a ++ String "?" b.
Proof.
  unfold Contains. induction s as [|c s IH]; cbn [String.index String.prefix];
    [discriminate|].
  destruct (ascii_dec "?" c) as [<-|_]; [intros _; now exists "", s|].
  destruct (String.index 0 "?" s); [|discriminate].
  intros _. destruct (IH eq_refl) as [a [b ->]]. now exists (String c a), b.
Qed.

Lemma hexEscape_app (a b : string) :
  NetUrl.hexEscapeNonASCII (a ++ b)
  = NetUrl.hexEscapeNonASCII a ++ NetUrl.hexEscapeNonASCII b.
Proof.
  induction a as [|c a IH]; cbn [append NetUrl.hexEscapeNonASCII]; [reflexivity|].
  destruct (128 <=? N_of_ascii c)%N; cbn [append]; now rewrite IH.
Qed.

Lemma hexEscape_uint (d : Decimal.uint) :
  NetUrl.hexEscapeNonASCII (NilEmpty.string_of_uint d) = NilEmpty.string_of_uint d.
Proof. induction d; cbn; now rewrite ?IHd. Qed.

Lemma hexEscape_formatInt (n : Z) :
  NetUrl.hexEscapeNonASCII (formatInt n) = formatInt n.
Proof.
  unfold formatInt, NilZero.string_of_int, NilZero.string_of_uint.
  destruct (Z.to_int n) as [d|d]; destruct d;
    try reflexivity; cbn [NetUrl.hexEscapeNonASCII];
    try (change (128 <=? N_of_ascii "-")%N with false; cbv iota);
    rewrite ?hexEscape_uint; try reflexivity;
    now (rewrite <- (hexEscape_uint _) at 2).
Qed.

(** The count [handleUpload] appends is still at the end of what
    [http.Redirect] sends. *)
Lemma redirect_keeps_count (r : Request) (dir : string) (n : Z) :
  (0 < n)%Z ->
  exists front,
    NetUrl.hexEscapeNonASCII (redirectURL r (uploadRedirect dir n))
    = front ++ "uploaded=" ++ formatInt n.
Proof.
  intro Hn. unfold uploadRedirect.
  rewrite (proj2 (Z.gtb_lt n 0) Hn).
  destruct (Contains dir "?") eqn:Hc.
  - destruct (Contains_split dir Hc) as [a [b ->]].
    replace ((a ++ String "?" b) ++ "&uploaded=" ++ formatInt n)
      with (a ++ String "?" (b ++ "&uploaded=" ++ formatInt n))
      by (now rewrite append_assoc).
    destruct (redirectURL_tail r a (b ++ "&uploaded=" ++ formatInt n)) as [front ->].
    rewrite !hexEscape_app, hexEscape_formatInt.
    exists (NetUrl.hexEscapeNonASCII front ++ NetUrl.hexEscapeNonASCII b ++ "&").
    rewrite !append_assoc. reflexivity.
  - change (dir ++ "?uploaded=" ++ formatInt n)
      with (dir ++ String "?" ("uploaded=" ++ formatInt n)).
    destruct (redirectURL_tail r dir ("uploaded=" ++ formatInt n)) as [front ->].
    rewrite !hexEscape_app, hexEscape_formatInt.
    now exists (NetUrl.hexEscapeNonASCII front).
Qed.

(** ** The auth gate *)

Lemma gate_open (h : Handler) : applyAuthMiddleware h "" = h.
Proof. reflexivity. Qed.

Lemma gate_login_ok (h : Handler) (pw : string) (r : Request) :
  pw <> "" -> isLoginPost r = true -> FormValue r "password" = pw ->
  applyAuthMiddleware h pw r =
  (http_SetCookie sessionCookie ;;
   http_Redirect r (if FormValue r "redirect" =? "" then "/"
                    else FormValue r "redirect") 303).
Proof.
  intros Hpw Hlogin Hsub. unfold applyAuthMiddleware, isLoginPost in *.
  rewrite (eqb_false_of_neq _ _ Hpw), Hlogin, Hsub, String.eqb_refl. reflexivity.
Qed.

Lemma gate_login_wrong (h : Handler) (pw : string) (r : Request) :
  pw <> "" -> isLoginPost r = true -> FormValue r "password" <> pw ->
  applyAuthMiddleware h pw r =
  showLoginForm r "Invalid password. Please try again.".
Proof.
  intros Hpw Hlogin Hsub. unfold applyAuthMiddleware, isLoginPost in *.
  rewrite (eqb_false_of_neq _ _ Hpw), Hlogin, (eqb_false_of_neq _ _ Hsub). reflexivity.
Qed.

Lemma gate_session (h : Handler) (pw : string) (r : Request) :
  isLoginPost r = false -> hasSession r = true ->
  applyAuthMiddleware h pw r = h r.
Proof.
  intros Hlogin Hs. unfold applyAuthMiddleware, isLoginPost in *.
  destruct (pw =? ""); [reflexivity|]. now rewrite Hlogin, Hs.
Qed.

Lemma gate_basic (h : Handler) (pw : string) (r : Request) :
  isLoginPost r = false -> basicAuthMatches r pw = true ->
  applyAuthMiddleware h pw r = h r.
Proof.
  intros Hlogin Hb. unfold applyAuthMiddleware, isLoginPost in *.
  destruct (pw =? ""); [reflexivity|]. rewrite Hlogin, Hb.
  now destruct (hasSession r).
Qed.

Lemma gate_reject (h : Handler) (pw : string) (r : Request) :
  pw <> "" -> isLoginPost r = false -> hasSession r = false ->
  basicAuthMatches r pw = false ->
  applyAuthMiddleware h pw r = showLoginForm r "".
Proof.
  intros Hpw Hlogin Hs Hb. unfold applyAuthMiddleware, isLoginPost in *.
  now rewrite (eqb_false_of_neq _ _ Hpw), Hlogin, Hs, Hb.
Qed.

Lemma get_is_not_login (r : Request) : Method r = "GET" -> isLoginPost r = false.
Proof. intro H. unfold isLoginPost. now rewrite H. Qed.

(** C3.  The auth gate.  Without a password the middleware is the wrapped
    handler itself.  With a password: a GET without session cookie and
    without matching Basic-Auth gets 401 and the login form, and the wrapped
    handler does not run; POST /login with the configured password gets a
    303 redirect and the cookie auth_session=authenticated, Path=/,
    HttpOnly, Max-Age=86400; a request that is not the login submission and
    whose auth_session cookie reads authenticated is handed to the wrapped
    handler unchanged, and so is one whose Basic-Auth password is the
    configured one, whatever its user name; POST /login with another
    password gets 401, the login form with an error message, and no
    cookie. *)
Theorem auth_gate_behaviour
        (h : Handler) (pw : string) (r : Request) (root : Node) (clock : Z) :
  applyAuthMiddleware h "" = h
  /\ (pw <> "" ->
      let w := serve (applyAuthMiddleware h pw) r root clock in
      (Method r = "GET" -> hasSession r = false ->
       basicAuthMatches r pw = false ->
       Status (resp w) = Some 401%Z
       /\ Body (resp w) = [LoginPage (Url r) ""]
       /\ SetCookie (resp w) = [] /\ ops w = [])
      /\ (Method r = "POST" -> Path (Url r) = "/login" ->
          FormValue r "password" = pw ->
          Status (resp w) = Some 303%Z
          /\ (exists target, Header (resp w) = [("Location", target)])
          /\ SetCookie (resp w)
             = [mkCookie "auth_session" "authenticated" "/" true 86400]
          /\ Body (resp w) = [])
      /\ (isLoginPost r = false ->
          Cookie_of r "auth_session" = Some "authenticated" ->
          applyAuthMiddleware h pw r = h r)
      /\ (forall user, isLoginPost r = false ->
          BasicAuth r = Some (user, pw) ->
          applyAuthMiddleware h pw r = h r)
      /\ (Method r = "POST" -> Path (Url r) = "/login" ->
          FormValue r "password" <> pw ->
          Status (resp w) = Some 401%Z
          /\ Body (resp w)
             = [LoginPage (Url r) "Invalid password. Please try again."]
          /\ SetCookie (resp w) = [])).
Proof.
  split; [apply gate_open|]. intros Hpw w. subst w. unfold serve.
  split; [|split; [|split; [|split]]].
  - intros Hm Hs Hb.
    rewrite (gate_reject h pw r Hpw (get_is_not_login r Hm) Hs Hb).
    repeat split.
  - intros Hm Hp Hsub.
    assert (Hl : isLoginPost r = true)
      by (unfold isLoginPost; now rewrite Hm, Hp).
    rewrite (gate_login_ok h pw r Hpw Hl Hsub). unfold bind.
    rewrite (http_Redirect_post r _ _ _ Hm). cbn.
    repeat split. eexists. reflexivity.
  - intros Hl Hc. apply gate_session; [assumption|].
    unfold hasSession. now rewrite Hc.
  - intros user Hl Hb. apply gate_basic; [assumption|].
    unfold basicAuthMatches. rewrite Hb. apply String.eqb_refl.
  - intros Hm Hp Hsub.
    assert (Hl : isLoginPost r = true)
      by (unfold isLoginPost; now rewrite Hm, Hp).
    rewrite (gate_login_wrong h pw r Hpw Hl Hsub). repeat split.
Qed.

(** The gate with the password "secret" on two requests against
    [sampleRoot]: a GET of [/sub] without credentials, and a POST /login
    with the password and the redirect field "/sub". *)
Lemma auth_gate_behaviour_witness :
  let h := ServeHTTP (sampleHandler "secret") in
  let r1 := plainRequest "GET" "/sub" [] in
  let r2 := mkRequest "POST" (mkURL "/login" []) [] None
                      [("password", "secret"); ("redirect", "/sub")] None in
  let w1 := serve (applyAuthMiddleware h "secret") r1 sampleRoot 0 in
  let w2 := serve (applyAuthMiddleware h "secret") r2 sampleRoot 0 in
  (Status (resp w1) = Some 401%Z
   /\ Body (resp w1) = [LoginPage (mkURL "/sub" []) ""]
   /\ SetCookie (resp w1) = [] /\ ops w1 = [])
  /\ (Status (resp w2) = Some 303%Z
      /\ (exists target, Header (resp w2) = [("Location", target)])
      /\ SetCookie (resp w2)
         = [mkCookie "auth_session" "authenticated" "/" true 86400]
      /\ Body (resp w2) = []).
Proof.
  intros h r1 r2 w1 w2. split.
  - refine (proj1 (proj2 (auth_gate_behaviour h "secret" r1 sampleRoot 0) _) _ _ _);
      [discriminate | reflexivity | reflexivity | reflexivity].
  - refine (proj1 (proj2 (proj2 (auth_gate_behaviour h "secret" r2 sampleRoot 0) _))
                  _ _ _);
      [discriminate | reflexivity | reflexivity | reflexivity].
Defined.

(** ** [sort.Slice] *)

Section SortSliceFacts.
Variable A : Type.
Variable less : A -> A -> bool.

Lemma sink_perm (x : A) (sorted : list A) :
  Permutation (sink less x sorted) (x :: sorted).
Proof.
  induction sorted as [|y rest IH]; cbn; [apply Permutation_refl|].
  destruct (less x y); [|apply Permutation_refl].
  eapply Permutation_trans; [apply perm_skip, IH | apply perm_swap].
Qed.

Lemma sortSlice_perm (data : list A) : Permutation (sortSlice less data) data.
Proof.
  unfold sortSlice.
  assert (H : forall acc, Permutation
                            (fold_left (fun sorted x => sink less x sorted) data acc)
                            (rev data ++ acc)%list).
  { induction data as [|x data IH]; intro acc; cbn; [apply Permutation_refl|].
    eapply Permutation_trans; [apply IH|].
    rewrite <- app_assoc. apply Permutation_app_head.
    cbn. apply sink_perm. }
  eapply Permutation_trans; [apply Permutation_sym, Permutation_rev|].
  specialize (H []). rewrite app_nil_r in H.
  eapply Permutation_trans; [exact H | apply Permutation_sym, Permutation_rev].
Qed.

(** [less] is a strict weak order. *)
Hypothesis less_asym : forall a b, less a b = true -> less b a = false.
Hypothesis less_negtrans :
  forall a b c, less a c = true -> less a b = true \/ less b c = true.

Lemma sink_desc (x : A) (sorted : list A) :
  StronglySorted (fun u v => less u v = false) sorted ->
  StronglySorted (fun u v => less u v = false) (sink less x sorted).
Proof.
  induction sorted as [|y rest IH]; intro Hs; cbn.
  - constructor; constructor.
  - inversion Hs as [|? ? Hrest Hy]; subst.
    destruct (less x y) eqn:Hxy.
    + constructor; [now apply IH|].
      apply Forall_forall. intros u Hu.
      apply (Permutation_in _ (sink_perm x rest)) in Hu.
      destruct Hu as [<- | Hu]; [now apply less_asym|].
      rewrite Forall_forall in Hy. now apply Hy.
    + constructor; [exact Hs|].
      constructor; [exact Hxy|].
      apply Forall_forall. intros v Hv.
      rewrite Forall_forall in Hy. specialize (Hy v Hv).
      destruct (less x v) eqn:Hxv; [|reflexivity].
      destruct (less_negtrans x y v Hxv) as [H | H]; congruence.
Qed.

Lemma StronglySorted_snoc (R : A -> A -> Prop) (l : list A) (x : A) :
  StronglySorted R l -> Forall (fun y => R y x) l ->
  StronglySorted R (l ++ [x]).
Proof.
  induction l as [|y l IH]; intros Hs Hx; cbn.
  - constructor; constructor.
  - inversion Hs; inversion Hx; subst.
    constructor; [now apply IH|].
    apply Forall_app. split; [assumption | now constructor].
Qed.

Lemma StronglySorted_rev (R : A -> A -> Prop) (l : list A) :
  StronglySorted R l -> StronglySorted (fun a b => R b a) (rev l).
Proof.
  induction 1 as [|x l Hs IH Hx]; cbn; [constructor|].
  apply StronglySorted_snoc; [exact IH|].
  apply Forall_forall. intros y Hy. apply in_rev in Hy.
  rewrite Forall_forall in Hx. now apply Hx.
Qed.

(** In the sorted slice no element is [less] than one before it. *)
Lemma sortSlice_sorted (data : list A) :
  StronglySorted (inOrder less) (sortSlice less data).
Proof.
  unfold sortSlice, inOrder.
  apply (StronglySorted_rev (fun u v => less u v = false)).
  assert (H : forall acc,
             StronglySorted (fun u v => less u v = false) acc ->
             StronglySorted (fun u v => less u v = false)
                            (fold_left (fun sorted x => sink less x sorted) data acc)).
  { induction data as [|x data IH]; intros acc Hacc; cbn; [exact Hacc|].
    apply IH. now apply sink_desc. }
  apply H. constructor.
Qed.

End SortSliceFacts.

Lemma StronglySorted_weaken (A : Type) (R S : A -> A -> Prop) (l : list A) :
  (forall a b, R a b -> S a b) -> StronglySorted R l -> StronglySorted S l.
Proof.
  intros HRS. induction 1 as [|x l Hs IH Hx]; constructor; [exact IH|].
  eapply Forall_impl; [|exact Hx]. intros b. apply HRS.
Qed.

(** *** The byte order of strings *)

Lemma ascii_compare_lt_trans (a b c : ascii) :
  Ascii.compare a b = Lt -> Ascii.compare b c = Lt -> Ascii.compare a c = Lt.
Proof.
  unfold Ascii.compare. rewrite !N.compare_lt_iff. apply N.lt_trans.
Qed.

Lemma compare_lt_trans (a : string) :
  forall b c, String.compare a b = Lt -> String.compare b c = Lt ->
              String.compare a c = Lt.
Proof.
  induction a as [|x a IH]; intros [|y b] [|z c]; cbn; try congruence.
  destruct (Ascii.compare x y) eqn:Hxy; try discriminate;
    destruct (Ascii.compare y z) eqn:Hyz; try discriminate; intros H1 H2.
  - apply Ascii.compare_eq_iff in Hxy, Hyz. subst.
    assert (Hzz : Ascii.compare z z = Eq)
      by (unfold Ascii.compare; apply N.compare_refl).
    rewrite Hzz. now apply (IH b c).
  - apply Ascii.compare_eq_iff in Hxy. subst. now rewrite Hyz.
  - apply Ascii.compare_eq_iff in Hyz. subst. now rewrite Hxy.
  - now rewrite (ascii_compare_lt_trans x y z Hxy Hyz).
Qed.

Lemma lt_asym (a b : string) : Strings.lt a b = true -> Strings.lt b a = false.
Proof.
  unfold Strings.lt, String.ltb. rewrite (String.compare_antisym a b).
  now destruct (String.compare b a).
Qed.

Lemma lt_negtrans (a b c : string) :
  Strings.lt a c = true -> Strings.lt a b = true \/ Strings.lt b c = true.
Proof.
  unfold Strings.lt, String.ltb. intro Hac.
  destruct (String.compare a b) eqn:Hab.
  - apply String.compare_eq_iff in Hab. subst. now right.
  - now left.
  - right. assert (Hba : String.compare b a = Lt)
      by (rewrite String.compare_antisym, Hab; reflexivity).
    destruct (String.compare a c) eqn:Hc; try discriminate.
    now rewrite (compare_lt_trans b a c Hba Hc).
Qed.

Lemma lessFileInfo_asym (a b : FileInfo) :
  lessFileInfo a b = true -> lessFileInfo b a = false.
Proof.
  unfold lessFileInfo. destruct (fIsDir a), (fIsDir b); cbn;
    try congruence; apply lt_asym.
Qed.

Lemma lessFileInfo_negtrans (a b c : FileInfo) :
  lessFileInfo a c = true ->
  lessFileInfo a b = true \/ lessFileInfo b c = true.
Proof.
  unfold lessFileInfo. destruct (fIsDir a), (fIsDir b), (fIsDir c); cbn;
    try congruence; try (now left); try (now right); apply lt_negtrans.
Qed.

(** ** The status probe and the router *)

(** With the React bundle present, [/api/auth/check] is answered by the
    file handler without the middleware in between: status 200, one of the
    two fixed bodies, no cookie, no call into the file system. *)
Lemma auth_check_with_frontend (fh : FileHandler) (r : Request)
      (root : Node) (clock : Z) :
  Path (Url r) = "/api/auth/check" -> Method r <> "OPTIONS" ->
  let w := serve (route fh true) r root clock in
  let authenticated :=
    (password fh =? "") || hasSession r || basicAuthMatches r (password fh) in
  Status (resp w) = Some 200%Z
  /\ Body (resp w) = [Bytes (if authenticated then authTrueBody else authFalseBody)]
  /\ SetCookie (resp w) = [] /\ ops w = [] /\ fs w = root.
Proof.
  intros Hp Hm w authenticated. subst w authenticated.
  unfold serve, route, ServeHTTP. rewrite Hp. cbn [HasPrefix String.prefix].
  change (HasPrefix "/api/auth/check" "/api/") with true. cbv iota.
  rewrite (eqb_false_of_neq _ _ Hm), String.eqb_refl.
  destruct (password fh =? ""), (hasSession r), (basicAuthMatches r (password fh));
    repeat split.
Qed.

(** Without the bundle the middleware stands before every path: with a
    password set, a probe without credentials gets the login page and
    status 401. *)
Lemma auth_check_without_frontend (fh : FileHandler) (r : Request)
      (root : Node) (clock : Z) :
  password fh <> "" -> Path (Url r) = "/api/auth/check" ->
  hasSession r = false -> basicAuthMatches r (password fh) = false ->
  let w := serve (route fh false) r root clock in
  Status (resp w) = Some 401%Z /\ Body (resp w) = [LoginPage (Url r) ""].
Proof.
  intros Hpw Hp Hs Hb w. subst w. unfold serve, route.
  assert (Hl : isLoginPost r = false)
    by (unfold isLoginPost; rewrite Hp; apply andb_false_r).
  rewrite (gate_reject _ _ _ Hpw Hl Hs Hb). split; reflexivity.
Qed.

(** C4.  The probe in the two modes of [StartServer], password "secret",
    caller without credentials.  With [frontend/build] under the shared
    directory the answer is 200 with the body {"authenticated": false}.
    Without it every path is wrapped by the middleware, the probe
    included: the answer is 401 with the login page, and [ServeHTTP], whose
    comment calls the endpoint "not protected by auth middleware", never
    sees the request. *)
Theorem auth_check_gated_without_frontend :
  let probe := plainRequest "GET" "/api/auth/check" [] in
  let withBundle :=
    Dir [("share", Dir [("frontend", Dir [("build", Dir [] 4096 0 true)]
                                          4096 0 true)] 4096 0 true)]
        4096 0 true in
  let w1 := serve (StartServer "/share" 8080 "secret" "192.168.1.5" withBundle)
                  probe withBundle 0 in
  let w2 := serve (StartServer "/share" 8080 "secret" "192.168.1.5" sampleRoot)
                  probe sampleRoot 0 in
  (Status (resp w1) = Some 200%Z /\ Body (resp w1) = [Bytes authFalseBody])
  /\ (Status (resp w2) = Some 401%Z
      /\ Body (resp w2) = [LoginPage (mkURL "/api/auth/check" []) ""]
      /\ assoc "Content-Type" (Header (resp w2)) = Some "text/html; charset=utf-8").
Proof. vm_compute. repeat split. Qed.

(** ** Paths *)

Lemma elements_nonempty (s : string) : elements s <> [].
Proof.
  destruct s as [|c s]; cbn; [discriminate|].
  destruct (Ascii.eqb c Separator); [discriminate|].
  destruct (elements s); discriminate.
Qed.

Lemma elements_noSep (s : string) : noSep s = true -> elements s = [s].
Proof.
  induction s as [|c s IH]; cbn; [reflexivity|].
  destruct (Ascii.eqb c Separator); cbn; [discriminate|].
  intro H. now rewrite (IH H).
Qed.

(** A separator splits the elements. *)
Lemma elements_sep (a b : string) :
  elements (a ++ String Separator b) = (elements a ++ elements b)%list.
Proof.
  induction a as [|c a IH]; cbn [append elements].
  - reflexivity.
  - destruct (Ascii.eqb c Separator); [now rewrite IH|].
    rewrite IH. pose proof (elements_nonempty a).
    destruct (elements a); [contradiction | reflexivity].
Qed.

Lemma elements_all_noSep (s : string) : Forall (fun e => noSep e = true) (elements s).
Proof.
  induction s as [|c s IH]; cbn; [repeat constructor|].
  destruct (Ascii.eqb c Separator) eqn:Hc; [now constructor|].
  destruct (elements s) as [|e es]; [repeat constructor; cbn; now rewrite Hc|].
  inversion IH; subst. constructor; [cbn; now rewrite Hc | assumption].
Qed.

Lemma validName_noSep (s : string) : validName s = true -> noSep s = true.
Proof. unfold validName. intro H. now apply andb_true_iff in H. Qed.

Lemma validName_tests (s : string) :
  validName s = true -> (s =? "") = false /\ (s =? ".") = false /\ (s =? "..") = false.
Proof.
  unfold validName. rewrite !andb_true_iff, !negb_true_iff. tauto.
Qed.

Lemma elements_concat (es : list string) :
  es <> [] -> Forall (fun e => validName e = true) es ->
  elements (String.concat "/" es) = es.
Proof.
  induction es as [|e es IH]; intros Hne Hv; [now elim Hne|].
  inversion Hv as [|? ? He Hes]; subst.
  destruct es as [|e' es'].
  - cbn. now apply elements_noSep, validName_noSep.
  - change (String.concat "/" (e :: e' :: es'))
      with (e ++ String Separator (String.concat "/" (e' :: es'))).
    rewrite elements_sep, IH by (assumption || discriminate).
    now rewrite (elements_noSep e (validName_noSep e He)).
Qed.

(** Valid names pass through the element loop unchanged. *)
Lemma cleanElems_valid (isRooted : bool) (xs : list string) :
  forall out, Forall (fun e => validName e = true) xs ->
              cleanElems isRooted out xs = (rev out ++ xs)%list.
Proof.
  induction xs as [|e xs IH]; intros out Hv; cbn [cleanElems].
  - now rewrite app_nil_r.
  - inversion Hv as [|? ? He Hxs]; subst.
    destruct (validName_tests e He) as [H1 [H2 H3]].
    rewrite H1, H2, H3. cbn [orb]. rewrite (IH _ Hxs). cbn [rev].
    now rewrite <- app_assoc.
Qed.

(** The loop can be run in two parts. *)
Lemma cleanElems_app (isRooted : bool) (xs ys : list string) :
  forall out, cleanElems isRooted out (xs ++ ys)
              = cleanElems isRooted (rev (cleanElems isRooted out xs)) ys.
Proof.
  induction xs as [|e xs IH]; intro out; cbn [app cleanElems].
  - now rewrite rev_involutive.
  - destruct ((e =? "") || (e =? ".")); [apply IH|].
    destruct (e =? ".."); [|apply IH].
    destruct out as [|top out']; [destruct isRooted; apply IH|].
    destruct (top =? ".."); apply IH.
Qed.

(** In a rooted path the loop only ever keeps valid names. *)
Lemma cleanElems_rooted_valid (xs : list string) :
  forall out, Forall (fun e => validName e = true) out ->
              Forall (fun e => noSep e = true) xs ->
              Forall (fun e => validName e = true) (cleanElems true out xs).
Proof.
  induction xs as [|e xs IH]; intros out Hout Hxs; cbn [cleanElems].
  - now apply Forall_rev.
  - inversion Hxs as [|? ? He Hrest]; subst.
    destruct (e =? "") eqn:H1; cbn [orb]; [now apply IH|].
    destruct (e =? ".") eqn:H2; [now apply IH|].
    destruct (e =? "..") eqn:H3.
    + destruct out as [|top out']; [now apply IH|].
      inversion Hout as [|? ? Htop Hout']; subst.
      destruct (validName_tests top Htop) as [_ [_ ->]]. now apply IH.
    + apply IH; [|assumption]. constructor; [|assumption].
      unfold validName. now rewrite H1, H2, H3, He.
Qed.

Lemma rootedPath_elements (es : list string) :
  Forall (fun e => validName e = true) es ->
  cleanElems true [] (elements (rootedPath es)) = es.
Proof.
  intro Hv. unfold rootedPath, render.
  change ("/" ++ String.concat "/" es) with (String Separator (String.concat "/" es)).
  cbn [elements]. change (Ascii.eqb Separator Separator) with true. cbv iota.
  cbn [cleanElems String.eqb orb].
  destruct es as [|e es']; [reflexivity|].
  rewrite elements_concat by (assumption || discriminate).
  now rewrite cleanElems_valid.
Qed.

Lemma rootedPath_rooted (es : list string) : rooted (rootedPath es) = true.
Proof. reflexivity. Qed.

Lemma rootedPath_pathElems (es : list string) :
  Forall (fun e => validName e = true) es -> Os.pathElems (rootedPath es) = es.
Proof. apply rootedPath_elements. Qed.

Lemma rootedPath_clean (es : list string) :
  Forall (fun e => validName e = true) es -> Clean (rootedPath es) = rootedPath es.
Proof.
  intro Hv. unfold Clean. rewrite rootedPath_rooted.
  now rewrite rootedPath_elements.
Qed.

Lemma rootedPath_inj (es es' : list string) :
  Forall (fun e => validName e = true) es ->
  Forall (fun e => validName e = true) es' ->
  rootedPath es = rootedPath es' -> es = es'.
Proof.
  intros Hv Hv' H.
  rewrite <- (rootedPath_elements es Hv), <- (rootedPath_elements es' Hv').
  now rewrite H.
Qed.

(** The clean form of any rooted path is a rooted path of valid names. *)
Lemma Clean_rooted (p : string) :
  rooted p = true ->
  exists es, Forall (fun e => validName e = true) es /\ Clean p = rootedPath es.
Proof.
  intro Hr. exists (cleanElems true [] (elements p)). split.
  - apply cleanElems_rooted_valid; [constructor | apply elements_all_noSep].
  - unfold Clean. now rewrite Hr.
Qed.

(** Joining clean relative names onto a rooted path appends them. *)
Lemma Join_rooted (es cs : list string) :
  Forall (fun e => validName e = true) es ->
  Forall (fun e => validName e = true) cs ->
  Join [rootedPath es; String.concat "/" cs] = rootedPath (es ++ cs).
Proof.
  intros Hes Hcs. cbn [Join].
  change (rootedPath es =? "") with false. cbv iota.
  change (String.concat "/" [rootedPath es; String.concat "/" cs])
    with (rootedPath es ++ String Separator (String.concat "/" cs)).
  unfold Clean.
  assert (Hr : rooted (rootedPath es ++ String Separator (String.concat "/" cs)) = true)
    by reflexivity.
  rewrite Hr, elements_sep, cleanElems_app, rootedPath_elements by assumption.
  destruct cs as [|c cs'].
  - cbn [String.concat elements cleanElems String.eqb orb].
    now rewrite rev_involutive, app_nil_r.
  - rewrite elements_concat by (assumption || discriminate).
    now rewrite cleanElems_valid, rev_involutive.
Qed.

Lemma Join_child (es : list string) (name : string) :
  Forall (fun e => validName e = true) es -> validName name = true ->
  Join [rootedPath es; name] = rootedPath (es ++ [name]).
Proof.
  intros Hes Hn. apply (Join_rooted es [name]); [assumption|].
  now constructor.
Qed.

Lemma stripCommon_prefix (base rel : list string) :
  stripCommon base (base ++ rel) = ([], rel).
Proof.
  induction base as [|b base IH]; cbn; [now destruct rel|].
  now rewrite String.eqb_refl.
Qed.

(** The path of a descendant relative to its ancestor: the names in
    between. *)
Lemma Rel_descendant (base rel : list string) :
  Forall (fun e => validName e = true) base ->
  Forall (fun e => validName e = true) rel -> rel <> [] ->
  Rel (rootedPath base) (rootedPath (base ++ rel)) = Some (String.concat "/" rel).
Proof.
  intros Hb Hr Hne. unfold Rel.
  assert (Hbr : Forall (fun e => validName e = true) (base ++ rel))
    by (apply Forall_app; now split).
  rewrite !rootedPath_clean by assumption.
  destruct (rootedPath (base ++ rel) =? rootedPath base) eqn:Heq.
  - apply String.eqb_eq in Heq. apply rootedPath_inj in Heq; try assumption.
    rewrite <- (app_nil_r base) in Heq at 2. apply app_inv_head in Heq.
    contradiction.
  - rewrite !rootedPath_rooted. cbn [Bool.eqb negb].
    unfold cleanedElems. rewrite !rootedPath_rooted, !rootedPath_elements by assumption.
    now rewrite stripCommon_prefix.
Qed.

Lemma concat_app (l1 l2 : list string) :
  l1 <> [] -> l2 <> [] ->
  String.concat "/" (l1 ++ l2)
  = String.concat "/" l1 ++ "/" ++ String.concat "/" l2.
Proof.
  induction l1 as [|e l1 IH]; intros H1 H2; [now elim H1|].
  destruct l1 as [|e' l1'].
  - cbn [app]. destruct l2; [now elim H2 | reflexivity].
  - change (String.concat "/" ((e :: e' :: l1') ++ l2))
      with (e ++ "/" ++ String.concat "/" ((e' :: l1') ++ l2)).
    rewrite IH by (discriminate || assumption).
    change (String.concat "/" (e :: e' :: l1'))
      with (e ++ "/" ++ String.concat "/" (e' :: l1')).
    now rewrite !append_assoc.
Qed.

Lemma rootedPath_not_root (es : list string) :
  es <> [] -> Forall (fun e => validName e = true) es ->
  (rootedPath es =? "/") = false.
Proof.
  intros Hne Hv. apply String.eqb_neq. intro H.
  apply (rootedPath_inj es []) in H; [contradiction | assumption | constructor].
Qed.

(** A rooted path below another one is inside it. *)
Lemma inside_descendant (base cs : list string) :
  Forall (fun e => validName e = true) base ->
  Forall (fun e => validName e = true) cs ->
  inside (rootedPath base) (rootedPath (base ++ cs)) = true.
Proof.
  intros Hb Hc. unfold inside. destruct cs as [|c cs].
  - now rewrite app_nil_r, String.eqb_refl.
  - apply orb_true_iff. right. destruct base as [|b base].
    + apply (prefix_append "/").
    + rewrite rootedPath_not_root by (assumption || discriminate).
      unfold rootedPath, render, HasPrefix.
      rewrite concat_app by discriminate.
      rewrite <- !append_assoc. apply prefix_append.
Qed.

(** The three lines every handler resolves a request path with, on a
    rooted path: the result is inside the root. *)
Lemma resolve_rooted_inside (base : list string) (p : string) :
  Forall (fun e => validName e = true) base -> rooted p = true ->
  inside (rootedPath base)
         (Join [rootedPath base;
                TrimPrefix (if Clean p =? "." then "/" else Clean p) "/"])
  = true.
Proof.
  intros Hb Hp. destruct (Clean_rooted p Hp) as [cs [Hcs ->]].
  change (rootedPath cs =? ".") with false. cbv iota.
  assert (Ht : TrimPrefix (rootedPath cs) "/" = String.concat "/" cs)
    by (unfold TrimPrefix, rootedPath, render; cbn; now destruct (String.concat "/" cs)).
  rewrite Ht, Join_rooted by assumption.
  now apply inside_descendant.
Qed.

(** ** [http.Redirect] on a clean path of plain names *)

Lemma allBytes_weaken (p q : ascii -> bool) (s : string) :
  (forall c, p c = true -> q c = true) -> allBytes p s = true -> allBytes q s = true.
Proof.
  intro Hpq. induction s as [|c s IH]; cbn; [reflexivity|].
  intro H. apply andb_prop in H as [Hc Hs]. now rewrite (Hpq c Hc), IH.
Qed.

Lemma allBytes_app (p : ascii -> bool) (a b : string) :
  allBytes p (a ++ b) = allBytes p a && allBytes p b.
Proof.
  induction a as [|c a IH]; cbn; [reflexivity|]. now rewrite IH, andb_assoc.
Qed.

Lemma allBytes_concat (p : ascii -> bool) (cs : list string) :
  p "/"%char = true -> Forall (fun e => allBytes p e = true) cs ->
  allBytes p (String.concat "/" cs) = true.
Proof.
  intros Hsep Hcs. induction Hcs as [|e es He Hes IH]; [reflexivity|].
  destruct es as [|e' es']; [exact He|].
  change (String.concat "/" (e :: e' :: es'))
    with (e ++ String "/" (String.concat "/" (e' :: es'))).
  rewrite allBytes_app, He. cbn [allBytes andb]. now rewrite Hsep, IH.
Qed.

Lemma allBytes_rootedPath (p : ascii -> bool) (cs : list string) :
  p "/"%char = true -> Forall (fun e => allBytes p e = true) cs ->
  allBytes p (rootedPath cs) = true.
Proof.
  intros Hsep Hcs. unfold rootedPath, render.
  change ("/" ++ String.concat "/" cs) with (String "/" (String.concat "/" cs)).
  cbn [allBytes]. now rewrite Hsep, allBytes_concat.
Qed.

Lemma Cut_absent (sep : ascii) (s : string) :
  allBytes (fun c => negb (Ascii.eqb c sep)) s = true -> Cut s sep = (s, None).
Proof.
  induction s as [|c s IH]; cbn [allBytes Cut]; [reflexivity|].
  intro H. apply andb_prop in H as [Hc Hs]. apply negb_true_iff in Hc.
  now rewrite Hc, (IH Hs).
Qed.

Lemma Cut_at (sep : ascii) (a b : string) :
  allBytes (fun c => negb (Ascii.eqb c sep)) a = true ->
  Cut (a ++ String sep b) sep = (a, Some b).
Proof.
  induction a as [|c a IH]; cbn [allBytes append Cut].
  - now rewrite Ascii.eqb_refl.
  - intro H. apply andb_prop in H as [Hc Ha]. apply negb_true_iff in Hc.
    now rewrite Hc, (IH Ha).
Qed.

Lemma printable_no_CTL (s : string) :
  allBytes printable s = true -> NetUrl.stringContainsCTLByte s = false.
Proof.
  unfold NetUrl.stringContainsCTLByte.
  induction s as [|c s IH]; cbn [allBytes list_ascii_of_string existsb];
    [reflexivity|].
  intro H. apply andb_prop in H as [Hc Hs]. rewrite (IH Hs), orb_false_r.
  unfold printable in Hc. apply andb_prop in Hc as [H1 H2].
  apply N.leb_le in H1. apply N.ltb_lt in H2.
  apply orb_false_iff. split; [apply N.ltb_ge | apply N.eqb_neq]; lia.
Qed.

Lemma no_percent_validEscapes (s : string) :
  allBytes (fun c => negb (Ascii.eqb c "%")) s = true ->
  NetUrl.validEscapes s = true.
Proof.
  induction s as [|c s IH]; cbn [allBytes NetUrl.validEscapes]; [reflexivity|].
  intro H. apply andb_prop in H as [Hc Hs]. apply negb_true_iff in Hc.
  rewrite Hc. exact (IH Hs).
Qed.

Lemma printable_hexEscape (s : string) :
  allBytes printable s = true -> NetUrl.hexEscapeNonASCII s = s.
Proof.
  induction s as [|c s IH]; cbn [allBytes NetUrl.hexEscapeNonASCII]; [reflexivity|].
  intro H. apply andb_prop in H as [Hc Hs]. rewrite (IH Hs).
  unfold printable in Hc. apply andb_prop in Hc as [_ H2]. apply N.ltb_lt in H2.
  now rewrite (proj2 (N.leb_gt 128 (N_of_ascii c)) ltac:(lia)).
Qed.

Lemma plainName_valid (e : string) : plainName e = true -> validName e = true.
Proof. unfold plainName. intro H. now apply andb_prop in H. Qed.

Lemma plainName_bytes (e : string) : plainName e = true -> allBytes plainByte e = true.
Proof. unfold plainName. intro H. now apply andb_prop in H. Qed.

Lemma plainNames_valid (cs : list string) :
  Forall (fun e => plainName e = true) cs ->
  Forall (fun e => validName e = true) cs.
Proof. intro H. eapply Forall_impl; [|exact H]. apply plainName_valid. Qed.

Lemma plainNames_bytes (p : ascii -> bool) (cs : list string) :
  (forall c, plainByte c = true -> p c = true) ->
  Forall (fun e => plainName e = true) cs ->
  Forall (fun e => allBytes p e = true) cs.
Proof.
  intros Hp H. eapply Forall_impl; [|exact H].
  intros e He. exact (allBytes_weaken _ _ e Hp (plainName_bytes e He)).
Qed.

Ltac plain_byte :=
  let c := fresh "c" in
  let H := fresh "H" in
  intros c H; unfold plainByte in H;
  do 3 (apply andb_prop in H; destruct H as [H ?]);
  assumption.

(** A clean path of plain names, with or without a query, as a whole and
    in front of its query. *)
Lemma plain_target_shape (cs : list string) (q : string) :
  Forall (fun e => plainName e = true) cs -> plainQuery q = true ->
  allBytes printable (rootedPath cs ++ q) = true
  /\ Cut (rootedPath cs ++ q) "#" = (rootedPath cs ++ q, None)
  /\ fst (Cut (rootedPath cs ++ q) "?") = rootedPath cs
  /\ snd (Cut (rootedPath cs ++ q) "?")
     = match q with
       | EmptyString => None
       | String _ q' => Some q'
       end.
Proof.
  intros Hcs Hq.
  assert (Hprint : allBytes printable (rootedPath cs) = true).
  { apply allBytes_rootedPath; [reflexivity|].
    apply plainNames_bytes; [plain_byte | assumption]. }
  assert (Hhash : allBytes (fun c => negb (Ascii.eqb c "#")) (rootedPath cs) = true).
  { apply allBytes_rootedPath; [reflexivity|].
    apply plainNames_bytes; [plain_byte | assumption]. }
  assert (Hquest : allBytes (fun c => negb (Ascii.eqb c "?")) (rootedPath cs) = true).
  { apply allBytes_rootedPath; [reflexivity|].
    apply plainNames_bytes; [plain_byte | assumption]. }
  destruct q as [|c q'].
  - rewrite append_empty_r. repeat split; try assumption.
    + now apply Cut_absent.
    + now rewrite Cut_absent.
    + now rewrite Cut_absent.
  - cbn [plainQuery] in Hq. apply andb_prop in Hq as [Hc Hq'].
    apply Ascii.eqb_eq in Hc. subst c.
    assert (Hq1 : allBytes printable q' = true)
      by (eapply allBytes_weaken; [|exact Hq']; intros c H;
          now apply andb_prop in H).
    assert (Hq2 : allBytes (fun c => negb (Ascii.eqb c "#")) q' = true)
      by (eapply allBytes_weaken; [|exact Hq']; intros c H;
          now apply andb_prop in H).
    repeat split.
    + rewrite allBytes_app, Hprint. cbn [allBytes andb]. now rewrite Hq1.
    + apply Cut_absent. rewrite allBytes_app, Hhash. cbn [allBytes andb].
      now rewrite Hq2.
    + now rewrite Cut_at.
    + now rewrite Cut_at.
Qed.

Lemma rootedPath_single_slash (cs : list string) :
  Forall (fun e => validName e = true) cs ->
  HasPrefix (rootedPath cs) "/" = true /\ HasPrefix (rootedPath cs) "//" = false.
Proof.
  intro Hcs. split; [apply (prefix_append "/")|].
  unfold HasPrefix, rootedPath, render.
  change ("/" ++ String.concat "/" cs) with (String "/" (String.concat "/" cs)).
  cbn [String.prefix]. destruct (ascii_dec "/" "/") as [_|H]; [|now elim H].
  destruct cs as [|e es]; [reflexivity|].
  inversion Hcs as [|? ? He Hes]; subst.
  assert (Hfirst : exists ch rest, String.concat "/" (e :: es) = String ch rest
                                   /\ Ascii.eqb ch "/" = false).
  { destruct e as [|ch e']; [discriminate He|].
    pose proof (validName_noSep _ He) as Hn. cbn [noSep] in Hn.
    apply andb_prop in Hn as [Hch _]. apply negb_true_iff in Hch.
    destruct es; cbn; eexists _, _; split; try reflexivity; exact Hch. }
  destruct Hfirst as [ch [rest [-> Hch]]]. cbn [String.prefix].
  destruct (ascii_dec "/" ch) as [<-|_]; [discriminate Hch | reflexivity].
Qed.

Lemma hostless_plain (cs : list string) (q : string) :
  Forall (fun e => plainName e = true) cs -> plainQuery q = true ->
  NetUrl.hostless (rootedPath cs ++ q) = true.
Proof.
  intros Hcs Hq.
  destruct (plain_target_shape cs q Hcs Hq) as [Hprint [Hhash [Hpath _]]].
  destruct (rootedPath_single_slash cs (plainNames_valid cs Hcs)) as [H1 H2].
  unfold NetUrl.hostless. rewrite Hhash. cbn [fst snd].
  rewrite (printable_no_CTL _ Hprint).
  assert (Hshape : exists rest, rootedPath cs ++ q = String "/" rest)
    by (now exists (String.concat "/" cs ++ q)).
  destruct Hshape as [rest Hshape].
  assert (Hstar : (rootedPath cs ++ q =? "*") = false) by (now rewrite Hshape).
  assert (Hscheme : NetUrl.getScheme (rootedPath cs ++ q)
                    = Some ("", rootedPath cs ++ q)) by (now rewrite Hshape).
  rewrite Hstar, Hscheme. cbn [String.eqb negb]. rewrite Hpath, H1, H2.
  cbn [negb andb]. rewrite andb_true_r.
  apply no_percent_validEscapes. apply allBytes_rootedPath; [reflexivity|].
  apply plainNames_bytes; [plain_byte | assumption].
Qed.

(** Such a target goes into [Location] as it is. *)
Lemma redirect_plain (r : Request) (cs : list string) (q : string) :
  Forall (fun e => plainName e = true) cs -> plainQuery q = true ->
  NetUrl.hexEscapeNonASCII (redirectURL r (rootedPath cs ++ q))
  = rootedPath cs ++ q.
Proof.
  intros Hcs Hq.
  destruct (plain_target_shape cs q Hcs Hq) as [Hprint [_ [Hpath Hquery]]].
  destruct (rootedPath_single_slash cs (plainNames_valid cs Hcs)) as [H1 _].
  assert (Hurl : redirectURL r (rootedPath cs ++ q) = rootedPath cs ++ q).
  { unfold redirectURL. rewrite (hostless_plain cs q Hcs Hq).
    assert (Hslash : HasPrefix (rootedPath cs ++ q) "/" = true)
      by (apply (prefix_append "/")).
    assert (Hne : (rootedPath cs ++ q =? "") = false) by reflexivity.
    rewrite Hne, Hslash. cbn [orb negb]. cbv zeta. rewrite Hpath, Hquery.
    rewrite (rootedPath_clean cs (plainNames_valid cs Hcs)).
    assert (Hq' : match match q with
                              | EmptyString => None
                              | String _ q' => Some q'
                              end with
                        | Some q0 => String "?" q0
                        | None => ""
                        end = q).
    { destruct q as [|c q']; [reflexivity|]. cbn [plainQuery] in Hq.
      apply andb_prop in Hq as [Hc _]. apply Ascii.eqb_eq in Hc. now subst c. }
    rewrite Hq'. now destruct (HasSuffix (rootedPath cs) "/"). }
  rewrite Hurl. now apply printable_hexEscape.
Qed.

(** ** The handlers, path lines named *)

Lemma handleAPIFiles_paths (fh : FileHandler) (r : Request) :
  handleAPIFiles fh r
  = if negb (HasPrefix (apiFsPath fh r) (rootDir fh))
    then http_Error "Access denied" 403
    else
      stat <- os_Stat (apiFsPath fh r) ;;
      match stat with
      | inl Os.ErrNotExist => http_NotFound
      | inl Os.ErrOther => http_Error "Internal server error" 500
      | inr stat =>
          if negb (IsDir stat)
          then http_Error "Path is not a directory" 400
          else
            entries <- os_ReadDir (apiFsPath fh r) ;;
            match entries with
            | None => http_Error "Cannot read directory" 500
            | Some entries =>
                let visible :=
                  filter (fun info => negb (HasPrefix (Name info) ".")) entries in
                let files :=
                  sortSlice lessAPIFileItem
                            (map (toAPIFileItem (apiCleanPath r)) visible) in
                let hasParent := negb (apiCleanPath r =? "/") in
                let parentPath :=
                  if hasParent
                  then (if Filepath.Dir (apiCleanPath r) =? "." then "/"
                        else Filepath.Dir (apiCleanPath r))
                  else "/" in
                Write (ListingJSON
                         (mkAPIPageData "GoShare - File Browser" (apiCleanPath r)
                                        parentPath files hasParent (serverURL fh)))
            end
      end.
Proof. reflexivity. Qed.

(** ** The redirect after a login *)


Lemma login_answer (h : Handler) (pw : string) (r : Request) (root : Node) (clock : Z) :
  pw <> "" -> Method r = "POST" -> Path (Url r) = "/login" ->
  FormValue r "password" = pw ->
  resp (serve (applyAuthMiddleware h pw) r root clock)
  = mkResponse
      [("Location",
        NetUrl.hexEscapeNonASCII
          (redirectURL r (if FormValue r "redirect" =? "" then "/"
                          else FormValue r "redirect")))]
      [sessionCookie] (Some 303%Z) [].
Proof.
  intros Hpw Hm Hp Hsub. unfold serve.
  assert (Hl : isLoginPost r = true)
    by (unfold isLoginPost; now rewrite Hm, Hp).
  rewrite (gate_login_ok h pw r Hpw Hl Hsub). unfold bind.
  now rewrite (http_Redirect_post r _ _ _ Hm).
Qed.




(** ** Containment of request paths *)

(** C1.  The shared root is [/share]; [/share-evil] lies next to it.
    The URL path [/../../etc/passwd] resolves to [/share/etc/passwd], and
    the query value [path=../../etc] fails the containment test: 403, and
    no call into the file system.  The query value [path=../share-evil]
    does not: cleaning keeps its leading [..], joined onto the root it
    names the sibling [/share-evil], and that passes the test
    [strings.HasPrefix(fsPath, fh.rootDir)] because the sibling's name
    starts with the bytes of the root.  The handler stats and reads the
    directory and answers 200 with its listing, although the path is not
    inside the shared root. *)
Theorem api_path_escapes_shared_root :
  let h := ServeHTTP (sampleHandler "") in
  let w1 := serve h (plainRequest "GET" "/../../etc/passwd" []) sampleRoot 0 in
  let w2 := serve h (plainRequest "GET" "/api/files" [("path", "../../etc")])
                  sampleRoot 0 in
  let w3 := serve h (plainRequest "GET" "/api/files" [("path", "../share-evil")])
                  sampleRoot 0 in
  (ops w1 = [OpStat "/share/etc/passwd"] /\ Status (resp w1) = Some 404%Z)
  /\ (ops w2 = [] /\ Status (resp w2) = Some 403%Z)
  /\ (ops w3 = [OpStat "/share-evil"; OpReadDir "/share-evil"]
      /\ inside "/share" "/share-evil" = false
      /\ Status (resp w3) = Some 200%Z
      /\ exists data, Body (resp w3) = [ListingJSON data]
                      /\ map aName (aFiles data) = ["secret.txt"]).
Proof.
  vm_compute. repeat split. eexists. split; reflexivity.
Qed.

(** C2.  Uploads with the shared root [/share].  With the [directory]
    field [/sub] the part is saved as [/share/sub/x.txt]; with
    [../../etc] the request is refused with 403 before any call into the
    file system.  With [../share-evil] the same prefix test lets the target
    through: the handler calls [os.MkdirAll], [os.Create] and the copy on
    paths under [/share-evil], the file is there afterwards, and the answer
    is the 303 redirect that reports one uploaded file (its target made
    absolute against [/upload] by [http.Redirect]). *)
Theorem upload_directory_escapes_shared_root :
  let upload dir :=
    mkRequest "POST" (mkURL "/upload" []) [] None [("directory", dir)]
              (Some [("files", mkFileHeader "x.txt" "data" false None)]) in
  let h := ServeHTTP (sampleHandler "") in
  let w1 := serve h (upload "/sub") sampleRoot 99 in
  let w2 := serve h (upload "../../etc") sampleRoot 99 in
  let w3 := serve h (upload "../share-evil") sampleRoot 99 in
  (Os.lookup (fs w1) ["share"; "sub"; "x.txt"] = inr (File "data" 99 true)
   /\ assoc "Location" (Header (resp w1)) = Some "/sub?uploaded=1")
  /\ (Status (resp w2) = Some 403%Z /\ ops w2 = [] /\ fs w2 = sampleRoot)
  /\ (ops w3 = [OpMkdirAll "/share-evil"; OpCreate "/share-evil/x.txt";
                OpWrite "/share-evil/x.txt"]
      /\ inside "/share" "/share-evil/x.txt" = false
      /\ Os.lookup sampleRoot ["share-evil"; "x.txt"] = inl Os.ErrNotExist
      /\ Os.lookup (fs w3) ["share-evil"; "x.txt"] = inr (File "data" 99 true)
      /\ Status (resp w3) = Some 303%Z
      /\ assoc "Location" (Header (resp w3)) = Some "/share-evil?uploaded=1").
Proof. vm_compute. repeat split. Qed.

(** A failed containment test ends the JSON listing with 403 before any
    call into the file system. *)
Lemma api_denied_before_filesystem (fh : FileHandler) (r : Request)
      (root : Node) (clock : Z) :
  HasPrefix (apiFsPath fh r) (rootDir fh) = false ->
  let w := serve (handleAPIFiles fh) r root clock in
  Status (resp w) = Some 403%Z /\ ops w = [] /\ fs w = root.
Proof.
  intros H w. subst w. unfold serve.
  rewrite handleAPIFiles_paths, H. repeat split.
Qed.

(** The file browser: the branch of [ServeHTTP] that resolves the URL
    path. *)
Lemma ServeHTTP_browse (fh : FileHandler) (r : Request) :
  Method r <> "OPTIONS" -> Path (Url r) <> "/api/auth/check" ->
  HasPrefix (Path (Url r)) "/api/" = false ->
  (Method r =? "POST") && (Path (Url r) =? "/upload") = false ->
  ServeHTTP fh r
  = (Header_Set "Access-Control-Allow-Origin" "*" ;;
     Header_Set "Access-Control-Allow-Methods" "GET, POST, OPTIONS" ;;
     Header_Set "Access-Control-Allow-Headers" "Content-Type, Authorization" ;;
     Header_Set "Access-Control-Allow-Credentials" "true" ;;
     if negb (HasPrefix (browseFsPath fh r) (rootDir fh))
     then http_Error "Access denied" 403
     else
       stat <- os_Stat (browseFsPath fh r) ;;
       match stat with
       | inl Os.ErrNotExist => http_NotFound
       | inl Os.ErrOther => http_Error "Internal server error" 500
       | inr stat =>
           if IsDir stat && (QueryGet r "download" =? "zip")
           then serveDirectoryAsZip fh r (browseFsPath fh r) (Name stat)
           else if negb (IsDir stat) then serveFile fh r (browseFsPath fh r) stat
           else serveDirectory fh r (browseFsPath fh r) (browseCleanPath r)
       end).
Proof.
  intros Hm Hp Hapi Hup. unfold ServeHTTP.
  now rewrite (eqb_false_of_neq _ _ Hm), (eqb_false_of_neq _ _ Hp), Hapi, Hup.
Qed.

(** A failed containment test ends the file browser with 403 before any
    call into the file system. *)
Lemma browse_denied_before_filesystem (fh : FileHandler) (r : Request)
      (root : Node) (clock : Z) :
  Method r <> "OPTIONS" -> Path (Url r) <> "/api/auth/check" ->
  HasPrefix (Path (Url r)) "/api/" = false ->
  (Method r =? "POST") && (Path (Url r) =? "/upload") = false ->
  HasPrefix (browseFsPath fh r) (rootDir fh) = false ->
  let w := serve (ServeHTTP fh) r root clock in
  Status (resp w) = Some 403%Z /\ ops w = [] /\ fs w = root.
Proof.
  intros Hm Hp Hapi Hup H w. subst w. unfold serve.
  rewrite (ServeHTTP_browse fh r Hm Hp Hapi Hup).
  unfold bind. cbn [fst snd]. rewrite H. repeat split.
Qed.

(** A URL path as the server parses it off the request line starts with a
    slash (or is empty); such a path resolves inside the shared root,
    whatever [..] elements it has.  The same holds for a query value or a
    directory field that starts with a slash. *)
Lemma rooted_paths_stay_inside (fh : FileHandler) (r : Request)
      (base : list string) :
  rootDir fh = rootedPath base ->
  Forall (fun e => validName e = true) base ->
  (rooted (Path (Url r)) = true \/ Path (Url r) = "" ->
   inside (rootDir fh) (browseFsPath fh r) = true)
  /\ (rooted (QueryGet r "path") = true \/ QueryGet r "path" = "" ->
      inside (rootDir fh) (apiFsPath fh r) = true)
  /\ (rooted (FormValue r "directory") = true \/ FormValue r "directory" = "" ->
      inside (rootDir fh) (uploadFsDir fh r) = true).
Proof.
  intros Hroot Hb. rewrite Hroot.
  split; [|split]; intro H.
  - unfold browseFsPath, browseCleanPath. rewrite Hroot. cbv zeta.
    apply resolve_rooted_inside; [assumption|].
    destruct H as [H | ->]; [|reflexivity].
    destruct ((Path (Url r) =? "") || (Path (Url r) =? "/")); [reflexivity | exact H].
  - unfold apiFsPath, apiCleanPath. rewrite Hroot. cbv zeta.
    apply resolve_rooted_inside; [assumption|].
    destruct H as [H | ->]; [|reflexivity].
    destruct (QueryGet r "path" =? ""); [reflexivity | exact H].
  - unfold uploadFsDir, uploadCleanDir. rewrite Hroot. cbv zeta.
    apply resolve_rooted_inside; [assumption|].
    destruct H as [H | ->]; [|reflexivity].
    destruct (FormValue r "directory" =? ""); [reflexivity | exact H].
Qed.

(** ** Calls into the file system, step by step *)

Lemma os_Stat_run (path : string) (w : World) :
  os_Stat path w
  = (match Os.lookup (fs w) (Os.pathElems path) with
     | inl e => inl e
     | inr n => inr (Os.info (Os.baseName path) n)
     end, logged w (OpStat path)).
Proof. reflexivity. Qed.

Lemma os_ReadDir_run (path : string) (w : World)
      (es : list (string * Node)) (sz mt : Z) :
  Os.lookup (fs w) (Os.pathElems path) = inr (Dir es sz mt true) ->
  os_ReadDir path w
  = (Some (map (fun e => Os.info (fst e) (snd e)) es), logged w (OpReadDir path)).
Proof.
  intro H. unfold os_ReadDir, bind, logOp. cbn [fst snd fs]. now rewrite H.
Qed.

Lemma info_name (name : string) (n : Node) : Name (Os.info name n) = name.
Proof. now destruct n. Qed.

Lemma entry_names (es : list (string * Node)) :
  map Name (map (fun e => Os.info (fst e) (snd e)) es) = map fst es.
Proof.
  induction es as [|[name n] es IH]; cbn; [reflexivity|].
  now rewrite info_name, IH.
Qed.

Lemma os_Create_run (path : string) (w : World) :
  os_Create path w
  = match Os.create (now w) (Os.pathElems path) (fs w) with
    | Some n => (true, setFs n (logged w (OpCreate path)))
    | None => (false, logged w (OpCreate path))
    end.
Proof. reflexivity. Qed.

Lemma os_MkdirAll_run (path : string) (w : World) :
  os_MkdirAll path w
  = match Os.mkdirAll (now w) (Os.pathElems path) (fs w) with
    | Some n => (true, setFs n (logged w (OpMkdirAll path)))
    | None => (false, logged w (OpMkdirAll path))
    end.
Proof. reflexivity. Qed.

Lemma os_Remove_run (path : string) (w : World) :
  os_Remove path w
  = (tt, match Os.remove (Os.pathElems path) (fs w) with
         | Some n => setFs n (logged w (OpRemove path))
         | None => logged w (OpRemove path)
         end).
Proof.
  unfold os_Remove, bind, logOp. cbn [fst snd fs].
  now destruct (Os.remove (Os.pathElems path) (fs w)).
Qed.

Lemma io_Copy_run (destPath : string) (f : FileHeader) (w : World) :
  io_Copy destPath f w
  = (match CopyErrAt f with Some _ => false | None => true end,
     match Os.write (now w)
                    (match CopyErrAt f with
                     | Some k => String.substring 0 k (Content f)
                     | None => Content f
                     end) (Os.pathElems destPath) (fs w) with
     | Some n => setFs n (logged w (OpWrite destPath))
     | None => logged w (OpWrite destPath)
     end).
Proof. reflexivity. Qed.

(** ** The order of listings *)

(** C5.  The two listings of [/share], which holds the files [B.txt] and
    [a.txt].  The HTML listing compares lower-cased names and shows
    [a.txt] before [B.txt].  The JSON listing compares the names as they
    are, so [B.txt] (capital B is byte 66) comes before [a.txt] (small a is
    byte 97), against case-insensitive order. *)
Theorem api_listing_orders_by_raw_bytes :
  let html := serve (ServeHTTP (sampleHandler "")) (plainRequest "GET" "/" [])
                    sampleRoot 0 in
  let json := serve (ServeHTTP (sampleHandler ""))
                    (plainRequest "GET" "/api/files" []) sampleRoot 0 in
  (exists data, Body (resp html) = [ListingPage data]
                /\ map fName (Files data) = ["sub"; ".profile"; "a.txt"; "B.txt"])
  /\ (exists data, Body (resp json) = [ListingJSON data]
                   /\ map aName (aFiles data) = ["sub"; "B.txt"; "a.txt"])
  /\ Strings.lt (ToLower "a.txt") (ToLower "B.txt") = true.
Proof.
  vm_compute. repeat split; eexists; split; reflexivity.
Qed.

(** The HTML listing, for every directory: the rows are a rearrangement of
    the entries, directories come before files, and within each kind the
    lower-cased names do not decrease. *)
Lemma html_listing_order (fh : FileHandler) (r : Request)
      (fsPath urlPath : string) (w : World)
      (es : list (string * Node)) (sz mt : Z) :
  Os.lookup (fs w) (Os.pathElems fsPath) = inr (Dir es sz mt true) ->
  exists page,
    Body (resp (snd (serveDirectory fh r fsPath urlPath w)))
    = (Body (resp w) ++ [ListingPage page])%list
    /\ Permutation (map fName (Files page)) (map fst es)
    /\ StronglySorted
         (fun a b =>
            (fIsDir a = fIsDir b ->
             Strings.lt (ToLower (fName b)) (ToLower (fName a)) = false)
            /\ (fIsDir a <> fIsDir b -> fIsDir a = true))
         (Files page).
Proof.
  intro Hdir. unfold serveDirectory, bind.
  rewrite (os_ReadDir_run fsPath w es sz mt Hdir). cbn [fst snd].
  eexists. split; [reflexivity|]. cbn [Files]. split.
  - eapply Permutation_trans;
      [apply Permutation_map, sortSlice_perm|].
    rewrite map_map. cbn [fName toFileInfo].
    rewrite <- (entry_names es). apply Permutation_refl.
  - eapply StronglySorted_weaken;
      [|apply (sortSlice_sorted _ lessFileInfo lessFileInfo_asym
                                lessFileInfo_negtrans)].
    intros a b. unfold inOrder, lessFileInfo.
    destruct (fIsDir a), (fIsDir b); cbn; intro H; split; congruence.
Qed.

(** ** Hidden files *)

(** The JSON listing of a readable directory: one row per entry whose name
    does not start with a dot, sorted. *)
Lemma handleAPIFiles_listing (fh : FileHandler) (r : Request) (w : World)
      (es : list (string * Node)) (sz mt : Z) :
  HasPrefix (apiFsPath fh r) (rootDir fh) = true ->
  Os.lookup (fs w) (Os.pathElems (apiFsPath fh r)) = inr (Dir es sz mt true) ->
  exists data,
    Body (resp (snd (handleAPIFiles fh r w)))
    = (Body (resp w) ++ [ListingJSON data])%list
    /\ aFiles data
       = sortSlice lessAPIFileItem
           (map (toAPIFileItem (apiCleanPath r))
                (filter (fun info => negb (HasPrefix (Name info) "."))
                        (map (fun e => Os.info (fst e) (snd e)) es))).
Proof.
  intros Hin Hdir. rewrite handleAPIFiles_paths, Hin. cbn [negb].
  unfold bind at 1. rewrite os_Stat_run. cbn [fst snd].
  change (fs (logged w (OpStat (apiFsPath fh r)))) with (fs w) in *.
  rewrite Hdir. cbn [Os.info IsDir negb].
  unfold bind at 1.
  rewrite (os_ReadDir_run (apiFsPath fh r) (logged w (OpStat (apiFsPath fh r)))
                          es sz mt Hdir).
  cbn [fst snd]. eexists. split; reflexivity.
Qed.

Lemma api_names (cleanPath : string) (infos : list OsFileInfo) :
  map aName (map (toAPIFileItem cleanPath) infos) = map Name infos.
Proof. now rewrite map_map. Qed.

(** C8.  One readable directory, listed both ways.  The HTML listing
    ([serveDirectory]) has a row for every entry, whatever its name, so an
    entry whose name starts with a dot is listed; the JSON listing
    ([handleAPIFiles]) has a row for exactly the entries whose name does not
    start with a dot. *)
Theorem hidden_files_policy (fh : FileHandler) (r : Request) (urlPath : string)
        (root : Node) (clock : Z) (es : list (string * Node)) (sz mt : Z) :
  HasPrefix (apiFsPath fh r) (rootDir fh) = true ->
  Os.lookup root (Os.pathElems (apiFsPath fh r)) = inr (Dir es sz mt true) ->
  (exists page,
      Body (resp (snd (serveDirectory fh r (apiFsPath fh r) urlPath
                                      (freshWorld root clock))))
      = [ListingPage page]
      /\ (forall name, In name (map fName (Files page)) <-> In name (map fst es))
      /\ (forall name, In name (map fst es) -> HasPrefix name "." = true ->
                       In name (map fName (Files page))))
  /\ (exists data,
         Body (resp (serve (handleAPIFiles fh) r root clock)) = [ListingJSON data]
         /\ (forall name, In name (map aName (aFiles data))
                          <-> In name (map fst es) /\ HasPrefix name "." = false)).
Proof.
  intros Hin Hdir. split.
  - destruct (html_listing_order fh r (apiFsPath fh r) urlPath
                                 (freshWorld root clock) es sz mt Hdir)
      as [page [Hbody [Hperm _]]].
    exists page. split; [exact Hbody|].
    assert (Hiff : forall name,
               In name (map fName (Files page)) <-> In name (map fst es)).
    { intro name. split; apply Permutation_in;
        [exact Hperm | apply Permutation_sym, Hperm]. }
    split; [exact Hiff|]. intros name Hname _. now apply Hiff.
  - destruct (handleAPIFiles_listing fh r (freshWorld root clock) es sz mt Hin Hdir)
      as [data [Hbody Hfiles]].
    exists data. split; [exact Hbody|]. intro name. rewrite Hfiles.
    assert (Hp : Permutation
                   (map aName
                        (sortSlice lessAPIFileItem
                           (map (toAPIFileItem (apiCleanPath r))
                                (filter (fun info => negb (HasPrefix (Name info) "."))
                                        (map (fun e => Os.info (fst e) (snd e)) es)))))
                   (map Name
                        (filter (fun info => negb (HasPrefix (Name info) "."))
                                (map (fun e => Os.info (fst e) (snd e)) es)))).
    { rewrite <- api_names with (cleanPath := apiCleanPath r).
      apply Permutation_map, sortSlice_perm. }
    rewrite <- (entry_names es).
    split.
    + intro H. apply (Permutation_in _ Hp) in H.
      apply in_map_iff in H. destruct H as [info [<- H]].
      apply filter_In in H. destruct H as [H Hdot].
      split; [now apply in_map|]. now apply negb_true_iff.
    + intros [H Hdot]. apply (Permutation_in _ (Permutation_sym Hp)).
      apply in_map_iff in H. destruct H as [info [<- H]].
      apply in_map, filter_In. split; [exact H|]. now apply negb_true_iff.
Qed.

(** The two listings of [sampleRoot]'s shared directory: [.profile] is a
    row of the HTML listing and not of the JSON listing. *)
Lemma hidden_files_policy_witness :
  let fh := sampleHandler "" in
  let r := plainRequest "GET" "/api/files" [] in
  (exists page,
      Body (resp (snd (serveDirectory fh r "/share" "/" (freshWorld sampleRoot 0))))
      = [ListingPage page]
      /\ In ".profile" (map fName (Files page)))
  /\ (exists data,
         Body (resp (serve (handleAPIFiles fh) r sampleRoot 0)) = [ListingJSON data]
         /\ ~ In ".profile" (map aName (aFiles data))).
Proof.
  intros fh r.
  destruct (hidden_files_policy fh r "/" sampleRoot 0
              [(".profile", File "export A=1" 10 true);
               ("B.txt", File "bb" 20 true);
               ("a.txt", File "hello" 30 true);
               ("sub", Dir [] 4096 40 true)] 4096 50
              eq_refl eq_refl) as [[page [Hb [_ Hdot]]] [data [Hd Hnames]]].
  split.
  - exists page. split; [exact Hb|]. apply Hdot; [cbn; tauto | reflexivity].
  - exists data. split; [exact Hd|]. intro H. apply Hnames in H.
    destruct H as [_ H]. discriminate H.
Defined.

(** ** Size formatting *)

Local Open Scope Z_scope.

(** The loop stops because its condition fails, not because the fuel is
    used up: with [n < 2^fuel] it makes [k] rounds, where [k] is the first
    number of divisions by 1024 that brings [n] below 1024. *)
Lemma sizeLoop_rounds (fuel : nat) :
  forall (n div : Z) (exp : nat),
    0 <= n < 2 ^ Z.of_nat fuel ->
    exists k : nat,
      sizeLoop fuel n div exp = (div * 1024 ^ Z.of_nat k, (exp + k)%nat)
      /\ n / 1024 ^ Z.of_nat k < 1024
      /\ (k = 0%nat \/ 1024 <= n / 1024 ^ (Z.of_nat k - 1)).
Proof.
  induction fuel as [|fuel IH]; intros n div exp Hn.
  - exists 0%nat. cbn [sizeLoop]. change (2 ^ Z.of_nat 0) with 1 in Hn.
    rewrite Z.mul_1_r, Nat.add_0_r, Z.div_1_r.
    split; [reflexivity|]. split; [lia | now left].
  - cbn [sizeLoop]. destruct (n >=? 1024) eqn:Hge.
    + apply Z.geb_le in Hge.
      rewrite Z.quot_div_nonneg by lia.
      assert (Hq : 0 <= n / 1024 < 2 ^ Z.of_nat fuel).
      { split; [apply Z.div_pos; lia|].
        apply Z.div_lt_upper_bound; [lia|].
        rewrite Nat2Z.inj_succ, Z.pow_succ_r in Hn by lia. lia. }
      destruct (IH (n / 1024) (div * 1024) (S exp) Hq) as [k [Heq [Hlt Hfirst]]].
      exists (S k). rewrite Heq.
      rewrite Nat2Z.inj_succ, Z.pow_succ_r by lia.
      split; [f_equal; [ring | lia]|].
      rewrite Z.div_div in Hlt by lia.
      split; [exact Hlt|]. right.
      replace (Z.succ (Z.of_nat k) - 1) with (Z.of_nat k) by lia.
      destruct Hfirst as [-> | Hfirst].
      * now rewrite Z.div_1_r.
      * destruct k as [|k]; [now rewrite Z.div_1_r|].
        rewrite Z.div_div in Hfirst by (try apply Z.pow_pos_nonneg; lia).
        replace (Z.of_nat (S k)) with (Z.succ (Z.of_nat (S k) - 1)) by lia.
        rewrite Z.pow_succ_r by lia. exact Hfirst.
    + rewrite Z.geb_leb in Hge. apply Z.leb_gt in Hge. exists 0%nat.
      rewrite Z.mul_1_r, Nat.add_0_r, Z.div_1_r.
      split; [reflexivity|]. split; [lia | now left].
Qed.

(** The nearest integer is within half a unit. *)
Lemma roundHalfEven_near (num den : Z) :
  0 < den -> 2 * Z.abs (num - roundHalfEven num den * den) <= den.
Proof.
  intro Hden. unfold roundHalfEven.
  pose proof (Z.div_mod num den ltac:(lia)) as Hdm.
  pose proof (Z.mod_pos_bound num den Hden) as Hr.
  destruct (2 * (num mod den) <? den) eqn:H1; [apply Z.ltb_lt in H1; nia|].
  apply Z.ltb_ge in H1.
  destruct (den <? 2 * (num mod den)) eqn:H2.
  - apply Z.ltb_lt in H2. nia.
  - apply Z.ltb_ge in H2. destruct (Z.even (num / den)); nia.
Qed.

Lemma float64OfInt_exact (n : Z) : 0 <= n < 2 ^ 53 -> float64OfInt n = n.
Proof.
  intro Hn. unfold float64OfInt.
  destruct (Z.log2 n + 1 <=? 53) eqn:Hb; [reflexivity|].
  apply Z.leb_gt in Hb.
  assert (n = 0 \/ 0 < n) as [-> | Hpos] by lia; [discriminate|].
  pose proof (proj1 (Z.log2_lt_pow2 n 53 Hpos) (proj2 Hn)). lia.
Qed.

(** The unit index stays within ["KMGTPE"] for every [int64] size. *)
Lemma sizeLoop_exp_bound (size : Z) (k : nat) :
  1024 <= size < 2 ^ 63 ->
  1024 <= size / 1024 ^ Z.of_nat k -> (k < 6)%nat.
Proof.
  intros Hs Hk.
  destruct (Nat.lt_ge_cases k 6) as [|Hge]; [assumption|exfalso].
  assert (Hpow : 1024 ^ 6 <= 1024 ^ Z.of_nat k)
    by (apply Z.pow_le_mono_r; lia).
  assert (size / 1024 ^ Z.of_nat k <= size / 1024 ^ 6)
    by (apply Z.div_le_compat_l; lia).
  assert (size / 1024 ^ 6 < 8)
    by (apply Z.div_lt_upper_bound; [reflexivity|]; change (1024 ^ 6 * 8) with (2 ^ 63); lia).
  lia.
Qed.

Lemma unitLetter_in_range (k : nat) :
  (k < 6)%nat ->
  exists letter, String.get k "KMGTPE" = Some letter
                 /\ unitLetter k = String letter EmptyString.
Proof.
  intro Hk. unfold unitLetter.
  do 6 (destruct k as [|k]; [eexists; split; reflexivity|]). lia.
Qed.

(** C7.  [formatFileSize] on a file of [size] bytes.  From 0 through 1023
    it prints the count and " B".  From 1024 up (within [int64]) there is
    a unit index [exp] below 6, namely the one with
    [1024 <= size / 1024^exp] and [size / 1024^(exp+1) < 1024]; the text is
    the quotient of [size] by [1024^(exp+1)] with one decimal, a space, the
    letter number [exp] of "KMGTPE" and "B"; the decimal is the nearest
    tenth of the quotient of the two floats, and below 2^53 the float of
    [size] is [size] itself.  0, 1023, 1024 and 1048576 print as "0 B",
    "1023 B", "1.0 KB" and "1.0 MB".  A directory prints "-" whatever its
    size, and so does its row in the HTML listing. *)
Theorem formatFileSize_spec (size : Z) :
  (0 <= size < 1024 -> formatFileSize size false = (formatInt size ++ " B")%string)
  /\ (1024 <= size < 2 ^ 63 ->
      exists (exp : nat) (letter : ascii),
        (exp < 6)%nat
        /\ String.get exp "KMGTPE" = Some letter
        /\ 1024 <= size / 1024 ^ Z.of_nat exp
        /\ size / 1024 ^ (Z.of_nat exp + 1) < 1024
        /\ let div := 1024 ^ (Z.of_nat exp + 1) in
           let t := tenths size div in
           formatFileSize size false
           = (formatInt (t / 10) ++ "." ++ formatInt (t mod 10) ++ " "
                ++ String letter "B")%string
           /\ 0 <= t mod 10 < 10
           /\ 2 * Z.abs (10 * float64OfInt size - t * div) <= div
           /\ (size < 2 ^ 53 -> float64OfInt size = size))
  /\ formatFileSize size true = "-"%string
  /\ (forall urlPath name mt,
         fSizeStr (toFileInfo urlPath (mkInfo name size mt true)) = "-"%string)
  /\ map (fun n => formatFileSize n false) [0; 1023; 1024; 1048576]
     = ["0 B"; "1023 B"; "1.0 KB"; "1.0 MB"]%string.
Proof.
  split; [|split; [|repeat split]].
  - intros [_ Hlt]. unfold formatFileSize.
    now rewrite (proj2 (Z.ltb_lt size 1024) Hlt).
  - intros Hs. unfold formatFileSize.
    rewrite (proj2 (Z.ltb_ge size 1024) (proj1 Hs)).
    rewrite Z.quot_div_nonneg by lia.
    assert (Hfuel : 0 <= size / 1024 < 2 ^ Z.of_nat (S (Z.to_nat (Z.log2 size)))).
    { split; [apply Z.div_pos; lia|].
      apply Z.div_lt_upper_bound; [lia|].
      rewrite Nat2Z.inj_succ, Z2Nat.id by apply Z.log2_nonneg.
      pose proof (Z.log2_spec size ltac:(lia)) as [_ Hup].
      rewrite Z.pow_succ_r in * by apply Z.log2_nonneg. lia. }
    destruct (sizeLoop_rounds _ (size / 1024) 1024 0%nat Hfuel)
      as [k [Heq [Hlt Hfirst]]].
    rewrite Heq. cbn [Nat.add].
    rewrite Z.div_div in Hlt by (try apply Z.pow_pos_nonneg; lia).
    assert (Hdiv : 1024 * 1024 ^ Z.of_nat k = 1024 ^ (Z.of_nat k + 1))
      by (rewrite Z.pow_add_r by lia; ring).
    rewrite Hdiv in *.
    assert (Hlow : 1024 <= size / 1024 ^ Z.of_nat k).
    { destruct Hfirst as [-> | Hfirst]; [rewrite Z.div_1_r; lia|].
      destruct k as [|k]; [rewrite Z.div_1_r; lia|].
      rewrite Z.div_div in Hfirst by (try apply Z.pow_pos_nonneg; lia).
      replace (1024 * 1024 ^ (Z.of_nat (S k) - 1)) with (1024 ^ Z.of_nat (S k))
        in Hfirst; [exact Hfirst|].
      replace (Z.of_nat (S k)) with (Z.succ (Z.of_nat (S k) - 1)) at 1 by lia.
      rewrite Z.pow_succ_r by lia. reflexivity. }
    pose proof (sizeLoop_exp_bound size k Hs Hlow) as Hk.
    destruct (unitLetter_in_range k Hk) as [letter [Hget Hletter]].
    exists k, letter. rewrite Hletter.
    do 4 (split; [assumption|]). cbv zeta.
    split; [|split; [|split]].
    + unfold formatFloat1. now rewrite !append_assoc.
    + apply Z.mod_pos_bound; lia.
    + apply roundHalfEven_near. apply Z.pow_pos_nonneg; lia.
    + intro H53. apply float64OfInt_exact. lia.
Qed.

(** The theorem at 1.5 MiB: the unit is M and the text is "1.5 MB". *)
Lemma formatFileSize_spec_witness :
  formatFileSize 1023 false = "1023 B"%string
  /\ exists (exp : nat) (letter : ascii),
      (exp < 6)%nat
      /\ String.get exp "KMGTPE" = Some letter
      /\ 1024 <= 1572864 / 1024 ^ Z.of_nat exp
      /\ 1572864 / 1024 ^ (Z.of_nat exp + 1) < 1024
      /\ let div := 1024 ^ (Z.of_nat exp + 1) in
         let t := tenths 1572864 div in
         formatFileSize 1572864 false
         = (formatInt (t / 10) ++ "." ++ formatInt (t mod 10) ++ " "
              ++ String letter "B")%string
         /\ 0 <= t mod 10 < 10
         /\ 2 * Z.abs (10 * float64OfInt 1572864 - t * div) <= div
         /\ (1572864 < 2 ^ 53 -> float64OfInt 1572864 = 1572864).
Proof.
  split.
  - apply (proj1 (formatFileSize_spec 1023)). lia.
  - apply (proj1 (proj2 (formatFileSize_spec 1572864))). lia.
Defined.

Local Close Scope Z_scope.

(** ** The file-system model *)

Lemma findEntry_putEntry (name : string) (c : Node) (es : list (string * Node)) :
  Os.findEntry name (Os.putEntry name c es) = Some c.
Proof.
  induction es as [|[n c'] es IH]; cbn.
  - now rewrite String.eqb_refl.
  - destruct (n =? name) eqn:Hn; cbn.
    + now rewrite String.eqb_refl.
    + destruct (Strings.lt name n); cbn.
      * now rewrite String.eqb_refl.
      * now rewrite Hn.
Qed.

Lemma findEntry_delEntry (name : string) (es : list (string * Node)) :
  Os.findEntry name (Os.delEntry name es) = None.
Proof.
  induction es as [|[n c'] es IH]; cbn; [reflexivity|].
  destruct (n =? name) eqn:Hn; cbn; [exact IH | now rewrite Hn].
Qed.

(** After a rewrite, the place holds what the function answered. *)
Lemma alter_lookup (f : option Node -> option (option Node)) (elems : list string) :
  forall n n', Os.alter f elems n = Some n' ->
               exists r, f (at_place n elems) = Some r
                         /\ Os.lookup n' elems = placed r.
Proof.
  induction elems as [|e rest IH]; intros n n' H; [discriminate|].
  destruct n as [|es sz mt [|]]; try discriminate.
  cbn [Os.alter] in H. destruct rest as [|e' rest'].
  - unfold at_place. cbn [Os.lookup].
    destruct (f (Os.findEntry e es)) as [[c'|]|] eqn:Hf; try discriminate;
      injection H as <-.
    + exists (Some c'). split.
      * destruct (Os.findEntry e es); exact Hf.
      * cbn. now rewrite findEntry_putEntry.
    + exists None. split.
      * destruct (Os.findEntry e es); exact Hf.
      * cbn. now rewrite findEntry_delEntry.
  - destruct (Os.findEntry e es) as [c|] eqn:Hfind; try discriminate.
    destruct (Os.alter f (e' :: rest') c) as [c'|] eqn:Hrec; try discriminate.
    injection H as <-.
    destruct (IH c c' Hrec) as [r [Hf Hl]].
    exists r. split.
    + unfold at_place in *. cbn [Os.lookup]. now rewrite Hfind.
    + cbn [Os.lookup]. now rewrite findEntry_putEntry.
Qed.

(** A rewrite of an existing place goes through when the function
    accepts what is there. *)
Lemma alter_existing (f : option Node -> option (option Node)) (elems : list string) :
  forall n c, elems <> [] -> Os.lookup n elems = inr c -> f (Some c) <> None ->
              exists n', Os.alter f elems n = Some n'.
Proof.
  induction elems as [|e rest IH]; intros n c Hne Hl Hf; [now elim Hne|].
  destruct n as [|es sz mt [|]]; try discriminate.
  cbn [Os.lookup] in Hl. cbn [Os.alter].
  destruct (Os.findEntry e es) as [c0|] eqn:Hfind; try discriminate.
  destruct rest as [|e' rest'].
  - cbn in Hl. injection Hl as ->.
    destruct (f (Some c)) as [[c'|]|]; [eexists; reflexivity.. | now elim Hf].
  - destruct (IH c0 c ltac:(discriminate) Hl Hf) as [c' ->].
    eexists; reflexivity.
Qed.

Lemma create_lookup (clock : Z) (elems : list string) (n n' : Node) :
  Os.create clock elems n = Some n' ->
  Os.lookup n' elems = inr (File "" clock true).
Proof.
  intro H. destruct (alter_lookup _ elems n n' H) as [r [Hf Hl]].
  rewrite Hl. destruct (at_place n elems) as [[c m [|]|]|]; try discriminate;
    now injection Hf as <-.
Qed.

Lemma create_nonempty (clock : Z) (elems : list string) (n n' : Node) :
  Os.create clock elems n = Some n' -> elems <> [].
Proof. intros H ->. discriminate H. Qed.

Lemma write_lookup (clock : Z) (data : string) (elems : list string)
      (n : Node) (c : string) (m : Z) (a : bool) :
  elems <> [] -> Os.lookup n elems = inr (File c m a) ->
  exists n', Os.write clock data elems n = Some n'
             /\ Os.lookup n' elems = inr (File data clock a).
Proof.
  intros Hne Hl.
  destruct (alter_existing
              (fun old => match old with
                          | Some (File _ _ a) => Some (Some (File data clock a))
                          | _ => None
                          end) elems n (File c m a) Hne Hl ltac:(discriminate))
    as [n' Hn'].
  exists n'. split; [exact Hn'|].
  destruct (alter_lookup _ elems n n' Hn') as [r [Hf Hl']].
  rewrite Hl'. unfold at_place in Hf. rewrite Hl in Hf. now injection Hf as <-.
Qed.

Lemma remove_lookup (elems : list string) (n : Node) (c : string) (m : Z) (a : bool) :
  elems <> [] -> Os.lookup n elems = inr (File c m a) ->
  exists n', Os.remove elems n = Some n'
             /\ Os.lookup n' elems = inl Os.ErrNotExist.
Proof.
  intros Hne Hl.
  destruct (alter_existing
              (fun old => match old with
                          | Some (File _ _ _) => Some None
                          | Some (Dir [] _ _ _) => Some None
                          | _ => None
                          end) elems n (File c m a) Hne Hl ltac:(discriminate))
    as [n' Hn'].
  exists n'. split; [exact Hn'|].
  destruct (alter_lookup _ elems n n' Hn') as [r [Hf Hl']].
  rewrite Hl'. unfold at_place in Hf. rewrite Hl in Hf. now injection Hf as <-.
Qed.

(** ** Upload *)

Local Open Scope Z_scope.

(** The loop goes on with the remaining parts whatever happened to the
    first, and counts it when it was saved. *)
Lemma uploadLoop_cons (fsDir : string) (f : FileHeader) (rest : list FileHeader)
      (c : Z) (w : World) :
  uploadLoop fsDir (f :: rest) c w
  = uploadLoop fsDir rest (if isSaved (outcome fsDir f w) then c + 1 else c)
               (afterOne fsDir f w).
Proof.
  unfold afterOne, outcome. cbn [uploadLoop].
  destruct (OpenErr f); [reflexivity|].
  unfold bind. rewrite !os_Create_run.
  destruct (Os.create (now w) (Os.pathElems (Join [fsDir; Filename f])) (fs w))
    as [n1|] eqn:Hc; cbn [fst snd negb isSaved]; [|reflexivity].
  rewrite !io_Copy_run. cbn [fst snd].
  destruct (CopyErrAt f) as [k|]; cbn [negb isSaved]; reflexivity.
Qed.

(** The count the loop returns: the start value plus the parts saved. *)
Lemma uploadLoop_count (fsDir : string) (files : list FileHeader) :
  forall (c : Z) (w : World),
    fst (uploadLoop fsDir files c w) = c + savedCount (outcomes fsDir files w).
Proof.
  induction files as [|f rest IH]; intros c w.
  - cbn. unfold savedCount. cbn. lia.
  - rewrite uploadLoop_cons, IH. cbn [outcomes]. unfold savedCount.
    cbn [filter]. destruct (isSaved (outcome fsDir f w)); cbn [length]; lia.
Qed.

(** A part that cannot be opened leaves the world as it was. *)
Lemma afterOne_open_failed (fsDir : string) (f : FileHeader) (w : World) :
  OpenErr f = true ->
  outcome fsDir f w = OpenFailed /\ afterOne fsDir f w = w.
Proof.
  intro H. unfold outcome, afterOne. cbn [uploadLoop]. rewrite H. now split.
Qed.

(** A part whose destination cannot be created leaves the files as they
    were. *)
Lemma afterOne_create_failed (fsDir : string) (f : FileHeader) (w : World) :
  outcome fsDir f w = CreateFailed ->
  afterOne fsDir f w = logged w (OpCreate (Join [fsDir; Filename f])).
Proof.
  unfold outcome, afterOne. cbn [uploadLoop].
  destruct (OpenErr f); [discriminate|].
  unfold bind. rewrite !os_Create_run.
  destruct (Os.create (now w) (Os.pathElems (Join [fsDir; Filename f])) (fs w));
    [destruct (CopyErrAt f); discriminate | reflexivity].
Qed.

(** A part whose copy fails is created, written in part and removed:
    afterwards nothing is at its destination. *)
Lemma afterOne_copy_failed (fsDir : string) (f : FileHeader) (w : World) :
  outcome fsDir f w = CopyFailed ->
  let destPath := Join [fsDir; Filename f] in
  ops (afterOne fsDir f w)
  = (ops w ++ [OpCreate destPath; OpWrite destPath; OpRemove destPath])%list
  /\ Os.lookup (fs (afterOne fsDir f w)) (Os.pathElems destPath)
     = inl Os.ErrNotExist.
Proof.
  unfold outcome, afterOne. cbn [uploadLoop].
  destruct (OpenErr f); [discriminate|].
  unfold bind. rewrite !os_Create_run.
  destruct (Os.create (now w) (Os.pathElems (Join [fsDir; Filename f])) (fs w))
    as [n1|] eqn:Hc; [|discriminate].
  destruct (CopyErrAt f) as [k|] eqn:Hk; [intros _|discriminate].
  cbn [fst snd negb]. rewrite !io_Copy_run, Hk. cbn [fst snd negb].
  pose proof (create_nonempty _ _ _ _ Hc) as Hne.
  pose proof (create_lookup _ _ _ _ Hc) as Hl.
  destruct (write_lookup (now w) (String.substring 0 k (Content f)) _ n1 _ _ _ Hne Hl)
    as [n2 [Hw Hl2]].
  cbn [setFs logged fs now resp ops]. rewrite Hw.
  rewrite !os_Remove_run. cbn [fst snd setFs logged fs now resp ops].
  destruct (remove_lookup _ n2 _ _ _ Hne Hl2) as [n3 [Hr Hl3]].
  rewrite Hr. unfold ret. cbn [fst snd setFs logged fs now resp ops].
  split; [now rewrite <- !app_assoc | exact Hl3].
Qed.

(** A part that is saved is at its destination afterwards, byte for byte. *)
Lemma afterOne_saved (fsDir : string) (f : FileHeader) (w : World) :
  outcome fsDir f w = Saved ->
  Os.lookup (fs (afterOne fsDir f w)) (Os.pathElems (Join [fsDir; Filename f]))
  = inr (File (Content f) (now w) true).
Proof.
  unfold outcome, afterOne. cbn [uploadLoop].
  destruct (OpenErr f); [discriminate|].
  unfold bind. rewrite !os_Create_run.
  destruct (Os.create (now w) (Os.pathElems (Join [fsDir; Filename f])) (fs w))
    as [n1|] eqn:Hc; [|discriminate].
  destruct (CopyErrAt f) as [k|] eqn:Hk; [discriminate|intros _].
  cbn [fst snd negb]. rewrite !io_Copy_run, Hk. cbn [fst snd negb].
  pose proof (create_nonempty _ _ _ _ Hc) as Hne.
  pose proof (create_lookup _ _ _ _ Hc) as Hl.
  destruct (write_lookup (now w) (Content f) _ n1 _ _ _ Hne Hl) as [n2 [Hw Hl2]].
  cbn [setFs logged fs now resp ops]. rewrite Hw.
  unfold ret. cbn [fst snd setFs logged fs now resp ops]. exact Hl2.
Qed.

(** Case analysis on every optional result still in the goal. *)
Ltac split_options :=
  repeat match goal with
         | |- context [match ?x with Some _ => _ | None => _ end] => destruct x
         end.

Lemma afterOne_resp (fsDir : string) (f : FileHeader) (w : World) :
  resp (afterOne fsDir f w) = resp w.
Proof.
  unfold afterOne. cbn [uploadLoop].
  destruct (OpenErr f); [reflexivity|].
  unfold bind. rewrite !os_Create_run.
  destruct (Os.create (now w) (Os.pathElems (Join [fsDir; Filename f])) (fs w));
    cbn [fst snd negb]; [|reflexivity].
  rewrite !io_Copy_run. cbn [fst snd].
  destruct (CopyErrAt f); cbn [negb].
  - rewrite !os_Remove_run. cbn [fst snd]. split_options; reflexivity.
  - split_options; reflexivity.
Qed.

Lemma uploadLoop_resp (fsDir : string) (files : list FileHeader) :
  forall (c : Z) (w : World), resp (snd (uploadLoop fsDir files c w)) = resp w.
Proof.
  induction files as [|f rest IH]; intros c w; [reflexivity|].
  now rewrite uploadLoop_cons, IH, afterOne_resp.
Qed.

Lemma http_Redirect_resp (r : Request) (target : string) (code : Z) (w : World) :
  Method r = "POST" ->
  resp (snd (http_Redirect r target code w))
  = mkResponse (setKey "Location"
                       (NetUrl.hexEscapeNonASCII (redirectURL r target))
                       (Header (resp w)))
               (SetCookie (resp w))
               (match Status (resp w) with
                | Some c => Some c
                | None => Some code
                end)
               (Body (resp w)).
Proof. intro Hm. now rewrite (http_Redirect_post r target code w Hm). Qed.

Lemma handleUpload_paths (fh : FileHandler) (r : Request) :
  handleUpload fh r
  = match MultipartFile r with
    | None => http_Error "Unable to parse form" 400
    | Some parts =>
        if negb (HasPrefix (uploadFsDir fh r) (rootDir fh))
        then http_Error "Access denied" 403
        else
          made <- os_MkdirAll (uploadFsDir fh r) ;;
          if negb made
          then http_Error "Unable to create directory" 500
          else
            uploadedCount <-
              uploadLoop (uploadFsDir fh r) (filesOf "files" parts) 0 ;;
            http_Redirect r (uploadRedirect (uploadCleanDir r) uploadedCount) 303
    end.
Proof. reflexivity. Qed.

(** A directory that fails the containment test ends the upload with 403
    before any call into the file system. *)
Lemma upload_denied_before_filesystem (fh : FileHandler) (r : Request)
      (parts : list (string * FileHeader)) (root : Node) (clock : Z) :
  MultipartFile r = Some parts ->
  HasPrefix (uploadFsDir fh r) (rootDir fh) = false ->
  let w := serve (handleUpload fh) r root clock in
  Status (resp w) = Some 403 /\ ops w = [] /\ fs w = root.
Proof.
  intros Hparts H w. subst w. unfold serve.
  rewrite handleUpload_paths, Hparts, H. repeat split.
Qed.

(** C9.  A multipart POST whose form parses, whose directory passes the
    containment test and can be made.  The answer is a 303 redirect whose
    target is built from the cleaned directory and the number of parts
    saved - [Location] holds it as [http.Redirect] rewrites it, and when a
    part was saved it ends in [uploaded=] and that number - and nothing
    else: no body, no header about single parts.  The loop body runs once
    per part: after any part, saved or not, the loop
    goes on with the parts behind it, and only a saved part raises the
    count.  A part that cannot be opened changes nothing; one whose
    destination cannot be created leaves the files untouched; one whose
    copy fails has its half-written destination removed again; a saved part
    is at its destination with its bytes. *)
Theorem upload_partial_failures
        (fh : FileHandler) (r : Request) (parts : list (string * FileHeader))
        (root root' : Node) (clock : Z) :
  Method r = "POST" ->
  MultipartFile r = Some parts ->
  HasPrefix (uploadFsDir fh r) (rootDir fh) = true ->
  Os.mkdirAll clock (Os.pathElems (uploadFsDir fh r)) root = Some root' ->
  let fsDir := uploadFsDir fh r in
  let files := filesOf "files" parts in
  let w0 := setFs root' (logged (freshWorld root clock) (OpMkdirAll fsDir)) in
  let w := serve (handleUpload fh) r root clock in
  let saved := savedCount (outcomes fsDir files w0) in
  (Status (resp w) = Some 303
   /\ Header (resp w)
      = [("Location",
          NetUrl.hexEscapeNonASCII
            (redirectURL r (uploadRedirect (uploadCleanDir r) saved)))]
   /\ (0 < saved ->
       exists front,
         Header (resp w)
         = [("Location", (front ++ "uploaded=" ++ formatInt saved)%string)])
   /\ Body (resp w) = [] /\ SetCookie (resp w) = [])
  /\ length (outcomes fsDir files w0) = length files
  /\ (forall f rest c w1,
         uploadLoop fsDir (f :: rest) c w1
         = uploadLoop fsDir rest
                      (if isSaved (outcome fsDir f w1) then c + 1 else c)
                      (afterOne fsDir f w1))
  /\ (forall f w1, outcome fsDir f w1 = OpenFailed -> afterOne fsDir f w1 = w1)
  /\ (forall f w1, outcome fsDir f w1 = CreateFailed ->
                   fs (afterOne fsDir f w1) = fs w1)
  /\ (forall f w1, outcome fsDir f w1 = CopyFailed ->
                   Os.lookup (fs (afterOne fsDir f w1))
                             (Os.pathElems (Join [fsDir; Filename f]))
                   = inl Os.ErrNotExist)
  /\ (forall f w1, outcome fsDir f w1 = Saved ->
                   Os.lookup (fs (afterOne fsDir f w1))
                             (Os.pathElems (Join [fsDir; Filename f]))
                   = inr (File (Content f) (now w1) true)).
Proof.
  intros Hm Hparts Hin Hmk fsDir files w0 w saved.
  split; [|split; [|split; [|split; [|split; [|split]]]]].
  - assert (Hw : resp w
                 = resp (snd (http_Redirect r
                                (uploadRedirect (uploadCleanDir r)
                                   (fst (uploadLoop fsDir files 0 w0))) 303
                                (snd (uploadLoop fsDir files 0 w0))))).
    { subst w. unfold serve. rewrite handleUpload_paths, Hparts, Hin.
      cbn [negb]. unfold bind at 1. rewrite os_MkdirAll_run.
      change (fs (freshWorld root clock)) with root.
      change (now (freshWorld root clock)) with clock.
      rewrite Hmk. reflexivity. }
    rewrite Hw, (http_Redirect_resp _ _ _ _ Hm), uploadLoop_resp, uploadLoop_count.
    change (0 + savedCount (outcomes fsDir files w0)) with saved.
    repeat split.
    intro Hpos. cbn [Header resp w0 setFs logged freshWorld emptyResponse setKey].
    destruct (redirect_keeps_count r (uploadCleanDir r) saved Hpos) as [front ->].
    now exists front.
  - clear. generalize w0. induction files as [|f rest IH]; intro w1;
      cbn [outcomes length]; [reflexivity | now rewrite IH].
  - intros. apply uploadLoop_cons.
  - intros f w1 H. unfold outcome in H.
    destruct (OpenErr f) eqn:Ho; [now apply afterOne_open_failed|].
    destruct (Os.create _ _ _); [destruct (CopyErrAt f)|]; discriminate.
  - intros f w1 H. now rewrite (afterOne_create_failed _ _ _ H).
  - intros f w1 H. apply (afterOne_copy_failed _ _ _ H).
  - intros f w1 H. now apply afterOne_saved.
Qed.

(** [sampleUpload] against [sampleRoot]: two of the four parts are saved,
    the redirect says so, and of the failed parts nothing is left. *)
Lemma upload_partial_failures_witness :
  let w := serve (handleUpload (sampleHandler "")) sampleUpload sampleRoot 7 in
  (Status (resp w) = Some 303
   /\ Header (resp w) = [("Location", "/?uploaded=2")]
   /\ (0 < 2 -> exists front,
          Header (resp w) = [("Location", (front ++ "uploaded=2")%string)])
   /\ Body (resp w) = [] /\ SetCookie (resp w) = [])
  /\ Os.lookup (fs w) ["share"; "one.txt"] = inr (File "first" 7 true)
  /\ Os.lookup (fs w) ["share"; "two.txt"] = inl Os.ErrNotExist
  /\ Os.lookup (fs w) ["share"; "three.txt"] = inl Os.ErrNotExist
  /\ Os.lookup (fs w) ["share"; "four.txt"] = inr (File "fourth" 7 true).
Proof.
  intro w. split.
  - exact (proj1 (upload_partial_failures
                    (sampleHandler "") sampleUpload
                    [("files", mkFileHeader "one.txt" "first" false None);
                     ("files", mkFileHeader "two.txt" "second" false (Some 2%nat));
                     ("files", mkFileHeader "three.txt" "third" true None);
                     ("files", mkFileHeader "four.txt" "fourth" false None)]
                    sampleRoot sampleRoot 7 eq_refl eq_refl eq_refl eq_refl)).
  - vm_compute. repeat split.
Defined.

Local Close Scope Z_scope.

(** ** The archive walk *)

Lemma walkEntries_archive (base rel : list string) (es : list (string * Node)) :
  Forall (fun e => validName e = true) (base ++ rel) ->
  Forall (fun e => walked base (snd e)) es ->
  forallb (fun e => validName (fst e) && readable (snd e)) es = true ->
  forall zw,
  exists calls,
    walkEntries (walk (rootedPath base)) (rootedPath (base ++ rel)) es zw
    = ((rev (flat_map (fun e => archiveAt (rel ++ [fst e]) (snd e)) es)
            ++ fst zw, snd zw ++ calls)%list, false).
Proof.
  intros Hbr. induction es as [|[name child] rest IHrest]; intros Hall Hok zw.
  - exists []. cbn. now rewrite app_nil_r, <- surjective_pairing.
  - cbn [forallb fst snd] in Hok. apply andb_true_iff in Hok.
    destruct Hok as [Hhead Hrest]. apply andb_true_iff in Hhead.
    destruct Hhead as [Hname Hchild].
    inversion Hall as [|? ? Hc Hall']; subst. cbn [snd] in Hc.
    cbn [walkEntries]. cbv zeta.
    rewrite (Join_child (base ++ rel) name Hbr Hname), <- app_assoc.
    apply Forall_app in Hbr as Hsplit. destruct Hsplit as [_ Hrel].
    assert (Hrel' : Forall (fun e => validName e = true) (rel ++ [name]))
      by (apply Forall_app; split; [assumption | now constructor]).
    destruct (Hc (rel ++ [name])%list
                 (fst zw, (snd zw ++ [OpStat (rootedPath (base ++ rel ++ [name]))])%list)
                 Hrel' ltac:(now destruct rel) Hchild) as [calls1 Hw].
    rewrite Hw. cbn [fst snd].
    destruct (IHrest Hall' Hrest
                     (rev (archiveAt (rel ++ [name])%list child) ++ fst zw,
                      (snd zw ++ [OpStat (rootedPath (base ++ rel ++ [name]))])
                        ++ calls1)%list) as [calls2 Hl].
    rewrite Hl. cbn [fst snd flat_map].
    eexists. rewrite rev_app_distr, <- !app_assoc. reflexivity.
Qed.

Lemma walk_archiveAt (base : list string) (n : Node) :
  Forall (fun e => validName e = true) base -> walked base n.
Proof.
  intro Hbase. induction n as [content mt a | es sz mt a IH] using Node_induction;
    intros rel zw Hrel Hne Hread.
  - cbn [walk]. unfold zipFile. rewrite (Rel_descendant base rel Hbase Hrel Hne).
    cbn in Hread. subst a. eexists. reflexivity.
  - cbn [readable] in Hread. apply andb_true_iff in Hread.
    destruct Hread as [-> Hes]. cbn [walk negb fst snd]. unfold zipDir.
    assert (Hbr : Forall (fun e => validName e = true) (base ++ rel))
      by (apply Forall_app; now split).
    destruct (rootedPath (base ++ rel) =? rootedPath base) eqn:Heq.
    { apply String.eqb_eq in Heq. apply rootedPath_inj in Heq; try assumption.
      rewrite <- (app_nil_r base) in Heq at 2. apply app_inv_head in Heq.
      contradiction. }
    rewrite (Rel_descendant base rel Hbase Hrel Hne). cbn [fst snd archiveAt].
    destruct (walkEntries_archive base rel es Hbr IH Hes
                (mkZipEntry (String.concat "/" rel ++ "/") "" :: fst zw,
                 (snd zw ++ [OpReadDir (rootedPath (base ++ rel))])%list))
      as [calls Hl].
    rewrite Hl. cbn [fst snd].
    eexists. cbn [rev]. rewrite <- !app_assoc. reflexivity.
Qed.

(** *** Which entries are directories *)

Lemma endsInSep_sep (s : string) : endsInSep (s ++ "/") = true.
Proof.
  induction s as [|c s IH]; [reflexivity|].
  cbn [append]. destruct s; [reflexivity | exact IH].
Qed.

Lemma endsInSep_append (a b : string) :
  b <> "" -> endsInSep (a ++ b) = endsInSep b.
Proof.
  intro Hb. induction a as [|c a IH]; [reflexivity|].
  cbn [append]. destruct (a ++ b) eqn:Hab.
  - destruct a; [now elim Hb | discriminate].
  - exact IH.
Qed.

Lemma endsInSep_noSep (s : string) : noSep s = true -> endsInSep s = false.
Proof.
  induction s as [|c s IH]; [reflexivity|].
  cbn [noSep]. intro H. apply andb_true_iff in H. destruct H as [Hc Hs].
  apply negb_true_iff in Hc. destruct s; [exact Hc | now apply IH].
Qed.

Lemma concat_valid_nonempty (rel : list string) :
  rel <> [] -> Forall (fun e => validName e = true) rel ->
  String.concat "/" rel <> "".
Proof.
  intros Hne Hv. destruct rel as [|e rel]; [now elim Hne|].
  inversion Hv as [|? ? He _]; subst.
  destruct (validName_tests e He) as [H _]. apply String.eqb_neq in H.
  destruct e; [now elim H|]. destruct rel; discriminate.
Qed.

Lemma endsInSep_concat (rel : list string) :
  rel <> [] -> Forall (fun e => validName e = true) rel ->
  endsInSep (String.concat "/" rel) = false.
Proof.
  induction rel as [|e rel IH]; intros Hne Hv; [now elim Hne|].
  inversion Hv as [|? ? He Hrel]; subst.
  destruct rel as [|e' rel'].
  - now apply endsInSep_noSep, validName_noSep.
  - change (String.concat "/" (e :: e' :: rel'))
      with (e ++ "/" ++ String.concat "/" (e' :: rel')).
    rewrite endsInSep_append by discriminate.
    rewrite endsInSep_append
      by (apply concat_valid_nonempty; [discriminate | assumption]).
    apply IH; [discriminate | assumption].
Qed.

Lemma filter_flat_map (A B : Type) (p : B -> bool) (f : A -> list B) (l : list A) :
  filter p (flat_map f l) = flat_map (fun a => filter p (f a)) l.
Proof.
  induction l as [|a l IH]; cbn; [reflexivity|]. now rewrite filter_app, IH.
Qed.

Lemma length_flat_map (A B : Type) (f : A -> list B) (l : list A) :
  length (flat_map f l) = list_sum (map (fun a => length (f a)) l).
Proof.
  induction l as [|a l IH]; cbn; [reflexivity|]. now rewrite length_app, IH.
Qed.

Lemma list_sum_ext (A : Type) (f g : A -> nat) (l : list A) :
  Forall (fun a => f a = g a) l -> list_sum (map f l) = list_sum (map g l).
Proof.
  induction 1 as [|a l H _ IH]; cbn [map list_sum fold_right];
    [reflexivity | unfold list_sum in IH; now rewrite H, IH].
Qed.

(** The entries below a node, by kind: one directory entry for the node
    itself when it is a directory and one for every directory below it,
    one file entry for every regular file; a directory entry has no
    bytes. *)
Lemma archiveAt_kinds (n : Node) :
  forall rel, Forall (fun e => validName e = true) rel -> rel <> [] ->
              readable n = true ->
              length (filter isDirEntry (archiveAt rel n))
              = match n with
                | File _ _ _ => 0
                | Dir _ _ _ _ => 1 + countDirs n
                end
              /\ length (filter (fun e => negb (isDirEntry e)) (archiveAt rel n))
                 = countFiles n
              /\ Forall (fun e => isDirEntry e = true -> zipData e = "")
                        (archiveAt rel n).
Proof.
  induction n as [content mt a | es sz mt a IH] using Node_induction;
    intros rel Hrel Hne Hread.
  - cbn [archiveAt filter]. unfold isDirEntry. cbn [zipName].
    rewrite (endsInSep_concat rel Hne Hrel). cbn.
    repeat split. constructor; [|constructor]. unfold isDirEntry. cbn [zipName].
    now rewrite (endsInSep_concat rel Hne Hrel).
  - cbn [readable] in Hread. apply andb_true_iff in Hread.
    destruct Hread as [_ Hes].
    assert (Hd : isDirEntry (mkZipEntry (String.concat "/" rel ++ "/") "") = true)
      by apply endsInSep_sep.
    cbn [archiveAt filter]. rewrite !Hd. cbn [negb length].
    rewrite !filter_flat_map, !length_flat_map.
    assert (Hall : Forall (fun e =>
                             length (filter isDirEntry (archiveAt (rel ++ [fst e]) (snd e)))
                             = match snd e with
                               | File _ _ _ => 0
                               | Dir _ _ _ _ => 1 + countDirs (snd e)
                               end
                             /\ length (filter (fun e => negb (isDirEntry e))
                                               (archiveAt (rel ++ [fst e]) (snd e)))
                                = countFiles (snd e)
                             /\ Forall (fun e => isDirEntry e = true -> zipData e = "")
                                       (archiveAt (rel ++ [fst e]) (snd e))) es).
    { rewrite Forall_forall in IH. apply Forall_forall. intros e He.
      rewrite forallb_forall in Hes. specialize (Hes e He).
      apply andb_true_iff in Hes. destruct Hes as [Hname Hchild].
      apply IH; [assumption| |now destruct rel|assumption].
      apply Forall_app. split; [assumption | now constructor]. }
    split; [|split].
    + cbn [countDirs]. change (1 + ?x) with (S x). f_equal.
      apply list_sum_ext. eapply Forall_impl; [|exact Hall].
      intros e H. exact (proj1 H).
    + cbn [countFiles].
      apply list_sum_ext. eapply Forall_impl; [|exact Hall].
      intros e H. exact (proj1 (proj2 H)).
    + constructor; [reflexivity|].
      clear -Hall. induction Hall as [|e es [_ [_ H]] _ IHes]; cbn; [constructor|].
      apply Forall_app. now split.
Qed.

Lemma archiveOf_kinds (es : list (string * Node)) (sz mt : Z) (a : bool) :
  readable (Dir es sz mt a) = true ->
  length (filter isDirEntry (archiveOf (Dir es sz mt a)))
  = countDirs (Dir es sz mt a)
  /\ length (filter (fun e => negb (isDirEntry e)) (archiveOf (Dir es sz mt a)))
     = countFiles (Dir es sz mt a)
  /\ Forall (fun e => isDirEntry e = true -> zipData e = "")
            (archiveOf (Dir es sz mt a)).
Proof.
  intro Hread. cbn [readable] in Hread. apply andb_true_iff in Hread.
  destruct Hread as [_ Hes]. cbn [archiveOf countDirs countFiles].
  rewrite !filter_flat_map, !length_flat_map.
  assert (Hall : forall e, In e es ->
                           validName (fst e) = true /\ readable (snd e) = true).
  { intros e He. rewrite forallb_forall in Hes. specialize (Hes e He).
    now apply andb_true_iff in Hes. }
  split; [|split].
  - apply list_sum_ext, Forall_forall. intros e He.
    destruct (Hall e He) as [Hn Hr].
    apply (archiveAt_kinds (snd e) [fst e]);
      [now constructor | discriminate | assumption].
  - apply list_sum_ext, Forall_forall. intros e He.
    destruct (Hall e He) as [Hn Hr].
    apply (archiveAt_kinds (snd e) [fst e]);
      [now constructor | discriminate | assumption].
  - clear Hes. induction es as [|e es IH]; cbn [flat_map]; [constructor|].
    apply Forall_app. split.
    + destruct (Hall e (or_introl eq_refl)) as [Hn Hr].
      apply (archiveAt_kinds (snd e) [fst e]);
        [now constructor | discriminate | assumption].
    + apply IH. intros e' He'. apply Hall. now right.
Qed.

(** C6.  [serveDirectoryAsZip] on a directory at a clean rooted path, when
    every node below it can be read and every entry has a proper name.
    The response carries one archive, and it is [archiveOf] of the
    directory: for every regular file one entry named by its path from the
    walked root with exactly its bytes, for every subdirectory one entry
    named by its path followed by the separator and without bytes, in the
    order of the walk.  Counted by kind: as many entries with a trailing
    separator as there are subdirectories, as many others as there are
    regular files. *)
Theorem zip_archive_contents
        (fh : FileHandler) (r : Request) (dirName : string)
        (root : Node) (clock : Z)
        (base : list string) (es : list (string * Node)) (sz mt : Z) :
  Forall (fun e => validName e = true) base ->
  Os.lookup root base = inr (Dir es sz mt true) ->
  readable (Dir es sz mt true) = true ->
  let w := snd (serveDirectoryAsZip fh r (rootedPath base) dirName
                                    (freshWorld root clock)) in
  let archive := archiveOf (Dir es sz mt true) in
  Body (resp w) = [ZipArchive archive]
  /\ Status (resp w) = Some 200%Z
  /\ length (filter isDirEntry archive) = countDirs (Dir es sz mt true)
  /\ length (filter (fun e => negb (isDirEntry e)) archive)
     = countFiles (Dir es sz mt true)
  /\ Forall (fun e => isDirEntry e = true -> zipData e = "") archive.
Proof.
  intros Hbase Hdir Hread w archive.
  assert (Hw : Body (resp w) = [ZipArchive archive]
               /\ Status (resp w) = Some 200%Z).
  { subst w archive. unfold serveDirectoryAsZip, bind.
    cbn [fst snd Header_Set modifyResp logOp fs freshWorld].
    rewrite (rootedPath_pathElems base Hbase), Hdir.
    cbn [walk negb fst snd]. unfold zipDir. rewrite String.eqb_refl.
    pose proof (walkEntries_archive base [] es) as Hwalk.
    rewrite app_nil_r in Hwalk.
    cbn [readable] in Hread. apply andb_true_iff in Hread.
    destruct Hread as [_ Hes].
    destruct (Hwalk Hbase
                    (proj2 (Forall_forall _ _)
                           (fun e _ => walk_archiveAt base (snd e) Hbase))
                    Hes ([], [OpReadDir (rootedPath base)])) as [calls Hl].
    cbn [app]. rewrite Hl. cbn [fst snd]. rewrite app_nil_r, rev_involutive.
    split; reflexivity. }
  destruct Hw as [Hbody Hstatus].
  destruct (archiveOf_kinds es sz mt true Hread) as [Hd [Hf Hn]].
  repeat split; assumption.
Qed.

(** The download of [/data] in [smallRoot], which holds [a.txt] with the
    bytes "hello" and the empty folder [sub]: the archive has the two
    entries [a.txt] with "hello" and [sub/] without bytes; the same comes
    out of [ServeHTTP] for GET /?download=zip. *)
Lemma zip_archive_contents_witness :
  let fh := mkFileHandler "/data" "http://192.168.1.5:8080" "" in
  let r := plainRequest "GET" "/" [("download", "zip")] in
  let expected := [mkZipEntry "a.txt" "hello"; mkZipEntry "sub/" ""] in
  (Body (resp (snd (serveDirectoryAsZip fh r "/data" "data" (freshWorld smallRoot 0))))
   = [ZipArchive expected]
   /\ length (filter isDirEntry expected) = 1
   /\ length (filter (fun e => negb (isDirEntry e)) expected) = 1)
  /\ Body (resp (serve (ServeHTTP fh) r smallRoot 0)) = [ZipArchive expected].
Proof.
  intros fh r expected.
  destruct (zip_archive_contents
              fh r "data" smallRoot 0 ["data"]
              [("a.txt", File "hello" 10 true); ("sub", Dir [] 4096 20 true)]
              4096 30
              ltac:(repeat constructor) eq_refl eq_refl)
    as [Hbody [_ [Hd [Hf _]]]].
  split; [|reflexivity].
  split; [exact Hbody | split; [exact Hd | exact Hf]].
Defined.

(** ** What the handlers keep *)

Lemma preserves_ret (A : Type) (I : World -> Prop) (a : A) : preserves I (ret a).
Proof. intros w H. exact H. Qed.

Lemma preserves_bind (A B : Type) (I : World -> Prop) (m : M A) (k : A -> M B) :
  preserves I m -> (forall a, preserves I (k a)) -> preserves I (bind m k).
Proof. intros Hm Hk w H. unfold bind. apply Hk, Hm, H. Qed.

(** A step that leaves the part of the world a property reads. *)
Lemma preserves_same (A : Type) (I : World -> Prop) (m : M A) :
  (forall w, I w -> I (snd (m w))) -> preserves I m.
Proof. intro H. exact H. Qed.

Create HintDb pres discriminated.

(** Case analysis until the steps are primitive ones. *)
Ltac pres_step :=
  first
    [ solve [auto with pres]
    | apply preserves_ret
    | apply preserves_bind; [|intros ?]
    | match goal with
      | |- preserves _ (if false then _ else ?m) => change (preserves _ m)
      | |- preserves _ (if true then ?m else _) => change (preserves _ m)
      | |- preserves _ (if ?b then _ else _) => destruct b
      | |- preserves _ (match ?x with _ => _ end) => destruct x
      end ].

Ltac pres := repeat pres_step.

(** *** The file system under steps that only read *)

Lemma fsIs_modifyResp (root : Node) (f : Response -> Response) :
  preserves (fsIs root) (modifyResp f).
Proof. intros w H. exact H. Qed.

Lemma fsIs_logOp (root : Node) (o : FsOp) : preserves (fsIs root) (logOp o).
Proof. intros w H. exact H. Qed.

Lemma fsIs_pure (A : Type) (root : Node) (f : World -> A) :
  preserves (fsIs root) (fun w => (f w, w)).
Proof. intros w H. exact H. Qed.

#[local] Hint Resolve fsIs_modifyResp fsIs_logOp fsIs_pure : pres.
#[local] Hint Unfold Header_Set WriteHeader Write http_SetCookie : pres.

Lemma fsIs_Header_Set (root : Node) (k v : string) :
  preserves (fsIs root) (Header_Set k v).
Proof. apply fsIs_modifyResp. Qed.

Lemma fsIs_WriteHeader (root : Node) (code : Z) :
  preserves (fsIs root) (WriteHeader code).
Proof. apply fsIs_modifyResp. Qed.

Lemma fsIs_Write (root : Node) (c : Chunk) : preserves (fsIs root) (Write c).
Proof. apply fsIs_modifyResp. Qed.

Lemma fsIs_SetCookie (root : Node) (c : Cookie) :
  preserves (fsIs root) (http_SetCookie c).
Proof. apply fsIs_modifyResp. Qed.

#[local] Hint Resolve fsIs_Header_Set fsIs_WriteHeader fsIs_Write fsIs_SetCookie : pres.

Lemma fsIs_http_Error (root : Node) (msg : string) (code : Z) :
  preserves (fsIs root) (http_Error msg code).
Proof. unfold http_Error. pres. Qed.

Lemma fsIs_http_Redirect (root : Node) (r : Request) (target : string) (code : Z) :
  preserves (fsIs root) (http_Redirect r target code).
Proof. intros w H. unfold fsIs in *. now rewrite http_Redirect_fs. Qed.

Lemma fsIs_os_Stat (root : Node) (path : string) :
  preserves (fsIs root) (os_Stat path).
Proof. unfold os_Stat. pres. Qed.

Lemma fsIs_os_ReadDir (root : Node) (path : string) :
  preserves (fsIs root) (os_ReadDir path).
Proof. unfold os_ReadDir. pres. Qed.

Lemma fsIs_os_Open (root : Node) (path : string) :
  preserves (fsIs root) (os_Open path).
Proof. unfold os_Open. pres. Qed.

#[local] Hint Resolve fsIs_http_Error fsIs_http_Redirect fsIs_os_Stat
  fsIs_os_ReadDir fsIs_os_Open : pres.

Lemma fsIs_http_NotFound (root : Node) : preserves (fsIs root) http_NotFound.
Proof. apply fsIs_http_Error. Qed.

#[local] Hint Resolve fsIs_http_NotFound : pres.

Lemma fsIs_serveFile (root : Node) (fh : FileHandler) (r : Request)
      (fsPath : string) (stat : OsFileInfo) :
  preserves (fsIs root) (serveFile fh r fsPath stat).
Proof. unfold serveFile. pres. Qed.

Lemma fsIs_serveDirectory (root : Node) (fh : FileHandler) (r : Request)
      (fsPath urlPath : string) :
  preserves (fsIs root) (serveDirectory fh r fsPath urlPath).
Proof. unfold serveDirectory. pres. Qed.

Lemma fsIs_serveDirectoryAsZip (root : Node) (fh : FileHandler) (r : Request)
      (fsPath dirName : string) :
  preserves (fsIs root) (serveDirectoryAsZip fh r fsPath dirName).
Proof.
  unfold serveDirectoryAsZip. pres.
  intros w H.
  destruct (Os.lookup (fs w) (Os.pathElems fsPath)); [exact H|].
  destruct (walk fsPath fsPath n ([], [])) as [[entries calls] err]. exact H.
Qed.

Lemma fsIs_handleAPIFiles (root : Node) (fh : FileHandler) (r : Request) :
  preserves (fsIs root) (handleAPIFiles fh r).
Proof. unfold handleAPIFiles. pres. Qed.

#[local] Hint Resolve fsIs_serveFile fsIs_serveDirectory fsIs_serveDirectoryAsZip
  fsIs_handleAPIFiles : pres.

Lemma fsIs_handleAPI (root : Node) (fh : FileHandler) (r : Request) :
  preserves (fsIs root) (handleAPI fh r).
Proof. unfold handleAPI. pres. Qed.

#[local] Hint Resolve fsIs_handleAPI : pres.

Lemma fsIs_ServeHTTP (root : Node) (fh : FileHandler) (r : Request) :
  isUploadPost r = false -> preserves (fsIs root) (ServeHTTP fh r).
Proof.
  intro Hup. unfold ServeHTTP. unfold isUploadPost in Hup. rewrite Hup. pres.
Qed.

Lemma fsIs_showLoginForm (root : Node) (r : Request) (msg : string) :
  preserves (fsIs root) (showLoginForm r msg).
Proof. unfold showLoginForm. pres. Qed.

#[local] Hint Resolve fsIs_showLoginForm : pres.

Lemma fsIs_gate (root : Node) (h : Handler) (pw : string) (r : Request) :
  preserves (fsIs root) (h r) ->
  preserves (fsIs root) (applyAuthMiddleware h pw r).
Proof.
  intro Hh. unfold applyAuthMiddleware.
  destruct (pw =? ""); [exact Hh|]. pres.
Qed.

(** X1.  Only an upload writes.  Whatever the mode of the server and
    whatever the password, a request that is not a POST to [/upload] leaves
    the file system exactly as it was: listings, downloads, archives, the
    JSON API, the login form and every error answer only read. *)
Theorem only_upload_writes
        (fh : FileHandler) (hasFrontend : bool) (r : Request)
        (root : Node) (clock : Z) :
  isUploadPost r = false ->
  fs (serve (route fh hasFrontend) r root clock) = root
  /\ fs (serve (ServeHTTP fh) r root clock) = root.
Proof.
  intro Hup. split.
  - unfold serve.
    assert (Hgate : preserves (fsIs root)
                      (applyAuthMiddleware (ServeHTTP fh) (password fh) r))
      by (apply fsIs_gate, fsIs_ServeHTTP, Hup).
    assert (H : preserves (fsIs root) (route fh hasFrontend r)).
    { unfold route. destruct hasFrontend; [|exact Hgate].
      pose proof (fsIs_ServeHTTP root fh r Hup).
      pres; assumption. }
    apply H. reflexivity.
  - unfold serve. apply (fsIs_ServeHTTP root fh r Hup). reflexivity.
Qed.

(** A zip download of the whole share, behind the gate and with the
    bundle absent: the tree is the same afterwards. *)
Lemma only_upload_writes_witness :
  let r := mkRequest "GET" (mkURL "/" [("download", "zip")])
                     [("auth_session", "authenticated")] None [] None in
  fs (serve (route (sampleHandler "secret") false) r sampleRoot 0) = sampleRoot
  /\ fs (serve (ServeHTTP (sampleHandler "secret")) r sampleRoot 0) = sampleRoot.
Proof.
  intro r. apply (only_upload_writes (sampleHandler "secret") false r sampleRoot 0).
  reflexivity.
Defined.

(** *** Headers that stay *)

Lemma assoc_setKey_same (k v : string) (h : list (string * string)) :
  assoc k (setKey k v h) = Some v.
Proof.
  induction h as [|[k' v'] h IH]; cbn; [now rewrite String.eqb_refl|].
  destruct (k' =? k) eqn:Hk; cbn; [now rewrite String.eqb_refl | now rewrite Hk].
Qed.

Lemma assoc_setKey_other (k k' v : string) (h : list (string * string)) :
  k' <> k -> assoc k (setKey k' v h) = assoc k h.
Proof.
  intro Hne. apply String.eqb_neq in Hne.
  induction h as [|[k0 v0] h IH]; cbn; [now rewrite Hne|].
  destruct (k0 =? k') eqn:H0; cbn.
  - apply String.eqb_eq in H0. subst k0. now rewrite Hne.
  - now rewrite IH.
Qed.

Lemma hasHeader_Header_Set_same (k v : string) (w : World) :
  hasHeader k v (snd (Header_Set k v w)).
Proof. apply assoc_setKey_same. Qed.

Lemma hasHeader_Header_Set_other (k v k' v' : string) :
  k' <> k -> preserves (hasHeader k v) (Header_Set k' v').
Proof.
  intros Hne w H. unfold hasHeader in *. cbn.
  now rewrite assoc_setKey_other.
Qed.

(** A step that does not touch the headers. *)
Lemma hasHeader_same_headers (A : Type) (k v : string) (m : M A) :
  (forall w, Header (resp (snd (m w))) = Header (resp w)) ->
  preserves (hasHeader k v) m.
Proof. intros Hm w H. unfold hasHeader in *. now rewrite Hm. Qed.

Lemma uploadLoop_headers (fsDir : string) (files : list FileHeader) (c : Z)
      (w : World) :
  Header (resp (snd (uploadLoop fsDir files c w))) = Header (resp w).
Proof. now rewrite uploadLoop_resp. Qed.

Section HeaderKept.
Variables k v : string.
Hypothesis not_content_type : "Content-Type" <> k.
Hypothesis not_disposition : "Content-Disposition" <> k.
Hypothesis not_nosniff : "X-Content-Type-Options" <> k.
Hypothesis not_location : "Location" <> k.

#[local] Hint Extern 1 (preserves (hasHeader _ _) (Header_Set _ _)) =>
  (apply hasHeader_Header_Set_other; assumption) : pres.
#[local] Hint Extern 1 (preserves (hasHeader _ _) _) =>
  (apply hasHeader_same_headers; intros ?; reflexivity) : pres.

Lemma kept_http_Error (msg : string) (code : Z) :
  preserves (hasHeader k v) (http_Error msg code).
Proof. unfold http_Error. pres. Qed.

Lemma kept_http_Redirect (r : Request) (target : string) (code : Z) :
  preserves (hasHeader k v) (http_Redirect r target code).
Proof. unfold http_Redirect, Header_Has. pres. Qed.

#[local] Hint Resolve kept_http_Error kept_http_Redirect : pres.

Lemma kept_http_NotFound : preserves (hasHeader k v) http_NotFound.
Proof. apply kept_http_Error. Qed.

#[local] Hint Resolve kept_http_NotFound : pres.

Lemma kept_serveFile (fh : FileHandler) (r : Request) (fsPath : string)
      (stat : OsFileInfo) :
  preserves (hasHeader k v) (serveFile fh r fsPath stat).
Proof. unfold serveFile. pres. Qed.

Lemma kept_serveDirectory (fh : FileHandler) (r : Request) (fsPath urlPath : string) :
  preserves (hasHeader k v) (serveDirectory fh r fsPath urlPath).
Proof. unfold serveDirectory. pres. Qed.

Lemma kept_serveDirectoryAsZip (fh : FileHandler) (r : Request)
      (fsPath dirName : string) :
  preserves (hasHeader k v) (serveDirectoryAsZip fh r fsPath dirName).
Proof.
  unfold serveDirectoryAsZip. pres.
  apply hasHeader_same_headers. intro w.
  destruct (Os.lookup (fs w) (Os.pathElems fsPath)); [reflexivity|].
  destruct (walk fsPath fsPath n ([], [])) as [[entries calls] err]. reflexivity.
Qed.

Lemma kept_handleAPIFiles (fh : FileHandler) (r : Request) :
  preserves (hasHeader k v) (handleAPIFiles fh r).
Proof. unfold handleAPIFiles. pres. Qed.

#[local] Hint Resolve kept_serveFile kept_serveDirectory kept_serveDirectoryAsZip
  kept_handleAPIFiles : pres.

Lemma kept_handleAPI (fh : FileHandler) (r : Request) :
  preserves (hasHeader k v) (handleAPI fh r).
Proof. unfold handleAPI. pres. Qed.

Lemma kept_os_MkdirAll (path : string) : preserves (hasHeader k v) (os_MkdirAll path).
Proof.
  apply hasHeader_same_headers. intro w. rewrite os_MkdirAll_run.
  now destruct (Os.mkdirAll (now w) (Os.pathElems path) (fs w)).
Qed.

Lemma kept_uploadLoop (fsDir : string) (files : list FileHeader) (c : Z) :
  preserves (hasHeader k v) (uploadLoop fsDir files c).
Proof. apply hasHeader_same_headers. intro w. apply uploadLoop_headers. Qed.

#[local] Hint Resolve kept_handleAPI kept_os_MkdirAll kept_uploadLoop : pres.

Lemma kept_handleUpload (fh : FileHandler) (r : Request) :
  preserves (hasHeader k v) (handleUpload fh r).
Proof. unfold handleUpload. pres. Qed.

End HeaderKept.

Lemma established (A B : Type) (I : World -> Prop) (m : M A) (K : A -> M B)
      (w : World) :
  I (snd (m w)) -> (forall a, preserves I (K a)) -> I (snd (bind m K w)).
Proof. intros Hm HK. unfold bind. now apply HK. Qed.

Lemma skipped (A B : Type) (I : World -> Prop) (m : M A) (K : A -> M B)
      (w : World) :
  I (snd (K (fst (m w)) (snd (m w)))) -> I (snd (bind m K w)).
Proof. intro H. exact H. Qed.

#[local] Hint Extern 1 (_ <> _) => discriminate : pres.
#[local] Hint Extern 1 (preserves (hasHeader _ _) (Header_Set _ _)) =>
  (apply hasHeader_Header_Set_other; discriminate) : pres.
#[local] Hint Extern 2 (preserves (hasHeader _ _) _) =>
  (apply hasHeader_same_headers; intros ?; reflexivity) : pres.
#[local] Hint Resolve kept_http_Error kept_http_NotFound kept_handleAPI
  kept_handleUpload kept_serveFile kept_serveDirectory kept_serveDirectoryAsZip
  : pres.

(** X2.  Every answer of [ServeHTTP] carries the four CORS headers it
    starts with, whatever the request and whichever branch answers it
    (preflight, status probe, API, upload, download, listing, archive or
    an error): [Access-Control-Allow-Origin: *] together with
    [Access-Control-Allow-Credentials: true], the methods and the allowed
    request headers.  No later header write replaces them. *)
Theorem cors_headers_on_every_answer (fh : FileHandler) (r : Request) (w : World) :
  let w' := snd (ServeHTTP fh r w) in
  hasHeader "Access-Control-Allow-Origin" "*" w'
  /\ hasHeader "Access-Control-Allow-Methods" "GET, POST, OPTIONS" w'
  /\ hasHeader "Access-Control-Allow-Headers" "Content-Type, Authorization" w'
  /\ hasHeader "Access-Control-Allow-Credentials" "true" w'.
Proof.
  cbv zeta. unfold ServeHTTP. split; [|split; [|split]].
  - apply (established _ _ (hasHeader "Access-Control-Allow-Origin" "*"));
      [apply hasHeader_Header_Set_same | intros _; pres].
  - apply skipped.
    apply (established _ _ (hasHeader "Access-Control-Allow-Methods" _));
      [apply hasHeader_Header_Set_same | intros _; pres].
  - do 2 apply skipped.
    apply (established _ _ (hasHeader "Access-Control-Allow-Headers" _));
      [apply hasHeader_Header_Set_same | intros _; pres].
  - do 3 apply skipped.
    apply (established _ _ (hasHeader "Access-Control-Allow-Credentials" _));
      [apply hasHeader_Header_Set_same | intros _; pres].
Qed.

(** ** Resolution of request paths *)

(** A rooted path below another one starts with its bytes. *)
Lemma hasPrefix_descendant (base cs : list string) :
  HasPrefix (rootedPath (base ++ cs)) (rootedPath base) = true.
Proof.
  unfold HasPrefix. destruct cs as [|c cs].
  - rewrite app_nil_r. rewrite <- (append_empty_r (rootedPath base)) at 2.
    apply prefix_append.
  - destruct base as [|b base]; [apply (prefix_append "/")|].
    unfold rootedPath, render. rewrite concat_app by discriminate.
    rewrite <- append_assoc. apply prefix_append.
Qed.

(** The three path lines of a handler on any rooted value [p]: the cleaned
    value is a rooted path of proper names, and the file-system path is the
    root extended by those names. *)
Lemma resolve_rooted (base : list string) (p : string) :
  Forall (fun e => validName e = true) base -> rooted p = true ->
  exists cs,
    Forall (fun e => validName e = true) cs
    /\ (if Clean p =? "." then "/" else Clean p) = rootedPath cs
    /\ Join [rootedPath base;
             TrimPrefix (if Clean p =? "." then "/" else Clean p) "/"]
       = rootedPath (base ++ cs).
Proof.
  intros Hb Hp. destruct (Clean_rooted p Hp) as [cs [Hcs Hclean]].
  exists cs. rewrite Hclean.
  change (rootedPath cs =? ".") with false. cbv iota.
  split; [assumption|]. split; [reflexivity|].
  assert (Ht : TrimPrefix (rootedPath cs) "/" = String.concat "/" cs)
    by (unfold TrimPrefix, rootedPath, render; cbn; now destruct (String.concat "/" cs)).
  rewrite Ht. now apply Join_rooted.
Qed.

Lemma browse_request_path (r : Request) :
  rooted (Path (Url r)) = true \/ Path (Url r) = "" ->
  rooted (if (Path (Url r) =? "") || (Path (Url r) =? "/") then "/"
          else Path (Url r)) = true.
Proof.
  intros [H | ->]; [|reflexivity].
  now destruct ((Path (Url r) =? "") || (Path (Url r) =? "/")).
Qed.

(** X3.  No [..] climbs out through a path that starts with a slash.  With
    the shared root a clean absolute path: every URL path that starts with
    a slash (or is empty), every [path] query value and every [directory]
    form field that does, resolves to the root extended by proper names
    only - the path cleaned of its empty, [.] and [..] elements - so the
    resolved path is the root or lies below it and passes the containment
    test, and the listing shows the cleaned path as current path. *)
Theorem rooted_paths_resolve_inside
        (fh : FileHandler) (r : Request) (base : list string) :
  rootDir fh = rootedPath base ->
  Forall (fun e => validName e = true) base ->
  (rooted (Path (Url r)) = true \/ Path (Url r) = "" ->
   exists cs, Forall (fun e => validName e = true) cs
              /\ browseCleanPath r = rootedPath cs
              /\ browseFsPath fh r = rootedPath (base ++ cs)
              /\ inside (rootDir fh) (browseFsPath fh r) = true
              /\ HasPrefix (browseFsPath fh r) (rootDir fh) = true)
  /\ (rooted (QueryGet r "path") = true \/ QueryGet r "path" = "" ->
      exists cs, Forall (fun e => validName e = true) cs
                 /\ apiCleanPath r = rootedPath cs
                 /\ apiFsPath fh r = rootedPath (base ++ cs)
                 /\ inside (rootDir fh) (apiFsPath fh r) = true
                 /\ HasPrefix (apiFsPath fh r) (rootDir fh) = true)
  /\ (rooted (FormValue r "directory") = true \/ FormValue r "directory" = "" ->
      exists cs, Forall (fun e => validName e = true) cs
                 /\ uploadCleanDir r = rootedPath cs
                 /\ uploadFsDir fh r = rootedPath (base ++ cs)
                 /\ inside (rootDir fh) (uploadFsDir fh r) = true
                 /\ HasPrefix (uploadFsDir fh r) (rootDir fh) = true).
Proof.
  intros Hroot Hb.
  assert (Hgen : forall p, rooted p = true ->
            exists cs, Forall (fun e => validName e = true) cs
              /\ (if Clean p =? "." then "/" else Clean p) = rootedPath cs
              /\ Join [rootDir fh;
                       TrimPrefix (if Clean p =? "." then "/" else Clean p) "/"]
                 = rootedPath (base ++ cs)
              /\ inside (rootDir fh)
                        (Join [rootDir fh;
                               TrimPrefix (if Clean p =? "." then "/" else Clean p) "/"])
                 = true
              /\ HasPrefix (Join [rootDir fh;
                                  TrimPrefix (if Clean p =? "." then "/" else Clean p) "/"])
                           (rootDir fh) = true).
  { intros p Hp. rewrite Hroot.
    destruct (resolve_rooted base p Hb Hp) as [cs [Hcs [Hc Hj]]].
    exists cs. rewrite Hj. repeat split; try assumption.
    - now apply inside_descendant.
    - apply hasPrefix_descendant. }
  split; [|split]; intro H.
  - apply (Hgen _ (browse_request_path r H)).
  - apply Hgen. destruct H as [H | H]; [|unfold apiCleanPath; now rewrite H].
    now destruct (QueryGet r "path" =? "").
  - apply Hgen. destruct H as [H | H]; [|now rewrite H].
    now destruct (FormValue r "directory" =? "").
Qed.

(** The URL path [/../../etc/passwd] against the root [/share]. *)
Lemma rooted_paths_resolve_inside_witness :
  let r := plainRequest "GET" "/../../etc/passwd" [] in
  exists cs, Forall (fun e => validName e = true) cs
             /\ browseCleanPath r = rootedPath cs
             /\ browseFsPath (sampleHandler "") r = rootedPath (["share"] ++ cs)
             /\ inside "/share" (browseFsPath (sampleHandler "") r) = true
             /\ HasPrefix (browseFsPath (sampleHandler "") r) "/share" = true.
Proof.
  intro r.
  apply (proj1 (rooted_paths_resolve_inside (sampleHandler "") r ["share"]
                  eq_refl ltac:(repeat constructor))).
  left. reflexivity.
Defined.

(** ** The router and the gate, once more *)

(** *** The trace only grows *)

Lemma opsStart_same_ops (A : Type) (l : list FsOp) (m : M A) :
  (forall w, exists more, ops (snd (m w)) = (ops w ++ more)%list) ->
  preserves (opsStart l) m.
Proof.
  intros Hm w [rest H]. destruct (Hm w) as [more Hmore].
  exists (rest ++ more)%list. now rewrite Hmore, H, app_assoc.
Qed.

#[local] Hint Extern 2 (preserves (opsStart _) _) =>
  (apply opsStart_same_ops; intros ?;
   first [ exists []; cbn; now rewrite app_nil_r
         | eexists; reflexivity ]) : pres.

Lemma opsStart_http_Error (l : list FsOp) (msg : string) (code : Z) :
  preserves (opsStart l) (http_Error msg code).
Proof. unfold http_Error. pres. Qed.

#[local] Hint Resolve opsStart_http_Error : pres.

Lemma opsStart_http_NotFound (l : list FsOp) : preserves (opsStart l) http_NotFound.
Proof. apply opsStart_http_Error. Qed.

#[local] Hint Resolve opsStart_http_NotFound : pres.

Lemma opsStart_os (A : Type) (l : list FsOp) (o : FsOp) (f : World -> A) :
  preserves (opsStart l) (logOp o ;; fun w => (f w, w)).
Proof. apply opsStart_same_ops. intro w. eexists. reflexivity. Qed.

Lemma opsStart_os_Stat (l : list FsOp) (path : string) :
  preserves (opsStart l) (os_Stat path).
Proof. apply opsStart_os. Qed.

Lemma opsStart_os_ReadDir (l : list FsOp) (path : string) :
  preserves (opsStart l) (os_ReadDir path).
Proof. apply opsStart_os. Qed.

Lemma opsStart_os_Open (l : list FsOp) (path : string) :
  preserves (opsStart l) (os_Open path).
Proof. apply opsStart_os. Qed.

#[local] Hint Resolve opsStart_os_Stat opsStart_os_ReadDir opsStart_os_Open : pres.

Lemma opsStart_serveFile (l : list FsOp) (fh : FileHandler) (r : Request)
      (fsPath : string) (stat : OsFileInfo) :
  preserves (opsStart l) (serveFile fh r fsPath stat).
Proof. unfold serveFile. pres. Qed.

Lemma opsStart_serveDirectory (l : list FsOp) (fh : FileHandler) (r : Request)
      (fsPath urlPath : string) :
  preserves (opsStart l) (serveDirectory fh r fsPath urlPath).
Proof. unfold serveDirectory. pres. Qed.

Lemma opsStart_serveDirectoryAsZip (l : list FsOp) (fh : FileHandler)
      (r : Request) (fsPath dirName : string) :
  preserves (opsStart l) (serveDirectoryAsZip fh r fsPath dirName).
Proof.
  unfold serveDirectoryAsZip. pres.
  apply opsStart_same_ops. intro w.
  destruct (Os.lookup (fs w) (Os.pathElems fsPath));
    [exists []; cbn; now rewrite app_nil_r|].
  destruct (walk fsPath fsPath n ([], [])) as [[entries calls] err].
  exists calls. reflexivity.
Qed.

(** The browse branch after its [os.Stat]. *)
Lemma opsStart_browse (l : list FsOp) (fh : FileHandler) (r : Request)
      (stat : Os.Error + OsFileInfo) :
  preserves (opsStart l)
    (match stat with
     | inl Os.ErrNotExist => http_NotFound
     | inl Os.ErrOther => http_Error "Internal server error" 500
     | inr stat =>
         if IsDir stat && (QueryGet r "download" =? "zip")
         then serveDirectoryAsZip fh r (browseFsPath fh r) (Name stat)
         else if negb (IsDir stat) then serveFile fh r (browseFsPath fh r) stat
         else serveDirectory fh r (browseFsPath fh r) (browseCleanPath r)
     end).
Proof.
  pose proof opsStart_serveFile. pose proof opsStart_serveDirectory.
  pose proof opsStart_serveDirectoryAsZip. pres; auto.
Qed.

Lemma browse_clean_path (fh : FileHandler) (r : Request) (base cs : list string) :
  rootDir fh = rootedPath base ->
  Forall (fun e => validName e = true) base ->
  Forall (fun e => validName e = true) cs ->
  Path (Url r) = rootedPath cs ->
  browseCleanPath r = rootedPath cs
  /\ browseFsPath fh r = rootedPath (base ++ cs)
  /\ HasPrefix (browseFsPath fh r) (rootDir fh) = true.
Proof.
  intros Hroot Hb Hcs Hp.
  assert (Hreq : (if (Path (Url r) =? "") || (Path (Url r) =? "/") then "/"
                  else Path (Url r)) = rootedPath cs).
  { rewrite Hp. change (rootedPath cs =? "") with false. cbn [orb].
    destruct (rootedPath cs =? "/") eqn:H; [|reflexivity].
    now apply String.eqb_eq in H. }
  assert (Hclean : browseCleanPath r = rootedPath cs).
  { unfold browseCleanPath. cbv zeta. rewrite Hreq, rootedPath_clean by assumption.
    reflexivity. }
  assert (Hfs : browseFsPath fh r = rootedPath (base ++ cs)).
  { unfold browseFsPath. rewrite Hclean, Hroot.
    assert (Ht : TrimPrefix (rootedPath cs) "/" = String.concat "/" cs)
      by (unfold TrimPrefix, rootedPath, render; cbn;
          now destruct (String.concat "/" cs)).
    rewrite Ht. now apply Join_rooted. }
  repeat split; try assumption.
  rewrite Hfs, Hroot. apply hasPrefix_descendant.
Qed.

(** X4.  With the React bundle present the router hands [/files/...] to the
    file handler as it is: the prefix [/files] stays in the path.  A GET of
    [/files/c/...] on an open server is therefore looked up under
    [<root>/files/c/...]: the first call into the file system is the
    [os.Stat] of that path. *)
Theorem files_prefix_stays_in_path
        (fh : FileHandler) (r : Request) (base : list string)
        (c : string) (cs : list string) (root : Node) (clock : Z) :
  rootDir fh = rootedPath base ->
  Forall (fun e => validName e = true) base ->
  Forall (fun e => validName e = true) (c :: cs) ->
  password fh = "" -> Method r = "GET" ->
  Path (Url r) = rootedPath ("files" :: c :: cs) ->
  browseFsPath fh r = rootedPath (base ++ "files" :: c :: cs)
  /\ exists rest,
      ops (serve (route fh true) r root clock)
      = OpStat (rootedPath (base ++ "files" :: c :: cs)) :: rest.
Proof.
  intros Hroot Hb Hcs Hpw Hm Hp.
  assert (Hall : Forall (fun e => validName e = true) ("files" :: c :: cs))
    by (constructor; [reflexivity | assumption]).
  destruct (browse_clean_path fh r base ("files" :: c :: cs) Hroot Hb Hall Hp)
    as [Hclean [Hfs Hin]].
  split; [exact Hfs|].
  assert (Hshape : Path (Url r) = "/files/" ++ String.concat "/" (c :: cs))
    by (rewrite Hp; reflexivity).
  assert (H1 : HasPrefix (Path (Url r)) "/api/" = false)
    by (rewrite Hshape; reflexivity).
  assert (H2 : (Path (Url r) =? "/login") = false)
    by (rewrite Hshape; reflexivity).
  assert (H3 : (Path (Url r) =? "/upload") = false)
    by (rewrite Hshape; reflexivity).
  assert (H4 : HasPrefix (Path (Url r)) "/files/" = true)
    by (rewrite Hshape; apply prefix_append).
  unfold serve, route. rewrite H1, H2, H3, H4, Hpw.
  rewrite (gate_open (ServeHTTP fh)).
  rewrite (ServeHTTP_browse fh r).
  - unfold bind at 1 2 3 4. cbn [fst snd]. rewrite Hin. cbn [negb].
    apply (established _ _ (opsStart [OpStat (rootedPath (base ++ "files" :: c :: cs))])).
    + rewrite os_Stat_run, Hfs. exists []. reflexivity.
    + intro stat. apply opsStart_browse.
  - rewrite Hm. discriminate.
  - rewrite Hshape. discriminate.
  - exact H1.
  - rewrite Hm. reflexivity.
Qed.

(** A GET of [/files/a.txt] on the open share [/share]: the file looked up
    is [/share/files/a.txt], not [/share/a.txt]. *)
Lemma files_prefix_stays_in_path_witness :
  let r := plainRequest "GET" "/files/a.txt" [] in
  browseFsPath (sampleHandler "") r = "/share/files/a.txt"
  /\ exists rest,
      ops (serve (route (sampleHandler "") true) r sampleRoot 0)
      = OpStat "/share/files/a.txt" :: rest.
Proof.
  intro r.
  apply (files_prefix_stays_in_path (sampleHandler "") r ["share"] "a.txt" []
           sampleRoot 0 eq_refl);
    [repeat constructor | repeat constructor | reflexivity | reflexivity
     | reflexivity].
Defined.

(** X5.  With the React bundle present, the JSON API is not behind the
    gate.  A request under [/api/] (other than the status probe) is answered
    exactly as an open server answers the same request stripped of its
    cookies and its Authorization header: the configured password and the
    caller's credentials play no part, the world after the request is the
    same in every respect. *)
Theorem api_is_ungated_with_frontend
        (fh : FileHandler) (r : Request) (root : Node) (clock : Z) :
  HasPrefix (Path (Url r)) "/api/" = true ->
  Path (Url r) <> "/api/auth/check" ->
  serve (route fh true) r root clock
  = serve (ServeHTTP (withPassword fh "")) (anonymous r) root clock.
Proof.
  intros Hapi Hprobe. unfold serve, route. rewrite Hapi.
  unfold ServeHTTP, anonymous, withPassword.
  cbn [Method Url Cookies BasicAuth PostForm MultipartFile rootDir serverURL password].
  rewrite (eqb_false_of_neq _ _ Hprobe), Hapi.
  reflexivity.
Qed.

(** The listing of the share through [/api/files], with the password
    "secret" set and no credentials sent: the same world as on an open
    server, the listing included. *)
Lemma api_is_ungated_with_frontend_witness :
  let r := plainRequest "GET" "/api/files" [] in
  serve (route (sampleHandler "secret") true) r sampleRoot 0
  = serve (ServeHTTP (sampleHandler "")) r sampleRoot 0.
Proof.
  intro r.
  apply (api_is_ungated_with_frontend (sampleHandler "secret") r sampleRoot 0);
    [reflexivity | discriminate].
Defined.

(** X6.  With the React bundle present, a path outside [/api/], [/login],
    [/upload] and [/files/] never reaches the file handler.  The router
    stats the path inside the bundle directory - its only own call into the
    file system - and hands the request to the file server of the bundle:
    for the entry document [index.html] when the path does not exist in
    the bundle and is not [/], for the path itself in every other case.
    No listing, no shared file, no login form, whatever the password and
    the credentials. *)
Theorem other_paths_serve_the_bundle
        (fh : FileHandler) (r : Request) (root : Node) (clock : Z) :
  HasPrefix (Path (Url r)) "/api/" = false ->
  Path (Url r) <> "/login" -> Path (Url r) <> "/upload" ->
  HasPrefix (Path (Url r)) "/files/" = false ->
  let bundle := Join [rootDir fh; "frontend"; "build"] in
  let w := serve (route fh true) r root clock in
  ops w = [OpStat (Join [bundle; Path (Url r)])]
  /\ fs w = root
  /\ (Path (Url r) <> "/" ->
      Os.lookup root (Os.pathElems (Join [bundle; Path (Url r)]))
      = inl Os.ErrNotExist ->
      Body (resp w) = [Frontend (Join [bundle; "index.html"])])
  /\ (Path (Url r) = "/"
      \/ Os.lookup root (Os.pathElems (Join [bundle; Path (Url r)]))
         <> inl Os.ErrNotExist ->
      Body (resp w) = [Frontend (Join [bundle; Path (Url r)])]).
Proof.
  intros Hapi Hlogin Hupload Hfiles bundle w. subst w bundle.
  unfold serve, route.
  rewrite Hapi, (eqb_false_of_neq _ _ Hlogin), (eqb_false_of_neq _ _ Hupload), Hfiles.
  unfold bind. rewrite os_Stat_run. cbn [fst snd fs logged freshWorld].
  destruct (Os.lookup root
              (Os.pathElems
                 (Join [Join [rootDir fh; "frontend"; "build"]; Path (Url r)])))
    as [[|]|n] eqn:Hl.
  - destruct (Path (Url r) =? "/") eqn:Hroot; cbn [negb];
      (split; [reflexivity|split; [reflexivity|split]]).
    + apply String.eqb_eq in Hroot. intros Hne _. now elim Hne.
    + intros _. reflexivity.
    + intros _ _. reflexivity.
    + apply String.eqb_neq in Hroot.
      intros [H | H]; [now elim Hroot | now elim H].
  - split; [reflexivity|split; [reflexivity|split]].
    + intros _ H. discriminate H.
    + intros _. reflexivity.
  - split; [reflexivity|split; [reflexivity|split]].
    + intros _ H. discriminate H.
    + intros _. reflexivity.
Qed.

(** A GET of [/a.txt] with the bundle present: the shared file [a.txt] is
    not served, the answer is the bundle's entry document. *)
Lemma other_paths_serve_the_bundle_witness :
  let w := serve (route (sampleHandler "") true) (plainRequest "GET" "/a.txt" [])
                 sampleRoot 0 in
  ops w = [OpStat "/share/frontend/build/a.txt"]
  /\ Body (resp w) = [Frontend "/share/frontend/build/index.html"].
Proof.
  intro w.
  destruct (other_paths_serve_the_bundle
              (sampleHandler "") (plainRequest "GET" "/a.txt" []) sampleRoot 0
              eq_refl ltac:(discriminate) ltac:(discriminate) eq_refl)
    as [Hops [_ [Hbody _]]].
  split; [exact Hops|]. apply Hbody; [discriminate | reflexivity].
Defined.

(** X7.  The gate runs the wrapped handler only for a request that is not
    the login submission and brings a session cookie or the password by
    Basic-Auth.  For a login submission, and for a request with neither,
    the answer does not depend on the wrapped handler at all, no call into
    the file system is made and the files stay as they are; the request
    without credentials gets 401 whatever its method, a CORS preflight
    included, and the answer has no CORS header. *)
Theorem gate_keeps_handler_out
        (h h' : Handler) (pw : string) (r : Request) (root : Node) (clock : Z) :
  pw <> "" ->
  isLoginPost r = true
  \/ (hasSession r = false /\ basicAuthMatches r pw = false) ->
  let w := serve (applyAuthMiddleware h pw) r root clock in
  applyAuthMiddleware h pw r = applyAuthMiddleware h' pw r
  /\ ops w = [] /\ fs w = root
  /\ (isLoginPost r = false ->
      Status (resp w) = Some 401%Z
      /\ Header (resp w) = [("Content-Type", "text/html; charset=utf-8")]).
Proof.
  intros Hpw Hcase w. subst w. unfold serve.
  destruct (isLoginPost r) eqn:Hl.
  - destruct (String.eqb_spec (FormValue r "password") pw) as [Hok | Hbad].
    + rewrite (gate_login_ok h pw r Hpw Hl Hok), (gate_login_ok h' pw r Hpw Hl Hok).
      split; [reflexivity|]. unfold bind.
      rewrite (http_Redirect_post r _ _ _ (isLoginPost_method r Hl)).
      repeat split; discriminate.
    + rewrite (gate_login_wrong h pw r Hpw Hl Hbad),
        (gate_login_wrong h' pw r Hpw Hl Hbad).
      repeat split; discriminate.
  - destruct Hcase as [Hc | [Hs Hb]]; [discriminate|].
    rewrite (gate_reject h pw r Hpw Hl Hs Hb), (gate_reject h' pw r Hpw Hl Hs Hb).
    repeat split.
Qed.

(** A CORS preflight for [/upload] without credentials, password
    "secret": 401, no CORS header, the file handler is not asked. *)
Lemma gate_keeps_handler_out_witness :
  let r := plainRequest "OPTIONS" "/upload" [] in
  let w := serve (applyAuthMiddleware (ServeHTTP (sampleHandler "secret")) "secret")
                 r sampleRoot 0 in
  ops w = [] /\ fs w = sampleRoot
  /\ Status (resp w) = Some 401%Z
  /\ Header (resp w) = [("Content-Type", "text/html; charset=utf-8")].
Proof.
  intros r w.
  destruct (gate_keeps_handler_out
              (ServeHTTP (sampleHandler "secret")) (fun _ => ret tt) "secret" r
              sampleRoot 0 ltac:(discriminate) (or_intror (conj eq_refl eq_refl)))
    as [_ [Hops [Hfs H]]].
  destruct (H eq_refl) as [Hst Hh].
  repeat split; assumption.
Defined.

(** ** Listings: order, links, parent *)

Lemma lessAPIFileItem_asym (a b : APIFileItem) :
  lessAPIFileItem a b = true -> lessAPIFileItem b a = false.
Proof.
  unfold lessAPIFileItem. destruct (aIsDir a), (aIsDir b); cbn;
    try congruence; apply lt_asym.
Qed.

Lemma lessAPIFileItem_negtrans (a b c : APIFileItem) :
  lessAPIFileItem a c = true ->
  lessAPIFileItem a b = true \/ lessAPIFileItem b c = true.
Proof.
  unfold lessAPIFileItem. destruct (aIsDir a), (aIsDir b), (aIsDir c); cbn;
    try congruence; try (now left); try (now right); apply lt_negtrans.
Qed.

Lemma names_of_visible (infos : list OsFileInfo) :
  map Name (filter (fun info => negb (HasPrefix (Name info) ".")) infos)
  = filter (fun name => negb (HasPrefix name ".")) (map Name infos).
Proof.
  induction infos as [|i infos IH]; cbn; [reflexivity|].
  destruct (negb (HasPrefix (Name i) ".")); cbn; now rewrite IH.
Qed.

(** X8.  The HTML listing of a readable directory whose entry names are
    ASCII has exactly one row per entry (the names of the rows are a
    rearrangement of the names of the entries), every directory row stands
    before every file row, and among rows of the same kind the lower-cased
    names never decrease. *)
Theorem html_listing_is_sorted
        (fh : FileHandler) (r : Request) (fsPath urlPath : string) (w : World)
        (es : list (string * Node)) (sz mt : Z) :
  Forall (fun e => isASCII (fst e) = true) es ->
  Os.lookup (fs w) (Os.pathElems fsPath) = inr (Dir es sz mt true) ->
  exists page,
    Body (resp (snd (serveDirectory fh r fsPath urlPath w)))
    = (Body (resp w) ++ [ListingPage page])%list
    /\ Permutation (map fName (Files page)) (map fst es)
    /\ Forall (fun row => isASCII (fName row) = true) (Files page)
    /\ StronglySorted
         (fun a b =>
            (fIsDir a = fIsDir b ->
             Strings.lt (ToLower (fName b)) (ToLower (fName a)) = false)
            /\ (fIsDir a <> fIsDir b -> fIsDir a = true))
         (Files page).
Proof.
  intros Hascii Hdir.
  destruct (html_listing_order fh r fsPath urlPath w es sz mt Hdir)
    as [page [Hbody [Hperm Hsorted]]].
  exists page. repeat split; try assumption.
  apply Forall_forall. intros row Hrow.
  assert (Hname : In (fName row) (map fst es))
    by (apply (Permutation_in _ Hperm), in_map, Hrow).
  apply in_map_iff in Hname as [e [<- He]].
  rewrite Forall_forall in Hascii. now apply Hascii.
Qed.

(** The listing of [/share]: the folder first, then the files without
    regard to case. *)
Lemma html_listing_is_sorted_witness :
  exists page,
    Body (resp (snd (serveDirectory (sampleHandler "") (plainRequest "GET" "/" [])
                                    "/share" "/" (freshWorld sampleRoot 0))))
    = [ListingPage page]
    /\ map fName (Files page) = ["sub"; ".profile"; "a.txt"; "B.txt"].
Proof.
  destruct (html_listing_is_sorted
              (sampleHandler "") (plainRequest "GET" "/" []) "/share" "/"
              (freshWorld sampleRoot 0)
              [(".profile", File "export A=1" 10 true);
               ("B.txt", File "bb" 20 true);
               ("a.txt", File "hello" 30 true);
               ("sub", Dir [] 4096 40 true)] 4096 50
              ltac:(repeat constructor) eq_refl)
    as [page [Hbody _]].
  exists page. split; [exact Hbody|].
  cbn in Hbody. injection Hbody as <-. reflexivity.
Defined.

(** X9.  The JSON listing of a readable directory has exactly one row per
    entry whose name does not start with a dot, every directory row stands
    before every file row, and among rows of the same kind the names never
    decrease in byte order (capital letters before small ones). *)
Theorem json_listing_is_sorted
        (fh : FileHandler) (r : Request) (w : World)
        (es : list (string * Node)) (sz mt : Z) :
  HasPrefix (apiFsPath fh r) (rootDir fh) = true ->
  Os.lookup (fs w) (Os.pathElems (apiFsPath fh r)) = inr (Dir es sz mt true) ->
  exists data,
    Body (resp (snd (handleAPIFiles fh r w)))
    = (Body (resp w) ++ [ListingJSON data])%list
    /\ Permutation (map aName (aFiles data))
                   (filter (fun name => negb (HasPrefix name ".")) (map fst es))
    /\ StronglySorted
         (fun a b =>
            (aIsDir a = aIsDir b -> Strings.lt (aName b) (aName a) = false)
            /\ (aIsDir a <> aIsDir b -> aIsDir a = true))
         (aFiles data).
Proof.
  intros Hin Hdir.
  destruct (handleAPIFiles_listing fh r w es sz mt Hin Hdir) as [data [Hbody Hfiles]].
  exists data. split; [exact Hbody|]. rewrite Hfiles. split.
  - eapply Permutation_trans; [apply Permutation_map, sortSlice_perm|].
    rewrite api_names, names_of_visible, entry_names. apply Permutation_refl.
  - eapply StronglySorted_weaken;
      [|apply (sortSlice_sorted _ lessAPIFileItem lessAPIFileItem_asym
                                lessAPIFileItem_negtrans)].
    intros a b. unfold inOrder, lessAPIFileItem.
    destruct (aIsDir a), (aIsDir b); cbn; intro H; split; congruence.
Qed.

(** The JSON listing of [/share]: no [.profile], and [B.txt] before
    [a.txt]. *)
Lemma json_listing_is_sorted_witness :
  exists data,
    Body (resp (snd (handleAPIFiles (sampleHandler "")
                                    (plainRequest "GET" "/api/files" [])
                                    (freshWorld sampleRoot 0))))
    = [ListingJSON data]
    /\ map aName (aFiles data) = ["sub"; "B.txt"; "a.txt"].
Proof.
  destruct (json_listing_is_sorted
              (sampleHandler "") (plainRequest "GET" "/api/files" [])
              (freshWorld sampleRoot 0)
              [(".profile", File "export A=1" 10 true);
               ("B.txt", File "bb" 20 true);
               ("a.txt", File "hello" 30 true);
               ("sub", Dir [] 4096 40 true)] 4096 50 eq_refl eq_refl)
    as [data [Hbody _]].
  exists data. split; [exact Hbody|].
  cbn in Hbody. injection Hbody as <-. reflexivity.
Defined.

(** ** Listings: the links of the rows and the way up *)

Lemma lastSep_noSep (e : string) : noSep e = true -> lastSep e = None.
Proof.
  induction e as [|c e IH]; cbn; [reflexivity|].
  destruct (Ascii.eqb c Separator); cbn; [discriminate|].
  intro H. now rewrite (IH H).
Qed.

Lemma lastSep_last (a e : string) :
  noSep e = true -> lastSep (a ++ String Separator e) = Some (String.length a).
Proof.
  intro He. induction a as [|c a IH]; cbn [append lastSep String.length].
  - rewrite (lastSep_noSep e He). reflexivity.
  - now rewrite IH.
Qed.

Lemma substring_prefix (a b : string) :
  String.substring 0 (String.length a) (a ++ b) = a.
Proof.
  induction a as [|c a IH]; cbn; [now destruct b | now rewrite IH].
Qed.

(** [filepath.Dir] of a child is the parent. *)
Lemma Dir_child (cs : list string) (e : string) :
  Forall (fun e => validName e = true) cs -> validName e = true ->
  Filepath.Dir (rootedPath (cs ++ [e])) = rootedPath cs.
Proof.
  intros Hcs He. pose proof (validName_noSep e He) as Hn.
  assert (Hshape : rootedPath (cs ++ [e])
                   = (match cs with [] => "" | _ => rootedPath cs end)
                       ++ String Separator e).
  { destruct cs as [|c cs']; [reflexivity|].
    unfold rootedPath, render. rewrite concat_app by discriminate.
    now rewrite <- append_assoc. }
  unfold Filepath.Dir. rewrite Hshape, lastSep_last by assumption.
  set (a := match cs with [] => "" | _ => rootedPath cs end).
  replace (a ++ String Separator e) with ((a ++ "/") ++ e)
    by (now rewrite append_assoc).
  replace (S (String.length a)) with (String.length (a ++ "/"))
    by (clear; induction a as [|x a IH]; cbn; [reflexivity | now rewrite IH]).
  rewrite substring_prefix. subst a.
  destruct cs as [|c cs']; [reflexivity|].
  unfold Clean.
  replace (rooted (rootedPath (c :: cs') ++ "/")) with true by reflexivity.
  change (rootedPath (c :: cs') ++ "/")
    with (rootedPath (c :: cs') ++ String Separator "").
  rewrite elements_sep, cleanElems_app, rootedPath_elements by assumption.
  cbn [elements cleanElems String.eqb orb]. now rewrite rev_involutive.
Qed.

Lemma api_clean_path (fh : FileHandler) (r : Request) (base cs : list string) :
  rootDir fh = rootedPath base ->
  Forall (fun e => validName e = true) base ->
  Forall (fun e => validName e = true) cs ->
  QueryGet r "path" = rootedPath cs ->
  apiCleanPath r = rootedPath cs
  /\ apiFsPath fh r = rootedPath (base ++ cs)
  /\ HasPrefix (apiFsPath fh r) (rootDir fh) = true.
Proof.
  intros Hroot Hb Hcs Hp.
  assert (Hclean : apiCleanPath r = rootedPath cs).
  { unfold apiCleanPath. cbv zeta. rewrite Hp.
    change (rootedPath cs =? "") with false. cbv iota.
    rewrite rootedPath_clean by assumption. reflexivity. }
  assert (Hfs : apiFsPath fh r = rootedPath (base ++ cs)).
  { unfold apiFsPath. rewrite Hclean, Hroot.
    assert (Ht : TrimPrefix (rootedPath cs) "/" = String.concat "/" cs)
      by (unfold TrimPrefix, rootedPath, render; cbn;
          now destruct (String.concat "/" cs)).
    rewrite Ht. now apply Join_rooted. }
  repeat split; try assumption.
  rewrite Hfs, Hroot. apply hasPrefix_descendant.
Qed.

(** The value of the parent link one level below [cs']. *)
Lemma parent_of_child (cs' : list string) (c : string) :
  Forall (fun e => validName e = true) (cs' ++ [c]) ->
  (if Filepath.Dir (rootedPath (cs' ++ [c])) =? "." then "/"
   else Filepath.Dir (rootedPath (cs' ++ [c]))) = rootedPath cs'.
Proof.
  intro Hv. apply Forall_app in Hv as [Hcs' Hc]. inversion Hc; subst.
  now rewrite Dir_child.
Qed.

Lemma child_not_root (cs' : list string) (c : string) :
  Forall (fun e => validName e = true) (cs' ++ [c]) ->
  (rootedPath (cs' ++ [c]) =? "/") = false.
Proof.
  intro Hv. apply rootedPath_not_root; [|assumption]. now destruct cs'.
Qed.

(** X10.  The links of the HTML listing.  For a directory shown under the
    clean URL path [/c1/.../cn] whose entries have proper names: the page
    names that path as the current one, every row links to its entry
    directly below it ([/c1/.../cn/name], whose parent directory is the
    current path), the page of the root has no way up, and every other page
    has one, to [/c1/.../c(n-1)]. *)
Theorem html_listing_links
        (fh : FileHandler) (r : Request) (fsPath : string) (cs : list string)
        (w : World) (es : list (string * Node)) (sz mt : Z) :
  Forall (fun e => validName e = true) cs ->
  Forall (fun e => validName (fst e) = true) es ->
  Os.lookup (fs w) (Os.pathElems fsPath) = inr (Dir es sz mt true) ->
  exists page,
    Body (resp (snd (serveDirectory fh r fsPath (rootedPath cs) w)))
    = (Body (resp w) ++ [ListingPage page])%list
    /\ CurrentPath page = rootedPath cs
    /\ (forall row, In row (Files page) ->
          fPath row = rootedPath (cs ++ [fName row])
          /\ Filepath.Dir (fPath row) = CurrentPath page)
    /\ (cs = [] -> HasParent page = false /\ ParentPath page = "")
    /\ (forall cs' c, cs = (cs' ++ [c])%list ->
          HasParent page = true /\ ParentPath page = rootedPath cs').
Proof.
  intros Hcs Hes Hdir. unfold serveDirectory, bind.
  rewrite (os_ReadDir_run _ _ _ _ _ Hdir). cbn [fst snd].
  eexists. split; [reflexivity|]. cbn [CurrentPath Files HasParent ParentPath].
  split; [reflexivity|]. split; [|split].
  - intros row Hrow.
    apply (Permutation_in _ (sortSlice_perm _ _ _)) in Hrow.
    apply in_map_iff in Hrow as [i [<- Hi]].
    apply in_map_iff in Hi as [[name n] [<- Hin]]. cbn [fst snd].
    unfold toFileInfo. cbn [fPath fName]. rewrite info_name.
    rewrite Forall_forall in Hes. specialize (Hes _ Hin). cbn [fst] in Hes.
    rewrite Join_child by assumption. split; [reflexivity|].
    now apply Dir_child.
  - intros ->. split; reflexivity.
  - intros cs' c ->.
    change (rootedPath (cs' ++ [c]) =? "") with false.
    rewrite child_not_root by assumption. cbn [negb andb].
    split; [reflexivity|]. now apply parent_of_child.
Qed.

(** The page of [/share/sub] shown under [/sub]: the way up is [/]. *)
Lemma html_listing_links_witness :
  exists page,
    Body (resp (snd (serveDirectory (sampleHandler "")
                                    (plainRequest "GET" "/sub" [])
                                    "/share/sub" "/sub"
                                    (freshWorld sampleRoot 0))))
    = [ListingPage page]
    /\ HasParent page = true /\ ParentPath page = "/".
Proof.
  destruct (html_listing_links
              (sampleHandler "") (plainRequest "GET" "/sub" []) "/share/sub"
              ["sub"] (freshWorld sampleRoot 0) [] 4096 40
              ltac:(repeat constructor) ltac:(constructor) eq_refl)
    as [page [Hbody [_ [_ [_ Hup]]]]].
  exists page. split; [exact Hbody|]. exact (Hup [] "sub" eq_refl).
Defined.

(** X11.  The links of the JSON listing.  With the shared root a clean
    absolute path and the [path] query value a clean absolute path
    [/c1/.../cn] of a readable directory whose entries have proper names:
    the answer names that path as the current one, every row carries the
    path of its entry directly below it, the listing of the root has no
    parent and gives [/] as the parent path, and every other listing has a
    parent, [/c1/.../c(n-1)]. *)
Theorem json_listing_links
        (fh : FileHandler) (r : Request) (base cs : list string)
        (w : World) (es : list (string * Node)) (sz mt : Z) :
  rootDir fh = rootedPath base ->
  Forall (fun e => validName e = true) base ->
  Forall (fun e => validName e = true) cs ->
  QueryGet r "path" = rootedPath cs ->
  Forall (fun e => validName (fst e) = true) es ->
  Os.lookup (fs w) (base ++ cs) = inr (Dir es sz mt true) ->
  exists data,
    Body (resp (snd (handleAPIFiles fh r w)))
    = (Body (resp w) ++ [ListingJSON data])%list
    /\ aCurrentPath data = rootedPath cs
    /\ (forall row, In row (aFiles data) ->
          aPath row = rootedPath (cs ++ [aName row])
          /\ Filepath.Dir (aPath row) = aCurrentPath data)
    /\ (cs = [] -> aHasParent data = false /\ aParentPath data = "/")
    /\ (forall cs' c, cs = (cs' ++ [c])%list ->
          aHasParent data = true /\ aParentPath data = rootedPath cs').
Proof.
  intros Hroot Hb Hcs Hq Hes Hdir.
  destruct (api_clean_path fh r base cs Hroot Hb Hcs Hq) as [Hclean [Hfs Hin]].
  assert (Hdir' : Os.lookup (fs w) (Os.pathElems (apiFsPath fh r))
                  = inr (Dir es sz mt true)).
  { rewrite Hfs, rootedPath_pathElems; [assumption|].
    apply Forall_app; now split. }
  rewrite handleAPIFiles_paths, Hin. cbn [negb]. unfold bind.
  rewrite os_Stat_run, Hdir'. cbn [fst snd Os.info IsDir negb].
  rewrite (os_ReadDir_run (apiFsPath fh r) (logged w (OpStat (apiFsPath fh r)))
                          es sz mt Hdir').
  cbn [fst snd]. rewrite Hclean.
  eexists. split; [reflexivity|].
  cbn [aCurrentPath aFiles aHasParent aParentPath].
  split; [reflexivity|]. split; [|split].
  - intros row Hrow.
    apply (Permutation_in _ (sortSlice_perm _ _ _)) in Hrow.
    apply in_map_iff in Hrow as [i [<- Hi]].
    apply filter_In in Hi as [Hi _].
    apply in_map_iff in Hi as [[name n] [<- Hi]]. cbn [fst snd].
    unfold toAPIFileItem. cbv zeta. cbn [aPath aName]. rewrite info_name.
    rewrite Forall_forall in Hes. specialize (Hes _ Hi). cbn [fst] in Hes.
    rewrite Join_child by assumption.
    replace (HasPrefix (rootedPath (cs ++ [name])) "/") with true
      by (symmetry; apply (prefix_append "/")).
    split; [reflexivity|]. now apply Dir_child.
  - intros ->. split; reflexivity.
  - intros cs' c ->. rewrite child_not_root by assumption. cbn [negb].
    split; [reflexivity|]. now apply parent_of_child.
Qed.

(** The JSON listing of [/share] at the root path: every row one level
    below [/], no parent. *)
Lemma json_listing_links_witness :
  exists data,
    Body (resp (snd (handleAPIFiles (sampleHandler "")
                                    (plainRequest "GET" "/api/files" [("path", "/")])
                                    (freshWorld sampleRoot 0))))
    = [ListingJSON data]
    /\ map aPath (aFiles data) = ["/sub"; "/B.txt"; "/a.txt"]
    /\ aHasParent data = false.
Proof.
  destruct (json_listing_links
              (sampleHandler "") (plainRequest "GET" "/api/files" [("path", "/")])
              ["share"] [] (freshWorld sampleRoot 0)
              [(".profile", File "export A=1" 10 true);
               ("B.txt", File "bb" 20 true);
               ("a.txt", File "hello" 30 true);
               ("sub", Dir [] 4096 40 true)] 4096 50
              eq_refl ltac:(repeat constructor) ltac:(constructor) eq_refl
              ltac:(repeat constructor) eq_refl)
    as [data [Hbody [_ [_ [Hroot _]]]]].
  exists data. split; [exact Hbody|].
  split; [|exact (proj1 (Hroot eq_refl))].
  cbn in Hbody. injection Hbody as <-. reflexivity.
Defined.

(** ** Files *)

Lemma os_Open_run (path : string) (w : World) :
  os_Open path w
  = (match Os.lookup (fs w) (Os.pathElems path) with
     | inr (File content _ true) => Some content
     | _ => None
     end, logged w (OpOpen path)).
Proof. reflexivity. Qed.

Lemma os_ReadDir_any (path : string) (w : World) :
  os_ReadDir path w
  = (match Os.lookup (fs w) (Os.pathElems path) with
     | inr (Dir es _ _ true) => Some (map (fun e => Os.info (fst e) (snd e)) es)
     | _ => None
     end, logged w (OpReadDir path)).
Proof. reflexivity. Qed.

Ltac run_response :=
  unfold Header_Set, modifyResp, ret, logged, Write, http_NotFound, http_Error,
    WriteHeader, logOp, bind;
  cbn [fst snd fs resp ops now Header Status Body SetCookie emptyResponse
       freshWorld setKey assoc String.eqb Ascii.eqb Bool.eqb app].

Lemma browse_not_status_probe (r : Request) :
  HasPrefix (Path (Url r)) "/api/" = false -> Path (Url r) <> "/api/auth/check".
Proof. intros H E. rewrite E in H. discriminate. Qed.

Lemma baseName_child (es : list string) (name : string) :
  Forall (fun e => validName e = true) (es ++ [name]) ->
  Os.baseName (rootedPath (es ++ [name])) = name.
Proof.
  intro Hv. unfold Os.baseName. rewrite rootedPath_pathElems by assumption.
  now rewrite rev_app_distr.
Qed.

(** The answer to a GET of a regular file. *)
Lemma get_file_answer
        (fh : FileHandler) (r : Request) (base cs : list string) (name : string)
        (root : Node) (clock : Z) (content : string) (mt : Z) (access : bool) :
  rootDir fh = rootedPath base ->
  Forall (fun e => validName e = true) base ->
  Forall (fun e => validName e = true) (cs ++ [name]) ->
  Method r <> "OPTIONS" ->
  isUploadPost r = false ->
  HasPrefix (Path (Url r)) "/api/" = false ->
  Path (Url r) = rootedPath (cs ++ [name]) ->
  Os.lookup root (base ++ cs ++ [name]) = inr (File content mt access) ->
  let w := serve (ServeHTTP fh) r root clock in
  let fsPath := rootedPath (base ++ cs ++ [name]) in
  ops w = [OpStat fsPath; OpOpen fsPath]
  /\ fs w = root
  /\ assoc "Content-Disposition" (Header (resp w))
     = (if QueryGet r "download" =? "1"
        then Some ("attachment; filename=" ++ dq ++ name ++ dq) else None)
  /\ if access
     then Status (resp w) = Some 200%Z
          /\ Body (resp w) = [ServedContent name mt content]
          /\ assoc "Content-Type" (Header (resp w)) = Some (getContentType fsPath)
     else Status (resp w) = Some 500%Z
          /\ Body (resp w) = [Bytes ("Could not open file" ++ newline)]
          /\ assoc "Content-Type" (Header (resp w))
             = Some "text/plain; charset=utf-8".
Proof.
  intros Hroot Hb Hcs Hm Hup Hapi Hp Hfile w fsPath. subst w fsPath.
  destruct (browse_clean_path fh r base (cs ++ [name]) Hroot Hb Hcs Hp)
    as [_ [Hfs Hin]].
  assert (Hall : Forall (fun e => validName e = true) (base ++ cs ++ [name]))
    by (apply Forall_app; now split).
  assert (Hbn : Os.baseName (rootedPath (base ++ cs ++ [name])) = name)
    by (rewrite app_assoc; apply baseName_child; now rewrite <- app_assoc).
  unfold serve.
  rewrite (ServeHTTP_browse fh r Hm (browse_not_status_probe r Hapi) Hapi Hup).
  rewrite Hin, Hfs. cbn [negb]. run_response. rewrite os_Stat_run.
  run_response. rewrite rootedPath_pathElems, Hfile, Hbn by assumption.
  cbn [Os.info IsDir andb negb fst snd].
  unfold serveFile. cbn [Name ModTime].
  destruct (QueryGet r "download" =? "1"); run_response; rewrite os_Open_run;
    run_response; rewrite rootedPath_pathElems, Hfile by assumption;
    destruct access; run_response; repeat split.
Qed.

(** X12.  A GET of a file on an open path.  With the shared root a clean
    absolute path and the URL path a clean absolute path to a regular file
    below it: the server asks the file system twice (the stat, then the
    open), leaves it as it was, and hands the bytes of the file to
    [http.ServeContent] under the file's own name and modification time
    (200 and exactly these bytes for a request without range or
    conditional headers), the content type chosen from the path;
    [download=1] adds the attachment header with the file name.  When the
    file cannot be opened the answer is 500 in plain text - and an
    attachment header that was set stays. *)
Theorem file_is_served_as_stored
        (fh : FileHandler) (r : Request) (base cs : list string) (name : string)
        (root : Node) (clock : Z) (content : string) (mt : Z) (access : bool) :
  rootDir fh = rootedPath base ->
  Forall (fun e => validName e = true) base ->
  Forall (fun e => validName e = true) (cs ++ [name]) ->
  Method r <> "OPTIONS" ->
  isUploadPost r = false ->
  HasPrefix (Path (Url r)) "/api/" = false ->
  Path (Url r) = rootedPath (cs ++ [name]) ->
  Os.lookup root (base ++ cs ++ [name]) = inr (File content mt access) ->
  let w := serve (ServeHTTP fh) r root clock in
  let fsPath := rootedPath (base ++ cs ++ [name]) in
  ops w = [OpStat fsPath; OpOpen fsPath]
  /\ fs w = root
  /\ assoc "Content-Disposition" (Header (resp w))
     = (if QueryGet r "download" =? "1"
        then Some ("attachment; filename=" ++ dq ++ name ++ dq) else None)
  /\ if access
     then Status (resp w) = Some 200%Z
          /\ Body (resp w) = [ServedContent name mt content]
          /\ assoc "Content-Type" (Header (resp w)) = Some (getContentType fsPath)
     else Status (resp w) = Some 500%Z
          /\ Body (resp w) = [Bytes ("Could not open file" ++ newline)]
          /\ assoc "Content-Type" (Header (resp w))
             = Some "text/plain; charset=utf-8".
Proof. apply get_file_answer. Qed.

(** [/a.txt] of the sample share, as an attachment. *)
Lemma file_is_served_as_stored_witness :
  let w := serve (ServeHTTP (sampleHandler ""))
                 (plainRequest "GET" "/a.txt" [("download", "1")]) sampleRoot 0 in
  Status (resp w) = Some 200%Z
  /\ Body (resp w) = [ServedContent "a.txt" 30 "hello"]
  /\ assoc "Content-Type" (Header (resp w)) = Some "text/plain".
Proof.
  pose proof (file_is_served_as_stored
                (sampleHandler "") (plainRequest "GET" "/a.txt" [("download", "1")])
                ["share"] [] "a.txt" sampleRoot 0 "hello" 30 true
                eq_refl ltac:(repeat constructor) ltac:(repeat constructor)
                ltac:(discriminate) eq_refl eq_refl eq_refl eq_refl) as H.
  cbv zeta in H. destruct H as [_ [_ [_ H]]]. exact H.
Defined.

(** ** Extensions *)

Lemma plainExt_no_ext (e : string) : plainExt e = true -> Ext e = "".
Proof.
  induction e as [|c e IH]; cbn; [reflexivity|].
  intro H. apply andb_prop in H as [H He]. apply andb_prop in H as [Hdot _].
  rewrite (IH He). now destruct (Ascii.eqb c ".").
Qed.

Lemma plainExt_no_sep (e : string) : plainExt e = true -> Contains e "/" = false.
Proof.
  unfold Contains.
  induction e as [|c e IH]; cbn [String.index String.prefix plainExt];
    [reflexivity|].
  intro H. apply andb_prop in H as [H He]. apply andb_prop in H as [_ Hsep].
  specialize (IH He).
  destruct (ascii_dec "/" c) as [<-|_]; [discriminate Hsep|].
  now destruct (String.index 0 "/" e).
Qed.

(** The extension of a name that ends in a dot and a plain extension. *)
Lemma Ext_suffix (stem e : string) :
  plainExt e = true -> Ext (stem ++ "." ++ e) = "." ++ e.
Proof.
  intro He. induction stem as [|c stem IH].
  - cbn [append Ext]. rewrite (plainExt_no_ext e He), (plainExt_no_sep e He).
    reflexivity.
  - cbn [append] in IH |- *. cbn [Ext]. now rewrite IH.
Qed.

(** X13.  Content type and icon go by the extension alone, without regard
    to case.  Two paths that end in a dot followed by extensions (no dot or
    slash inside) that are equal up to the case of their letters get the
    same content type and, as files, the same icon - that of the
    lower-cased extension by itself; whatever stands before the last dot
    plays no part. *)
Theorem type_and_icon_go_by_extension (stem stem' e e' : string) :
  plainExt e = true -> plainExt e' = true -> ToLower e = ToLower e' ->
  getContentType (stem ++ "." ++ e) = getContentType (stem' ++ "." ++ e')
  /\ getFileIcon (stem ++ "." ++ e) false = getFileIcon (stem' ++ "." ++ e') false
  /\ getContentType (stem ++ "." ++ e) = getContentType ("." ++ ToLower e)
  /\ getFileIcon (stem ++ "." ++ e) false = getFileIcon ("." ++ ToLower e) false.
Proof.
  intros He He' Heq.
  assert (Hlow : forall s, ToLower (ToLower s) = ToLower s).
  { induction s as [|c s IH]; cbn; [reflexivity|]. rewrite IH. f_equal.
    unfold lowerByte.
    destruct ((65 <=? N_of_ascii c)%N && (N_of_ascii c <=? 90)%N) eqn:Hc.
    - apply andb_prop in Hc as [H1 H2].
      apply N.leb_le in H1. apply N.leb_le in H2.
      rewrite N_ascii_embedding by lia.
      replace ((65 <=? N_of_ascii c + 32)%N && (N_of_ascii c + 32 <=? 90)%N)
        with false; [reflexivity|].
      symmetry. apply andb_false_iff. right. apply N.leb_gt. lia.
    - now rewrite Hc. }
  assert (Hple : forall s, plainExt s = true -> plainExt (ToLower s) = true).
  { induction s as [|c s IH]; cbn; [reflexivity|].
    intro H. apply andb_prop in H as [H Hs]. rewrite (IH Hs).
    apply andb_prop in H as [Hdot Hsep].
    unfold lowerByte.
    destruct ((65 <=? N_of_ascii c)%N && (N_of_ascii c <=? 90)%N) eqn:Hc;
      [|now rewrite Hdot, Hsep].
    apply andb_prop in Hc as [H1 H2].
    apply N.leb_le in H1. apply N.leb_le in H2.
    assert (Hne : forall d, (N_of_ascii d < 97)%N ->
                            Ascii.eqb (ascii_of_N (N_of_ascii c + 32)) d = false).
    { intros d Hd. apply Ascii.eqb_neq. intro E.
      apply (f_equal N_of_ascii) in E. rewrite N_ascii_embedding in E by lia. lia. }
    rewrite (Hne "."%char), (Hne Separator) by (cbn; lia). reflexivity. }
  assert (Hext : forall s x, plainExt x = true ->
                             ToLower (Ext (s ++ "." ++ x)) = "." ++ ToLower x).
  { intros s x Hx. now rewrite Ext_suffix. }
  unfold getContentType, getFileIcon. cbv zeta.
  pose proof (Hext "" (ToLower e) (Hple e He)) as Hself.
  change ("" ++ "." ++ ToLower e) with ("." ++ ToLower e) in Hself.
  rewrite (Hext stem e He), (Hext stem' e' He'), Hself, Hlow, Heq.
  repeat split.
Qed.

(** [REPORT.PDF] and [notes/report.pdf]. *)
Lemma type_and_icon_go_by_extension_witness :
  getContentType "REPORT.PDF" = getContentType "notes/report.pdf"
  /\ getContentType "REPORT.PDF" = "application/pdf".
Proof.
  destruct (type_and_icon_go_by_extension "REPORT" "notes/report" "PDF" "pdf"
              eq_refl eq_refl eq_refl) as [H [_ [H' _]]].
  split; [exact H | exact H'].
Defined.

(** ** The answer by what the path holds *)

(** X14.  What the file browser answers, by what the path holds.  With the
    shared root a clean absolute path and the URL path a clean absolute
    path: a path that does not exist gets 404, one that cannot be reached
    (through a file, or through a directory without access) gets 500, a
    file is handed to [http.ServeContent] (200 for a plain request) or,
    when it cannot be opened, gets 500, a directory gets 200.  A directory
    that cannot be read gets 500 as a page - but 200 and an empty archive
    when it is asked for as a zip.  The file system is never changed. *)
Theorem browse_status_by_node
        (fh : FileHandler) (r : Request) (base cs : list string)
        (root : Node) (clock : Z) :
  rootDir fh = rootedPath base ->
  Forall (fun e => validName e = true) base ->
  Forall (fun e => validName e = true) cs ->
  Method r <> "OPTIONS" ->
  isUploadPost r = false ->
  HasPrefix (Path (Url r)) "/api/" = false ->
  Path (Url r) = rootedPath cs ->
  let w := serve (ServeHTTP fh) r root clock in
  fs w = root
  /\ match Os.lookup root (base ++ cs) with
     | inl Os.ErrNotExist =>
         Status (resp w) = Some 404%Z
         /\ Body (resp w) = [Bytes ("404 page not found" ++ newline)]
     | inl Os.ErrOther =>
         Status (resp w) = Some 500%Z
         /\ Body (resp w) = [Bytes ("Internal server error" ++ newline)]
     | inr (File _ _ access) =>
         Status (resp w) = Some (if access then 200%Z else 500%Z)
     | inr (Dir _ _ _ true) => Status (resp w) = Some 200%Z
     | inr (Dir _ _ _ false) =>
         if QueryGet r "download" =? "zip"
         then Status (resp w) = Some 200%Z /\ Body (resp w) = [ZipArchive []]
         else Status (resp w) = Some 500%Z
              /\ Body (resp w) = [Bytes ("Could not read directory" ++ newline)]
     end.
Proof.
  intros Hroot Hb Hcs Hm Hup Hapi Hp w. subst w.
  destruct (browse_clean_path fh r base cs Hroot Hb Hcs Hp) as [Hclean [Hfs Hin]].
  assert (Hall : Forall (fun e => validName e = true) (base ++ cs))
    by (apply Forall_app; now split).
  unfold serve.
  rewrite (ServeHTTP_browse fh r Hm (browse_not_status_probe r Hapi) Hapi Hup).
  rewrite Hin, Hfs, Hclean. cbn [negb]. run_response. rewrite os_Stat_run.
  run_response. rewrite rootedPath_pathElems by assumption.
  destruct (Os.lookup root (base ++ cs)) as [[|]|[content mt access|es sz mt access]]
    eqn:Hl; cbn [fst snd Os.info IsDir andb negb].
  - run_response. repeat split.
  - run_response. repeat split.
  - unfold serveFile.
    destruct (QueryGet r "download" =? "1"); run_response; rewrite os_Open_run;
      run_response; rewrite rootedPath_pathElems, Hl by assumption;
      destruct access; run_response; split; reflexivity.
  - destruct (QueryGet r "download" =? "zip").
    + unfold serveDirectoryAsZip. run_response.
      rewrite rootedPath_pathElems, Hl by assumption.
      destruct access.
      * destruct (walk _ _ _ _) as [[entries calls] err]. run_response.
        split; reflexivity.
      * cbn [walk negb]. run_response. repeat split.
    + unfold serveDirectory. run_response. rewrite os_ReadDir_any.
      run_response. rewrite rootedPath_pathElems, Hl by assumption.
      destruct access; run_response; repeat split.
Qed.

(** A folder of the sample share that nobody may read, as a page and as a
    zip. *)
Lemma browse_status_by_node_witness :
  let locked := Dir [("share", Dir [("vault", Dir [] 4096 1 false)] 4096 2 true)]
                    4096 3 true in
  Status (resp (serve (ServeHTTP (sampleHandler ""))
                      (plainRequest "GET" "/vault" []) locked 0))
  = Some 500%Z
  /\ Status (resp (serve (ServeHTTP (sampleHandler ""))
                         (plainRequest "GET" "/vault" [("download", "zip")])
                         locked 0))
     = Some 200%Z.
Proof.
  intro locked. split.
  - exact (proj1 (proj2 (browse_status_by_node
                           (sampleHandler "") (plainRequest "GET" "/vault" [])
                           ["share"] ["vault"] locked 0
                           eq_refl ltac:(repeat constructor)
                           ltac:(repeat constructor) ltac:(discriminate)
                           eq_refl eq_refl eq_refl))).
  - exact (proj1 (proj2 (browse_status_by_node
                           (sampleHandler "")
                           (plainRequest "GET" "/vault" [("download", "zip")])
                           ["share"] ["vault"] locked 0
                           eq_refl ltac:(repeat constructor)
                           ltac:(repeat constructor) ltac:(discriminate)
                           eq_refl eq_refl eq_refl))).
Defined.

(** X15.  What the JSON listing answers, by what the path holds.  With the
    shared root a clean absolute path and the [path] query value a clean
    absolute path, a request for [/api/files] gets: 404 when the path does
    not exist, 500 when it cannot be reached, 400 when it is a file, 500
    when it is a directory that cannot be read, and 200 with a listing
    otherwise.  Every answer but the listing is plain text, not JSON: the
    content type set for the API is replaced.  The file system is never
    changed. *)
Theorem api_status_by_node
        (fh : FileHandler) (r : Request) (base cs : list string)
        (root : Node) (clock : Z) :
  rootDir fh = rootedPath base ->
  Forall (fun e => validName e = true) base ->
  Forall (fun e => validName e = true) cs ->
  Method r <> "OPTIONS" ->
  Path (Url r) = "/api/files" ->
  QueryGet r "path" = rootedPath cs ->
  let w := serve (ServeHTTP fh) r root clock in
  let plain := assoc "Content-Type" (Header (resp w))
               = Some "text/plain; charset=utf-8" in
  fs w = root
  /\ match Os.lookup root (base ++ cs) with
     | inl Os.ErrNotExist => Status (resp w) = Some 404%Z /\ plain
     | inl Os.ErrOther =>
         Status (resp w) = Some 500%Z /\ plain
         /\ Body (resp w) = [Bytes ("Internal server error" ++ newline)]
     | inr (File _ _ _) =>
         Status (resp w) = Some 400%Z /\ plain
         /\ Body (resp w) = [Bytes ("Path is not a directory" ++ newline)]
     | inr (Dir _ _ _ false) =>
         Status (resp w) = Some 500%Z /\ plain
         /\ Body (resp w) = [Bytes ("Cannot read directory" ++ newline)]
     | inr (Dir _ _ _ true) =>
         Status (resp w) = Some 200%Z
         /\ assoc "Content-Type" (Header (resp w)) = Some "application/json"
         /\ exists data, Body (resp w) = [ListingJSON data]
     end.
Proof.
  intros Hroot Hb Hcs Hm Hp Hq w plain. subst w plain.
  destruct (api_clean_path fh r base cs Hroot Hb Hcs Hq) as [Hclean [Hfs Hin]].
  assert (Hall : Forall (fun e => validName e = true) (base ++ cs))
    by (apply Forall_app; now split).
  unfold serve, ServeHTTP, handleAPI.
  rewrite (eqb_false_of_neq _ _ Hm), Hp.
  change ("/api/files" =? "/api/auth/check") with false.
  change (HasPrefix "/api/files" "/api/") with true.
  change (TrimPrefix "/api/files" "/api") with "/files".
  cbn [String.eqb Ascii.eqb Bool.eqb orb]. cbv iota.
  rewrite handleAPIFiles_paths, Hin, Hfs. cbn [negb].
  run_response. rewrite os_Stat_run.
  run_response. rewrite rootedPath_pathElems by assumption.
  destruct (Os.lookup root (base ++ cs)) as [[|]|[content mt access|es sz mt access]]
    eqn:Hl; cbn [fst snd Os.info IsDir negb].
  - run_response. repeat split.
  - run_response. repeat split.
  - run_response. repeat split.
  - rewrite os_ReadDir_any.
    run_response. rewrite rootedPath_pathElems, Hl by assumption.
    destruct access; run_response; repeat split. eexists. reflexivity.
Qed.

(** [/api/files?path=/a.txt] on the sample share: a file, so 400. *)
Lemma api_status_by_node_witness :
  Status (resp (serve (ServeHTTP (sampleHandler ""))
                      (plainRequest "GET" "/api/files" [("path", "/a.txt")])
                      sampleRoot 0))
  = Some 400%Z.
Proof.
  exact (proj1 (proj2 (api_status_by_node
                         (sampleHandler "")
                         (plainRequest "GET" "/api/files" [("path", "/a.txt")])
                         ["share"] ["a.txt"] sampleRoot 0
                         eq_refl ltac:(repeat constructor)
                         ltac:(repeat constructor) ltac:(discriminate)
                         eq_refl eq_refl))).
Defined.

(** ** The target directory of an upload *)

Lemma lt_trans (a b c : string) :
  Strings.lt a b = true -> Strings.lt b c = true -> Strings.lt a c = true.
Proof.
  unfold Strings.lt, String.ltb. intros Hab Hbc.
  destruct (String.compare a b) eqn:H1; try discriminate.
  destruct (String.compare b c) eqn:H2; try discriminate.
  now rewrite (compare_lt_trans a b c H1 H2).
Qed.

Lemma ascending_tail (n : string) (names : list string) :
  ascending (n :: names) = true -> ascending names = true.
Proof.
  destruct names as [|m names]; [reflexivity|].
  cbn [ascending]. intro H. now apply andb_prop in H.
Qed.

(** In a directory in name order, what is found after the first entry has
    a later name. *)
Lemma found_later (e n : string) (c : Node) (es : list (string * Node)) :
  ascending (n :: map fst es) = true -> Os.findEntry e es = Some c ->
  Strings.lt n e = true.
Proof.
  revert n. induction es as [|[m c'] es IH]; intros n Hasc Hfind; [discriminate|].
  cbn [map fst ascending] in Hasc. apply andb_prop in Hasc as [Hnm Hrest].
  cbn [Os.findEntry] in Hfind. destruct (m =? e) eqn:Hm.
  - apply String.eqb_eq in Hm. now subst.
  - apply (lt_trans n m e Hnm). now apply IH.
Qed.

Lemma putEntry_same (e : string) (c : Node) (es : list (string * Node)) :
  ascending (map fst es) = true ->
  Os.findEntry e es = Some c -> Os.putEntry e c es = es.
Proof.
  induction es as [|[n c'] es IH]; intros Hasc Hfind; [discriminate|].
  cbn [Os.findEntry] in Hfind. cbn [Os.putEntry].
  destruct (n =? e) eqn:Hn.
  - injection Hfind as ->. apply String.eqb_eq in Hn. now subst.
  - rewrite (lt_asym n e (found_later e n c es Hasc Hfind)).
    rewrite IH; [reflexivity | | assumption].
    exact (ascending_tail n (map fst es) Hasc).
Qed.

Lemma wellFormed_child (e : string) (c : Node) (es : list (string * Node)) :
  forallb (fun x => wellFormed (snd x)) es = true ->
  Os.findEntry e es = Some c -> wellFormed c = true.
Proof.
  induction es as [|[n c'] es IH]; cbn [forallb Os.findEntry snd];
    [discriminate|].
  intros H Hfind. apply andb_prop in H as [Hc Hes].
  destruct (n =? e); [now injection Hfind as <- | now apply IH].
Qed.

(** [os.MkdirAll] of a directory that is there changes nothing. *)
Lemma mkdirAll_existing (clock : Z) (elems : list string) :
  forall n es sz mt a,
    wellFormed n = true -> Os.lookup n elems = inr (Dir es sz mt a) ->
    Os.mkdirAll clock elems n = Some n.
Proof.
  induction elems as [|e rest IH]; intros n es sz mt a Hwf Hl.
  - cbn in Hl. injection Hl as ->. reflexivity.
  - destruct n as [|es' sz' mt' [|]]; try discriminate.
    cbn [Os.lookup] in Hl. cbn [Os.mkdirAll].
    destruct (Os.findEntry e es') as [c|] eqn:Hfind; try discriminate.
    cbn [wellFormed] in Hwf. apply andb_prop in Hwf as [Hasc Hchildren].
    rewrite (IH c es sz mt a (wellFormed_child e c es' Hchildren Hfind) Hl).
    now rewrite putEntry_same.
Qed.

(** After [os.MkdirAll] the directory is there. *)
Lemma mkdirAll_lookup (clock : Z) (elems : list string) :
  forall n n', Os.mkdirAll clock elems n = Some n' ->
               exists es sz mt a, Os.lookup n' elems = inr (Dir es sz mt a).
Proof.
  induction elems as [|e rest IH]; intros n n' H.
  - destruct n as [|es sz mt a]; [discriminate|].
    cbn in H. injection H as <-. now exists es, sz, mt, a.
  - destruct n as [|es sz mt [|]]; try discriminate.
    cbn [Os.mkdirAll] in H.
    destruct (Os.mkdirAll clock rest _) as [c'|] eqn:Hrec; try discriminate.
    injection H as <-. cbn [Os.lookup]. rewrite findEntry_putEntry.
    exact (IH _ _ Hrec).
Qed.

Lemma upload_clean_path (fh : FileHandler) (r : Request) (base cs : list string) :
  rootDir fh = rootedPath base ->
  Forall (fun e => validName e = true) base ->
  Forall (fun e => validName e = true) cs ->
  FormValue r "directory" = rootedPath cs ->
  uploadCleanDir r = rootedPath cs
  /\ uploadFsDir fh r = rootedPath (base ++ cs)
  /\ HasPrefix (uploadFsDir fh r) (rootDir fh) = true.
Proof.
  intros Hroot Hb Hcs Hp.
  assert (Hclean : uploadCleanDir r = rootedPath cs).
  { unfold uploadCleanDir. cbv zeta. rewrite Hp.
    change (rootedPath cs =? "") with false. cbv iota.
    rewrite rootedPath_clean by assumption. reflexivity. }
  assert (Hfs : uploadFsDir fh r = rootedPath (base ++ cs)).
  { unfold uploadFsDir. rewrite Hclean, Hroot.
    assert (Ht : TrimPrefix (rootedPath cs) "/" = String.concat "/" cs)
      by (unfold TrimPrefix, rootedPath, render; cbn;
          now destruct (String.concat "/" cs)).
    rewrite Ht. now apply Join_rooted. }
  repeat split; try assumption.
  rewrite Hfs, Hroot. apply hasPrefix_descendant.
Qed.

(** X16.  An upload without a file.  With the shared root a clean absolute
    path and the [directory] field a clean absolute path, a POST to
    [/upload] whose form has no part under [files] still makes its one call
    into the file system, the [os.MkdirAll] of the target.  When that
    fails the answer is 500 and nothing has changed; otherwise the target
    directory exists afterwards and the answer is a 303 redirect; when the
    names of the directory are plain (printing ASCII without [%], [?] and
    [#]) its [Location] is the directory itself, with no [uploaded] count.
    On a directory that is already there the file system stays exactly as
    it was. *)
Theorem upload_without_files_makes_the_directory
        (fh : FileHandler) (r : Request) (base cs : list string)
        (parts : list (string * FileHeader)) (root : Node) (clock : Z) :
  rootDir fh = rootedPath base ->
  Forall (fun e => validName e = true) base ->
  Forall (fun e => validName e = true) cs ->
  Method r = "POST" -> Path (Url r) = "/upload" ->
  MultipartFile r = Some parts -> filesOf "files" parts = [] ->
  FormValue r "directory" = rootedPath cs ->
  let w := serve (ServeHTTP fh) r root clock in
  ops w = [OpMkdirAll (rootedPath (base ++ cs))]
  /\ match Os.mkdirAll clock (base ++ cs) root with
     | Some root' =>
         Status (resp w) = Some 303%Z
         /\ (Forall (fun e => plainName e = true) cs ->
             assoc "Location" (Header (resp w)) = Some (rootedPath cs))
         /\ fs w = root'
         /\ exists es sz mt a,
              Os.lookup (fs w) (base ++ cs) = inr (Dir es sz mt a)
     | None =>
         Status (resp w) = Some 500%Z
         /\ Body (resp w) = [Bytes ("Unable to create directory" ++ newline)]
         /\ fs w = root
     end
  /\ (forall es sz mt a,
        wellFormed root = true ->
        Os.lookup root (base ++ cs) = inr (Dir es sz mt a) ->
        fs w = root /\ Status (resp w) = Some 303%Z).
Proof.
  intros Hroot Hb Hcs Hm Hp Hparts Hnone Hdir w. subst w.
  destruct (upload_clean_path fh r base cs Hroot Hb Hcs Hdir)
    as [Hclean [Hfs Hin]].
  assert (Hall : Forall (fun e => validName e = true) (base ++ cs))
    by (apply Forall_app; now split).
  assert (Hrun : serve (ServeHTTP fh) r root clock
                 = match Os.mkdirAll clock (base ++ cs) root with
                   | Some root' =>
                       mkWorld
                         (mkResponse
                            [("Access-Control-Allow-Origin", "*");
                             ("Access-Control-Allow-Methods", "GET, POST, OPTIONS");
                             ("Access-Control-Allow-Headers",
                              "Content-Type, Authorization");
                             ("Access-Control-Allow-Credentials", "true");
                             ("Location",
                              NetUrl.hexEscapeNonASCII
                                (redirectURL r (rootedPath cs)))]
                            [] (Some 303%Z) [])
                         root' clock [OpMkdirAll (rootedPath (base ++ cs))]
                   | None =>
                       mkWorld
                         (mkResponse
                            [("Access-Control-Allow-Origin", "*");
                             ("Access-Control-Allow-Methods", "GET, POST, OPTIONS");
                             ("Access-Control-Allow-Headers",
                              "Content-Type, Authorization");
                             ("Access-Control-Allow-Credentials", "true");
                             ("Content-Type", "text/plain; charset=utf-8");
                             ("X-Content-Type-Options", "nosniff")]
                            [] (Some 500%Z)
                            [Bytes ("Unable to create directory" ++ newline)])
                         root clock [OpMkdirAll (rootedPath (base ++ cs))]
                   end).
  { unfold serve, ServeHTTP. rewrite Hm, Hp.
    change ("POST" =? "OPTIONS") with false.
    change ("/upload" =? "/api/auth/check") with false.
    change (HasPrefix "/upload" "/api/") with false.
    change (("POST" =? "POST") && ("/upload" =? "/upload")) with true. cbv iota.
    rewrite handleUpload_paths, Hparts, Hin, Hfs, Hclean, Hnone. cbn [negb].
    run_response. rewrite os_MkdirAll_run. run_response.
    rewrite rootedPath_pathElems by assumption.
    destruct (Os.mkdirAll clock (base ++ cs) root) as [root'|];
      cbn [fst snd negb uploadLoop]; unfold uploadRedirect, setFs;
      rewrite ?(http_Redirect_post r _ _ _ Hm);
      run_response; reflexivity. }
  rewrite Hrun. split; [|split].
  - now destruct (Os.mkdirAll clock (base ++ cs) root).
  - destruct (Os.mkdirAll clock (base ++ cs) root) as [root'|] eqn:Hmk;
      cbn [resp fs Status Body Header assoc String.eqb Ascii.eqb Bool.eqb];
      repeat split.
    + intro Hplain. f_equal.
      rewrite <- (append_empty_r (rootedPath cs)). now apply redirect_plain.
    + exact (mkdirAll_lookup clock (base ++ cs) root root' Hmk).
  - intros es sz mt a Hwf Hl.
    rewrite (mkdirAll_existing clock (base ++ cs) root es sz mt a Hwf Hl).
    split; reflexivity.
Qed.

(** An empty form sent to [/sub] of the sample share. *)
Lemma upload_without_files_makes_the_directory_witness :
  let w := serve (ServeHTTP (sampleHandler ""))
                 (mkRequest "POST" (mkURL "/upload" []) [] None
                            [("directory", "/sub")] (Some []))
                 sampleRoot 0 in
  fs w = sampleRoot /\ Status (resp w) = Some 303%Z.
Proof.
  exact (proj2 (proj2 (upload_without_files_makes_the_directory
                         (sampleHandler "")
                         (mkRequest "POST" (mkURL "/upload" []) [] None
                                    [("directory", "/sub")] (Some []))
                         ["share"] ["sub"] [] sampleRoot 0
                         eq_refl ltac:(repeat constructor)
                         ltac:(repeat constructor) eq_refl eq_refl eq_refl
                         eq_refl eq_refl))
               [] 4096%Z 40%Z true eq_refl eq_refl).
Defined.

(** ** The tunnel watcher *)

Lemma pickPublicURL_none (tunnels : list string) :
  pickPublicURL tunnels = None <-> forall u, In u tunnels -> u = "".
Proof.
  unfold pickPublicURL. split.
  - destruct (find (fun u => HasPrefix u "https://") tunnels); [discriminate|].
    intros H u Hu. pose proof (find_none _ _ H u Hu) as Hn. cbn beta in Hn.
    apply negb_false_iff in Hn. now apply String.eqb_eq in Hn.
  - intro Hall.
    destruct (find (fun u => HasPrefix u "https://") tunnels) as [u|] eqn:Hf.
    + apply find_some in Hf as [Hin Hp]. rewrite (Hall u Hin) in Hp. discriminate.
    + destruct (find (fun u => negb (u =? "")) tunnels) as [u|] eqn:Hg;
        [|reflexivity].
      apply find_some in Hg as [Hin Hp]. rewrite (Hall u Hin) in Hp. discriminate.
Qed.

Lemma pickPublicURL_some (tunnels : list string) (u : string) :
  pickPublicURL tunnels = Some u ->
  In u tunnels /\ u <> ""
  /\ (forall v, In v tunnels -> HasPrefix v "https://" = true ->
                HasPrefix u "https://" = true).
Proof.
  unfold pickPublicURL.
  destruct (find (fun u => HasPrefix u "https://") tunnels) as [s|] eqn:Hf.
  - intro H. injection H as <-. apply find_some in Hf as [Hin Hp].
    repeat split; [assumption | | intros; assumption].
    intros ->. discriminate.
  - intro Hg. pose proof (find_none _ _ Hf) as Hnone.
    apply find_some in Hg as [Hin Hp]. repeat split; [assumption | |].
    + intros ->. discriminate.
    + intros v Hv Hpre. specialize (Hnone v Hv). cbn beta in Hnone. congruence.
Qed.

(** X17.  The watcher gives up empty-handed exactly when no answer it got
    held a tunnel with a URL: [waitForNgrokURL] returns the empty string
    if and only if every public URL in every answer decoded before the
    deadline is empty. *)
Theorem ngrok_url_empty_iff_nothing_reported (polls : list (option (list string))) :
  waitForNgrokURL polls = ""
  <-> forall tunnels u, In (Some tunnels) polls -> In u tunnels -> u = "".
Proof.
  induction polls as [|[tunnels|] polls IH]; cbn [waitForNgrokURL].
  - split; [intros _ ? ? [] | reflexivity].
  - destruct (pickPublicURL tunnels) as [u|] eqn:Hpick.
    + apply pickPublicURL_some in Hpick as [Hin [Hne _]]. split.
      * intro H. now elim Hne.
      * intro Hall. elim Hne. exact (Hall tunnels u (or_introl eq_refl) Hin).
    + rewrite IH. pose proof (proj1 (pickPublicURL_none tunnels) Hpick) as Hnone.
      split.
      * intros Hall ts u [E | Hin] Hu; [injection E as <-; now apply Hnone|].
        exact (Hall ts u Hin Hu).
      * intros Hall ts u Hin Hu. exact (Hall ts u (or_intror Hin) Hu).
  - rewrite IH. split.
    + intros Hall ts u [E | Hin] Hu; [discriminate|]. exact (Hall ts u Hin Hu).
    + intros Hall ts u Hin Hu. exact (Hall ts u (or_intror Hin) Hu).
Qed.

(** X18.  The first answer with a URL decides.  When the answers before
    one hold no URL (failed requests, or tunnels without one) and that one
    holds a URL, [waitForNgrokURL] returns a non-empty URL of that very
    answer - an [https://] one whenever the answer holds any - and what
    later answers would have held plays no part. *)
Theorem ngrok_first_answer_decides
        (before : list (option (list string))) (tunnels : list string)
        (after : list (option (list string))) (u : string) :
  (forall ts v, In (Some ts) before -> In v ts -> v = "") ->
  In u tunnels -> u <> "" ->
  let url := waitForNgrokURL (before ++ Some tunnels :: after) in
  In url tunnels /\ url <> ""
  /\ (forall v, In v tunnels -> HasPrefix v "https://" = true ->
                HasPrefix url "https://" = true)
  /\ url = waitForNgrokURL [Some tunnels].
Proof.
  intros Hbefore Hu Hne url. subst url.
  assert (Hskip : waitForNgrokURL (before ++ Some tunnels :: after)
                  = waitForNgrokURL (Some tunnels :: after)).
  { induction before as [|[ts|] before IH]; cbn [app waitForNgrokURL].
    - reflexivity.
    - replace (pickPublicURL ts) with (@None string).
      + apply IH. intros ts' v Hin. apply Hbefore. now right.
      + symmetry. apply pickPublicURL_none. intros v Hv.
        exact (Hbefore ts v (or_introl eq_refl) Hv).
    - apply IH. intros ts' v Hin. apply Hbefore. now right. }
  rewrite Hskip. cbn [waitForNgrokURL].
  destruct (pickPublicURL tunnels) as [url|] eqn:Hpick.
  - destruct (pickPublicURL_some tunnels url Hpick) as [Hin [Hn Hs]].
    repeat split; assumption.
  - elim Hne. exact (proj1 (pickPublicURL_none tunnels) Hpick u Hu).
Qed.

(** A failed request, an answer without tunnels, then both URLs of one
    tunnel pair: the https one is taken, also when it stands second. *)
Lemma ngrok_first_answer_decides_witness :
  waitForNgrokURL ([None; Some []]
                     ++ Some ["http://a.ngrok.io"; "https://a.ngrok.io"]
                     :: [Some ["https://b.ngrok.io"]])
  = "https://a.ngrok.io".
Proof.
  destruct (ngrok_first_answer_decides
              [None; Some []] ["http://a.ngrok.io"; "https://a.ngrok.io"]
              [Some ["https://b.ngrok.io"]] "http://a.ngrok.io") as [_ [_ [_ H]]].
  - intros ts v [E | [E | []]]; [discriminate | injection E as <-; intros []].
  - now left.
  - discriminate.
  - exact H.
Defined.

(** ** The earlier gate *)

(** X19.  The Basic-Auth gate of the earlier server, and the one that
    replaced it.  With a password set, the earlier gate looks at the
    Basic-Auth password only: with the right one (under any user name) the
    request goes to the wrapped handler as it is, and the current gate
    passes such a request too, unless it is the POST of the login form.
    Without Basic-Auth, or with another password, the earlier gate answers
    401 with a [WWW-Authenticate] challenge, and the wrapped handler does
    not run: no call into the file system is made and nothing changes
    there. *)
Theorem earlier_gate_checks_the_password_only
        (h : Handler) (pw : string) (r : Request) (w : World) :
  pw <> "" ->
  (forall user, BasicAuth r = Some (user, pw) ->
     BasicAuthOnly.applyAuthMiddleware h pw r w = h r w
     /\ (isLoginPost r = false -> applyAuthMiddleware h pw r w = h r w))
  /\ (basicAuthMatches r pw = false ->
      let w' := snd (BasicAuthOnly.applyAuthMiddleware h pw r w) in
      Status (resp w') = Some (match Status (resp w) with
                               | Some c => c
                               | None => 401%Z
                               end)
      /\ assoc "WWW-Authenticate" (Header (resp w'))
         = Some ("Basic realm=" ++ dq ++ "go_share_cli" ++ dq)
      /\ Body (resp w') = (Body (resp w) ++ [Bytes ("Unauthorized" ++ newline)])%list
      /\ fs w' = fs w /\ ops w' = ops w).
Proof.
  intro Hpw. split.
  - intros user Hb. split.
    + unfold BasicAuthOnly.applyAuthMiddleware.
      now rewrite (eqb_false_of_neq _ _ Hpw), Hb, String.eqb_refl.
    + intro Hlogin. rewrite (gate_basic h pw r Hlogin); [reflexivity|].
      unfold basicAuthMatches. rewrite Hb. apply String.eqb_refl.
  - intros Hb w'. subst w'.
    assert (Hrun : BasicAuthOnly.applyAuthMiddleware h pw r
                   = (Header_Set "WWW-Authenticate"
                                 ("Basic realm=" ++ dq ++ "go_share_cli" ++ dq) ;;
                      http_Error "Unauthorized" 401)).
    { unfold BasicAuthOnly.applyAuthMiddleware, basicAuthMatches in *.
      rewrite (eqb_false_of_neq _ _ Hpw).
      destruct (BasicAuth r) as [[user pass]|]; [|reflexivity].
      now rewrite Hb. }
    rewrite Hrun.
    unfold http_Error, Header_Set, WriteHeader, Write, modifyResp, bind.
    cbn [fst snd fs resp ops now Header Status Body SetCookie].
    repeat split.
    + now destruct (Status (resp w)).
    + rewrite !assoc_setKey_other by discriminate. apply assoc_setKey_same.
Qed.

(** A browser that sends the password under some user name. *)
Lemma earlier_gate_checks_the_password_only_witness :
  BasicAuthOnly.applyAuthMiddleware
    (ServeHTTP (sampleHandler "s3")) "s3"
    (mkRequest "GET" (mkURL "/" []) [] (Some ("anyone", "s3")) [] None)
    (freshWorld sampleRoot 0)
  = ServeHTTP (sampleHandler "s3")
              (mkRequest "GET" (mkURL "/" []) [] (Some ("anyone", "s3")) [] None)
              (freshWorld sampleRoot 0).
Proof.
  exact (proj1 (proj1 (earlier_gate_checks_the_password_only
                         (ServeHTTP (sampleHandler "s3")) "s3"
                         (mkRequest "GET" (mkURL "/" []) []
                                    (Some ("anyone", "s3")) [] None)
                         (freshWorld sampleRoot 0) ltac:(discriminate))
                      "anyone" eq_refl)).
Defined.

(** ** Upload, then download *)

(** [os.MkdirAll] of a directory that is there keeps it as it is. *)
Lemma mkdirAll_keeps (clock : Z) (elems : list string) :
  forall n es sz mt a,
    Os.lookup n elems = inr (Dir es sz mt a) ->
    exists n', Os.mkdirAll clock elems n = Some n'
               /\ Os.lookup n' elems = inr (Dir es sz mt a).
Proof.
  induction elems as [|e rest IH]; intros n es sz mt a Hl.
  - cbn in Hl. injection Hl as ->. exists (Dir es sz mt a). now split.
  - destruct n as [|es' sz' mt' [|]]; try discriminate.
    cbn [Os.lookup] in Hl. cbn [Os.mkdirAll].
    destruct (Os.findEntry e es') as [c|] eqn:Hfind; try discriminate.
    destruct (IH c es sz mt a Hl) as [c' [Hmk Hl']]. rewrite Hmk.
    eexists. split; [reflexivity|].
    cbn [Os.lookup]. now rewrite findEntry_putEntry.
Qed.

(** [os.Create] goes through in a directory that is there, at a name that
    is free or holds a file that can be written. *)
Lemma create_in_dir (clock : Z) (dir : list string) (name : string) :
  forall n es sz mt,
    Os.lookup n dir = inr (Dir es sz mt true) ->
    writable (Os.findEntry name es) = true ->
    exists n', Os.create clock (dir ++ [name]) n = Some n'.
Proof.
  unfold Os.create.
  induction dir as [|e rest IH]; intros n es sz mt Hl Hw.
  - cbn in Hl. injection Hl as ->. cbn [app Os.alter].
    destruct (Os.findEntry name es) as [[c m [|]|]|]; try discriminate;
      eexists; reflexivity.
  - destruct n as [|es' sz' mt' [|]]; try discriminate.
    cbn [Os.lookup] in Hl.
    destruct (Os.findEntry e es') as [c|] eqn:Hfind; try discriminate.
    destruct (IH c es sz mt Hl Hw) as [c' Hc'].
    cbn [app Os.alter]. rewrite Hfind, Hc'.
    destruct (rest ++ [name])%list eqn:Hne; [now destruct rest|].
    eexists; reflexivity.
Qed.

(** X20.  What was uploaded comes back.  With the shared root a clean
    absolute path: after a POST to [/upload] that carries one good file
    part [name] for a directory that is there (the name free in it, or
    held by a file that can be written), the answer is a 303 redirect whose
    [Location] ends in [uploaded=1] (and is the directory followed by
    [?uploaded=1] when the names of the directory are plain: printing
    ASCII without [%], [?] and [#]), and a GET of [<directory>/name] on the
    file system
    the upload left behind serves exactly the bytes of the part, under that
    name, with the time of the upload as modification time (200 for a
    request without range or conditional headers). *)
Theorem upload_then_download
        (fh : FileHandler) (up get : Request) (base cs : list string)
        (name content : string) (root : Node) (clock clock' : Z)
        (es : list (string * Node)) (sz mt : Z) :
  rootDir fh = rootedPath base ->
  Forall (fun e => validName e = true) base ->
  Forall (fun e => validName e = true) (cs ++ [name]) ->
  Os.lookup root (base ++ cs) = inr (Dir es sz mt true) ->
  writable (Os.findEntry name es) = true ->
  Method up = "POST" -> Path (Url up) = "/upload" ->
  FormValue up "directory" = rootedPath cs ->
  MultipartFile up = Some [("files", mkFileHeader name content false None)] ->
  Method get <> "OPTIONS" -> isUploadPost get = false ->
  HasPrefix (Path (Url get)) "/api/" = false ->
  Path (Url get) = rootedPath (cs ++ [name]) ->
  let w1 := serve (ServeHTTP fh) up root clock in
  let w2 := serve (ServeHTTP fh) get (fs w1) clock' in
  Status (resp w1) = Some 303%Z
  /\ (exists front,
        assoc "Location" (Header (resp w1)) = Some (front ++ "uploaded=1"))
  /\ (Forall (fun e => plainName e = true) cs ->
      assoc "Location" (Header (resp w1)) = Some (rootedPath cs ++ "?uploaded=1"))
  /\ Status (resp w2) = Some 200%Z
  /\ Body (resp w2) = [ServedContent name clock content].
Proof.
  intros Hroot Hb Hv Hdir Hfree Hm Hp Hform Hparts Hgm Hgup Hgapi Hgp w1 w2.
  assert (Hcs : Forall (fun e => validName e = true) cs)
    by (apply Forall_app in Hv; tauto).
  assert (Hname : validName name = true)
    by (apply Forall_app in Hv as [_ Hn]; now inversion Hn).
  destruct (upload_clean_path fh up base cs Hroot Hb Hcs Hform)
    as [Hclean [Hfs Hin]].
  assert (Hall : Forall (fun e => validName e = true) (base ++ cs))
    by (apply Forall_app; now split).
  destruct (mkdirAll_keeps clock (base ++ cs) root es sz mt true Hdir)
    as [root1 [Hmk Hdir1]].
  destruct (create_in_dir clock (base ++ cs) name root1 es sz mt Hdir1 Hfree)
    as [root2 Hcreate].
  set (fsDir := rootedPath (base ++ cs)).
  set (f := mkFileHeader name content false None).
  assert (Hdest : Os.pathElems (Join [fsDir; Filename f])
                  = (base ++ cs ++ [name])%list).
  { subst fsDir f. cbn [Filename]. rewrite Join_child by assumption.
    rewrite rootedPath_pathElems, <- app_assoc; [reflexivity|].
    apply Forall_app; split; [assumption | now constructor]. }
  assert (Hrun : exists w0,
             fs w0 = root1 /\ now w0 = clock /\ Status (resp w0) = None
             /\ w1 = snd (http_Redirect up
                            (uploadRedirect (rootedPath cs)
                                            (fst (uploadLoop fsDir [f] 0 w0)))
                            303 (snd (uploadLoop fsDir [f] 0 w0)))).
  { subst w1. unfold serve, ServeHTTP. rewrite Hm, Hp.
    change ("POST" =? "OPTIONS") with false.
    change ("/upload" =? "/api/auth/check") with false.
    change (HasPrefix "/upload" "/api/") with false.
    change (("POST" =? "POST") && ("/upload" =? "/upload")) with true. cbv iota.
    rewrite handleUpload_paths, Hparts, Hin, Hfs, Hclean. cbn [negb].
    change (filesOf "files" [("files", mkFileHeader name content false None)])
      with [f].
    run_response. rewrite os_MkdirAll_run. run_response.
    rewrite rootedPath_pathElems, Hmk by assumption. cbn [fst snd negb].
    eexists. repeat split; [..|reflexivity]; reflexivity. }
  destruct Hrun as [w0 [Hfs0 [Hnow0 [Hst0 Hw1]]]].
  assert (Hsaved : outcome fsDir f w0 = Saved).
  { unfold outcome. cbn [OpenErr CopyErrAt f]. rewrite Hdest, Hfs0, Hnow0.
    rewrite <- app_assoc in Hcreate. now rewrite Hcreate. }
  assert (Hfile : Os.lookup (fs w1) (base ++ cs ++ [name])
                  = inr (File content clock true)).
  { rewrite Hw1, http_Redirect_fs.
    pose proof (afterOne_saved fsDir f w0 Hsaved) as H.
    rewrite Hdest, Hnow0 in H. exact H. }
  assert (Hcount : fst (uploadLoop fsDir [f] 0 w0) = 1%Z).
  { rewrite uploadLoop_count. cbn [outcomes]. rewrite Hsaved. reflexivity. }
  assert (Hloc : assoc "Location" (Header (resp w1))
                 = Some (NetUrl.hexEscapeNonASCII
                           (redirectURL up (uploadRedirect (rootedPath cs) 1)))).
  { rewrite Hw1, (http_Redirect_resp _ _ _ _ Hm), uploadLoop_resp, Hcount.
    cbn [Header]. apply assoc_setKey_same. }
  split; [|split; [|split]].
  - rewrite Hw1, (http_Redirect_resp _ _ _ _ Hm), uploadLoop_resp, Hst0. reflexivity.
  - destruct (redirect_keeps_count up (rootedPath cs) 1 ltac:(lia)) as [front Hfront].
    exists front. now rewrite Hloc, Hfront.
  - intro Hplain. rewrite Hloc. f_equal.
    assert (Hq : Contains (rootedPath cs) "?" = false).
    { destruct (Contains (rootedPath cs) "?") eqn:Hc; [|reflexivity].
      destruct (Contains_split _ Hc) as [a [b Hab]].
      assert (Hno : allBytes (fun c => negb (Ascii.eqb c "?")) (rootedPath cs) = true)
        by (apply allBytes_rootedPath; [reflexivity|];
            apply plainNames_bytes; [plain_byte | assumption]).
      rewrite Hab, allBytes_app in Hno. cbn [allBytes] in Hno.
      rewrite Ascii.eqb_refl in Hno. cbn [negb andb] in Hno.
      now rewrite andb_false_r in Hno. }
    unfold uploadRedirect. rewrite Hq. cbn [Z.gtb Z.compare].
    now apply (redirect_plain up cs "?uploaded=1").
  - destruct (get_file_answer fh get base cs name (fs w1) clock' content clock true
                              Hroot Hb Hv Hgm Hgup Hgapi Hgp Hfile)
      as [_ [_ [_ [Hstatus [Hbody _]]]]].
    split; assumption.
Qed.

(** [notes.txt] sent to the sample share and fetched again. *)
Lemma upload_then_download_witness :
  let up := mkRequest "POST" (mkURL "/upload" []) [] None [("directory", "/sub")]
                      (Some [("files", mkFileHeader "notes.txt" "remember"
                                                    false None)]) in
  let w1 := serve (ServeHTTP (sampleHandler "")) up sampleRoot 7 in
  let w2 := serve (ServeHTTP (sampleHandler ""))
                  (plainRequest "GET" "/sub/notes.txt" []) (fs w1) 9 in
  Body (resp w2) = [ServedContent "notes.txt" 7 "remember"].
Proof.
  intros up w1 w2.
  refine (proj2 (proj2 (proj2 (proj2 (upload_then_download
                                 (sampleHandler "") up
                                 (plainRequest "GET" "/sub/notes.txt" [])
                                 ["share"] ["sub"] "notes.txt" "remember"
                                 sampleRoot 7 9 [] 4096%Z 40%Z
                                 eq_refl _ _ eq_refl eq_refl eq_refl eq_refl
                                 eq_refl eq_refl _ eq_refl eq_refl eq_refl)))));
    [repeat constructor | repeat constructor | discriminate].
Defined.

(** ** Sessions and the status probe *)

(** X21.  The session cookie is a fixed word.  A request that sends back
    the cookies a successful login was answered with passes the gate - and
    not only the gate of the password that was typed: the cookie carries
    nothing of the password, so the same request reaches the wrapped
    handler unchanged under every password the server may be started
    with. *)
Theorem session_cookie_is_a_fixed_word
        (h : Handler) (pw : string) (login r : Request) (root : Node) (clock : Z) :
  pw <> "" ->
  Method login = "POST" -> Path (Url login) = "/login" ->
  FormValue login "password" = pw ->
  (forall c,
      In c (SetCookie (resp (serve (applyAuthMiddleware h pw) login root clock))) ->
      Cookie_of r (CookieName c) = Some (CookieValue c)) ->
  isLoginPost r = false ->
  forall (h' : Handler) (pw' : string), applyAuthMiddleware h' pw' r = h' r.
Proof.
  intros Hpw Hm Hp Hsub Hback Hr h' pw'.
  rewrite (login_answer h pw login root clock Hpw Hm Hp Hsub) in Hback.
  specialize (Hback sessionCookie (or_introl eq_refl)).
  apply gate_session; [assumption|].
  unfold hasSession. cbn [CookieName CookieValue sessionCookie] in Hback.
  now rewrite Hback.
Qed.

(** Logged in under "secret", let in under "other". *)
Lemma session_cookie_is_a_fixed_word_witness :
  let r := mkRequest "GET" (mkURL "/" []) [("auth_session", "authenticated")]
                     None [] None in
  applyAuthMiddleware (ServeHTTP (sampleHandler "other")) "other" r
  = ServeHTTP (sampleHandler "other") r.
Proof.
  intro r.
  refine (session_cookie_is_a_fixed_word
            (ServeHTTP (sampleHandler "secret")) "secret"
            (mkRequest "POST" (mkURL "/login" []) [] None
                       [("password", "secret")] None)
            r sampleRoot 0 _ eq_refl eq_refl eq_refl _ eq_refl
            (ServeHTTP (sampleHandler "other")) "other").
  - discriminate.
  - intros c [<- | []]. reflexivity.
Defined.

(** X22.  The status probe answers everyone.  With the React bundle
    present, a request for [/api/auth/check] (other than a preflight) gets
    200 whatever it brings; the body says [true] exactly when the server has
    no password, or the request carries the session cookie or the password
    by Basic-Auth, and [false] otherwise.  The file system is not asked. *)
Theorem status_probe_answers_everyone
        (fh : FileHandler) (r : Request) (root : Node) (clock : Z) :
  Method r <> "OPTIONS" -> Path (Url r) = "/api/auth/check" ->
  let w := serve (route fh true) r root clock in
  Status (resp w) = Some 200%Z
  /\ Body (resp w)
     = [Bytes (if (password fh =? "") || hasSession r
                  || basicAuthMatches r (password fh)
               then authTrueBody else authFalseBody)]
  /\ assoc "Content-Type" (Header (resp w)) = Some "application/json"
  /\ SetCookie (resp w) = [] /\ ops w = [] /\ fs w = root.
Proof.
  intros Hm Hp w. subst w. unfold serve, route. rewrite Hp.
  change (HasPrefix "/api/auth/check" "/api/") with true. cbv iota.
  unfold ServeHTTP. rewrite (eqb_false_of_neq _ _ Hm), Hp.
  change ("/api/auth/check" =? "/api/auth/check") with true. cbv iota zeta.
  destruct (password fh =? ""); [|destruct (hasSession r);
                                  [|destruct (basicAuthMatches r (password fh))]];
    cbn [orb]; run_response; repeat split.
Qed.

(** Password "secret", nothing sent: 200 and [false]. *)
Lemma status_probe_answers_everyone_witness :
  let w := serve (route (sampleHandler "secret") true)
                 (plainRequest "GET" "/api/auth/check" []) sampleRoot 0 in
  Status (resp w) = Some 200%Z /\ Body (resp w) = [Bytes authFalseBody].
Proof.
  destruct (status_probe_answers_everyone
              (sampleHandler "secret") (plainRequest "GET" "/api/auth/check" [])
              sampleRoot 0 ltac:(discriminate) eq_refl) as [Hs [Hb _]].
  split; [exact Hs | exact Hb].
Defined.
